(** * Trip planner backend: orchestrator, mapping facade and singletons

    A shallow embedding of
    - [app/agents/trip_planner_agent.py]  ([MultiAgentTripPlanner]),
    - [app/services/amap_service.py]      (asynchronous mapping facade),
    - [app/services/amap_service_sync.py] (blocking mapping facade),
    - [app/services/llm_service.py]       (chat-model singletons),
    - [app/api/routes/poi.py]             (the two routes over the facade),
    together with the parts of the Python runtime those files lean on
    ([str], [datetime], exceptions, dictionaries). *)

From Stdlib Require Import ZArith NArith Lia List Bool.
From Stdlib Require Import Strings.String Strings.Ascii.
From Stdlib Require Import Numbers.DecimalString.
From Stdlib Require Import Floats.PrimFloat Numbers.Cyclic.Int63.Uint63.
From stdpp Require Import base option list gmap.

Set Warnings "-inexact-float,-register-all".

Local Open Scope Z_scope.

(** ** Python strings

    A Python [str] is a sequence of Unicode code points.  Literals of the
    source are written [u "..."]: the UTF-8 bytes of the Rocq literal are
    decoded into code points. *)

Module Str.

Abbreviation pystr := (list N).

Fixpoint utf8 (bs : list N) : pystr :=
  match bs with
  | [] => []
  | b0 :: r0 =>
    if (b0 <? 128)%N then b0 :: utf8 r0
    else
      match r0 with
      | [] => []
      | b1 :: r1 =>
        if (b0 <? 224)%N then ((b0 - 192) * 64 + (b1 - 128))%N :: utf8 r1
        else
          match r1 with
          | [] => []
          | b2 :: r2 =>
            if (b0 <? 240)%N
            then ((b0 - 224) * 4096 + (b1 - 128) * 64 + (b2 - 128))%N :: utf8 r2
            else
              match r2 with
              | [] => []
              | b3 :: r3 =>
                ((b0 - 240) * 262144 + (b1 - 128) * 4096
                 + (b2 - 128) * 64 + (b3 - 128))%N :: utf8 r3
              end
          end
      end
  end.

Definition u (s : string) : pystr :=
  utf8 (List.map N_of_ascii (list_ascii_of_string s)).

(** [a == b] on [str]. *)
Definition eqb (a b : pystr) : bool := bool_decide (a = b).

(** [str(i)] for an [int]. *)
Definition of_int (z : Z) : pystr := u (NilZero.string_of_int (Z.to_int z)).

(** [s.startswith(sub)], the test behind [find] and [in]. *)
Fixpoint prefixb (sub s : pystr) : bool :=
  match sub, s with
  | [], _ => true
  | _ :: _, [] => false
  | a :: sub', b :: s' => (a =? b)%N && prefixb sub' s'
  end.

(** [find_aux sub s i]: lowest index at which [sub] occurs in [s], offset by
    [i]; [-1] when there is none. *)
Fixpoint find_aux (sub s : pystr) (i : Z) {struct s} : Z :=
  if prefixb sub s then i
  else match s with
       | [] => -1
       | _ :: s' => find_aux sub s' (i + 1)
       end.

Definition len (s : pystr) : Z := Z.of_nat (length s).

(** Slice bounds: a negative index counts from the end, and the result is
    clamped to [0 .. len s]. *)
Definition clamp (s : pystr) (i : Z) : Z :=
  let i' := if i <? 0 then i + len s else i in
  Z.max 0 (Z.min i' (len s)).

(** [s[i:j]]. *)
Definition slice (s : pystr) (i j : Z) : pystr :=
  let a := clamp s i in
  let b := clamp s j in
  take (Z.to_nat (b - a)) (drop (Z.to_nat a) s).

(** [s.find(sub)] and [s.find(sub, start)]. *)
Definition find (sub s : pystr) : Z := find_aux sub s 0.

Definition find_from (sub s : pystr) (start : Z) : Z :=
  let a := if start <? 0 then Z.max 0 (start + len s) else start in
  if len s <? a then -1 else find_aux sub (drop (Z.to_nat a) s) a.

(** [s.rfind(sub)]: highest index, [-1] when there is none. *)
Fixpoint rfind_aux (sub s : pystr) (i last : Z) {struct s} : Z :=
  let last' := if prefixb sub s then i else last in
  match s with
  | [] => last'
  | _ :: s' => rfind_aux sub s' (i + 1) last'
  end.

Definition rfind (sub s : pystr) : Z := rfind_aux sub s 0 (-1).

(** [sub in s]. *)
Definition contains (sub s : pystr) : bool := negb (find sub s =? -1).

(** [str.isspace] on one code point (CPython's [Py_UNICODE_ISSPACE]). *)
Definition isspace (c : N) : bool :=
  ((9 <=? c) && (c <=? 13) || (28 <=? c) && (c <=? 32)
   || (c =? 133) || (c =? 160) || (c =? 5760)
   || (8192 <=? c) && (c <=? 8202)
   || (c =? 8232) || (c =? 8233) || (c =? 8239) || (c =? 8287)
   || (c =? 12288))%N.

Fixpoint lstrip (s : pystr) : pystr :=
  match s with
  | c :: s' => if isspace c then lstrip s' else s
  | [] => []
  end.

(** [s.strip()]. *)
Definition strip (s : pystr) : pystr := reverse (lstrip (reverse (lstrip s))).

(** [sep.join(parts)]. *)
Fixpoint join (sep : pystr) (parts : list pystr) : pystr :=
  match parts with
  | [] => []
  | [p] => p
  | p :: rest => p ++ sep ++ join sep rest
  end.

(** [s.split(sep)] for a one-character separator. *)
Fixpoint split_aux (sep : N) (s cur : pystr) : list pystr :=
  match s with
  | [] => [reverse cur]
  | c :: s' =>
    if (c =? sep)%N then reverse cur :: split_aux sep s' []
    else split_aux sep s' (c :: cur)
  end.

Definition split (sep : N) (s : pystr) : list pystr := split_aux sep s [].

End Str.
Export Str.

(** ** Exceptions

    The classes of [Exception] that the modelled code and its libraries
    raise.  [RemoteError] stands for any failure of a remote provider or of
    the transport; [ValidationError] is the data model's rejection of a
    record.  Every one of them is caught by [except Exception]. *)

Inductive exn :=
| ValueError | TypeError | IndexError | KeyError | AttributeError
| OverflowError | ValidationError | RemoteError.

Inductive outcome (A : Type) :=
| Ok (a : A)
| Raise (e : exn).
Arguments Ok {A} a.
Arguments Raise {A} e.

Definition rbind {A B} (r : outcome A) (k : A -> outcome B) : outcome B :=
  match r with
  | Ok a => k a
  | Raise e => Raise e
  end.

(** [try: body  except Exception: handler]. *)
Definition rcatch {A} (body : outcome A) (handler : exn -> outcome A) : outcome A :=
  match body with
  | Ok a => Ok a
  | Raise e => handler e
  end.

Fixpoint rmapM {A B} (f : A -> outcome B) (l : list A) : outcome (list B) :=
  match l with
  | [] => Ok []
  | x :: l' => rbind (f x) (fun y => rbind (rmapM f l') (fun ys => Ok (y :: ys)))
  end.

Definition is_ok {A} (r : outcome A) : bool :=
  match r with Ok _ => true | Raise _ => false end.

(** ** The [datetime] module

    Proleptic Gregorian dates as CPython's [_pydatetime] computes them.  The
    planner only builds midnight datetimes and adds whole days, so a datetime
    is modelled by its date. *)

Module Datetime.

Record date := mkdate { year : Z; month : Z; day : Z }.

Definition MINYEAR : Z := 1.
Definition MAXYEAR : Z := 9999.
Definition MAXORDINAL : Z := 3652059.

Definition is_leap (y : Z) : bool :=
  (y mod 4 =? 0) && (negb (y mod 100 =? 0) || (y mod 400 =? 0)).

Definition days_before_year (y : Z) : Z :=
  let p := y - 1 in p * 365 + p / 4 - p / 100 + p / 400.

Definition DAYS_IN_MONTH : list Z :=
  [-1; 31; 28; 31; 30; 31; 30; 31; 31; 30; 31; 30; 31].

Definition DAYS_BEFORE_MONTH : list Z :=
  [-1; 0; 31; 59; 90; 120; 151; 181; 212; 243; 273; 304; 334].

Definition tbl (t : list Z) (m : Z) : Z := default 0 (t !! Z.to_nat m).

Definition days_in_month (y m : Z) : Z :=
  if (m =? 2) && is_leap y then 29 else tbl DAYS_IN_MONTH m.

Definition days_before_month (y m : Z) : Z :=
  tbl DAYS_BEFORE_MONTH m + (if (2 <? m) && is_leap y then 1 else 0).

Definition ymd2ord (d : date) : Z :=
  days_before_year (year d) + days_before_month (year d) (month d) + day d.

Definition DI400Y : Z := 146097.
Definition DI100Y : Z := 36524.
Definition DI4Y : Z := 1461.

Definition ord2ymd (n0 : Z) : date :=
  let n := n0 - 1 in
  let n400 := n / DI400Y in
  let n := n mod DI400Y in
  let y := n400 * 400 + 1 in
  let n100 := n / DI100Y in
  let n := n mod DI100Y in
  let n4 := n / DI4Y in
  let n := n mod DI4Y in
  let n1 := n / 365 in
  let n := n mod 365 in
  let y := y + n100 * 100 + n4 * 4 + n1 in
  if (n1 =? 4) || (n100 =? 4) then mkdate (y - 1) 12 31
  else
    let leapyear := (n1 =? 3) && (negb (n4 =? 24) || (n100 =? 3)) in
    let m := Z.shiftr (n + 50) 5 in
    let preceding := tbl DAYS_BEFORE_MONTH m + (if (2 <? m) && leapyear then 1 else 0) in
    if n <? preceding
    then
      let m' := m - 1 in
      let preceding' :=
        preceding - (tbl DAYS_IN_MONTH m' + (if (m' =? 2) && leapyear then 1 else 0)) in
      mkdate y m' (n - preceding' + 1)
    else mkdate y m (n - preceding + 1).

(** [d + timedelta(days=i)]: both the construction of the [timedelta] and
    the addition raise [OverflowError] out of range. *)
Definition add_days (d : date) (i : Z) : outcome date :=
  if 999999999 <? Z.abs i then Raise OverflowError
  else
    let o := ymd2ord d + i in
    if (0 <? o) && (o <=? MAXORDINAL) then Ok (ord2ymd o) else Raise OverflowError.

(** Zero padding on the left up to [w] digits. *)
Definition zpad (w : nat) (z : Z) : pystr :=
  let s := of_int z in replicate (w - length s) 48%N ++ s.

(** [d.strftime("%Y-%m-%d")].  The C library formats [%Y]: glibc leaves a
    year below 1000 unpadded, other platforms pad it to four digits;
    [pad_year] says which. *)
Definition strftime (pad_year : bool) (d : date) : pystr :=
  (if pad_year then zpad 4 (year d) else of_int (year d))
  ++ u "-" ++ zpad 2 (month d) ++ u "-" ++ zpad 2 (day d).

(** Code points of the zero of every block of Unicode decimal digits
    (category Nd, Unicode 14): what [\d] matches and [int] converts. *)
Definition ND_ZEROS : list N :=
  [48; 1632; 1776; 1984; 2406; 2534; 2662; 2790; 2918; 3046; 3174; 3302;
   3430; 3558; 3664; 3792; 3872; 4160; 4240; 6112; 6160; 6470; 6608; 6784;
   6800; 6992; 7088; 7232; 7248; 42528; 43216; 43264; 43472; 43504; 43600;
   44016; 65296; 66720; 68912; 69734; 69872; 69942; 70096; 70384; 70736;
   70864; 71248; 71360; 71472; 71904; 72016; 72784; 73040; 73120; 92768;
   92864; 93008; 120782; 120792; 120802; 120812; 120822; 123200; 123632;
   125264; 130032]%N.

Fixpoint digit_in (zs : list N) (c : N) : option Z :=
  match zs with
  | [] => None
  | z :: zs' =>
    if ((z <=? c) && (c <? z + 10))%N then Some (Z.of_N (c - z)) else digit_in zs' c
  end.

Definition digit (c : N) : option Z := digit_in ND_ZEROS c.

(** An ASCII digit between [lo] and [hi], as in the class [[lo-hi]]. *)
Definition ascii_digit (lo hi : Z) (c : N) : option Z :=
  let v := Z.of_N c - 48 in
  if (lo <=? v) && (v <=? hi) then Some v else None.

(** The alternatives of [%m], in the order the regular expression tries
    them: [1[0-2]|0[1-9]|[1-9]]. *)
Definition month_alts (s : pystr) : list (Z * pystr) :=
  match s with
  | [] => []
  | c0 :: r0 =>
    let two :=
      match r0 with
      | c1 :: r1 =>
        (if (c0 =? 49)%N
         then match ascii_digit 0 2 c1 with Some v => [(10 + v, r1)] | None => [] end
         else [])
        ++ (if (c0 =? 48)%N
            then match ascii_digit 1 9 c1 with Some v => [(v, r1)] | None => [] end
            else [])
      | [] => []
      end in
    two ++ match ascii_digit 1 9 c0 with Some v => [(v, r0)] | None => [] end
  end.

(** The alternatives of [%d]: [3[0-1]|[1-2]\d|0[1-9]|[1-9]| [1-9]]. *)
Definition day_alts (s : pystr) : list (Z * pystr) :=
  match s with
  | [] => []
  | c0 :: r0 =>
    let two :=
      match r0 with
      | c1 :: r1 =>
        (if (c0 =? 51)%N
         then match ascii_digit 0 1 c1 with Some v => [(30 + v, r1)] | None => [] end
         else [])
        ++ (match ascii_digit 1 2 c0, digit c1 with
            | Some a, Some b => [(10 * a + b, r1)]
            | _, _ => []
            end)
        ++ (if (c0 =? 48)%N
            then match ascii_digit 1 9 c1 with Some v => [(v, r1)] | None => [] end
            else [])
      | [] => []
      end in
    let one := match ascii_digit 1 9 c0 with Some v => [(v, r0)] | None => [] end in
    let blank :=
      match r0 with
      | c1 :: r1 =>
        if (c0 =? 32)%N
        then match ascii_digit 1 9 c1 with Some v => [(v, r1)] | None => [] end
        else []
      | [] => []
      end in
    two ++ one ++ blank
  end.

(** First way, in the order of the alternatives, in which the part of the
    pattern after [%Y-] matches a prefix of [s]. *)
Definition match_month_day (s : pystr) : option (Z * Z * pystr) :=
  head (flat_map (fun '(m, r) =>
                    match r with
                    | c :: r' =>
                      if (c =? 45)%N
                      then List.map (fun '(d, rest) => (m, d, rest)) (day_alts r')
                      else []
                    | [] => []
                    end) (month_alts s)).

(** [datetime.strptime(s, "%Y-%m-%d")]. *)
Definition strptime (s : pystr) : outcome date :=
  match s with
  | y1 :: y2 :: y3 :: y4 :: c :: r =>
    match digit y1, digit y2, digit y3, digit y4 with
    | Some a, Some b, Some c3, Some d =>
      if (c =? 45)%N then
        match match_month_day r with
        | Some (m, dd, rest) =>
          match rest with
          | [] =>
            let y := 1000 * a + 100 * b + 10 * c3 + d in
            if (MINYEAR <=? y) && (dd <=? days_in_month y m)
            then Ok (mkdate y m dd)
            else Raise ValueError
          | _ :: _ => Raise ValueError
          end
        | None => Raise ValueError
        end
      else Raise ValueError
    | _, _, _, _ => Raise ValueError
    end
  | _ => Raise ValueError
  end.

End Datetime.

(** ** Python values

    What the remote tools, the JSON decoder and the agent hand back: [None],
    numbers, strings, lists, dictionaries with string keys (in insertion
    order) and plain objects with attributes. *)

Inductive pyval :=
| VNone
| VBool (b : bool)
| VInt (z : Z)
| VFloat (f : float)
| VStr (s : pystr)
| VList (l : list pyval)
| VDict (d : list (pystr * pyval))
| VObj (attrs : list (pystr * pyval)).

Fixpoint assoc (k : pystr) (d : list (pystr * pyval)) : option pyval :=
  match d with
  | [] => None
  | (k', v) :: d' => if Str.eqb k k' then Some v else assoc k d'
  end.

(** [int] operand of a float operation ([i * 0.01]); exact below [2^53]. *)
Definition float_of_int (z : Z) : float := PrimFloat.of_uint63 (Uint63.of_Z z).

(** ** Data model

    Modelled from the spec: the record types of [app/models/schemas.py],
    which the services import, after the data-model section of the
    specification.  Optional fields are [option]s; a field the fallback
    generator does not pass is absent. *)

Inductive number := Int (z : Z) | Float (f : float).

Module Location.
Record t := mk { longitude : float; latitude : float }.
End Location.

Module TripRequest.
Record t := mk {
  city : pystr;
  start_date : pystr;
  end_date : pystr;
  travel_days : Z;
  transportation : pystr;
  accommodation : pystr;
  preferences : list pystr;
  free_text_input : option pystr }.
End TripRequest.

Module Attraction.
Record t := mk {
  name : pystr;
  address : pystr;
  location : Location.t;
  visit_duration : Z;
  description : pystr;
  category : pystr;
  ticket_price : option number }.
End Attraction.

Module Meal.
Inductive kind := breakfast | lunch | dinner.
Record t := mk {
  type : kind;
  name : pystr;
  description : pystr;
  estimated_cost : option number }.
End Meal.

Module Hotel.
Record t := mk {
  name : pystr;
  address : pystr;
  location : Location.t;
  price_range : pystr;
  rating : pystr;
  distance : pystr;
  type : pystr;
  estimated_cost : option number }.
End Hotel.

Module WeatherInfo.
Record t := mk {
  date : pystr;
  dayweather : pystr;
  nightweather : pystr;
  daytemp : Z;
  nighttemp : Z;
  daywind : pystr;
  daypower : pystr;
  nightwind : pystr;
  nightpower : pystr }.
End WeatherInfo.

Module DayPlan.
Record t := mk {
  date : pystr;
  day_index : Z;
  description : pystr;
  transportation : pystr;
  accommodation : pystr;
  hotel : option Hotel.t;
  attractions : list Attraction.t;
  meals : list Meal.t }.
End DayPlan.

Module Budget.
Record t := mk {
  total_attractions : number;
  total_hotels : number;
  total_meals : number;
  total_transportation : number;
  total : number }.
End Budget.

Module TripPlan.
Record t := mk {
  city : pystr;
  start_date : pystr;
  end_date : pystr;
  days : list DayPlan.t;
  weather_info : list WeatherInfo.t;
  overall_suggestions : pystr;
  budget : option Budget.t }.
End TripPlan.

(** [range(n)]. *)
Definition range (n : Z) : list Z := List.map Z.of_nat (seq 0 (Z.to_nat n)).

(** ** The fallback plan ([MultiAgentTripPlanner._create_fallback_plan]) *)

Section Fallback.

(** Whether the platform's [strftime] pads [%Y] (see [Datetime.strftime]). *)
Variable pad_year : bool.

Variable request : TripRequest.t.

(** The attraction built for [j] in [range(2)] on day [i]. *)
Definition fallback_attraction (i j : Z) : Attraction.t :=
  Attraction.mk
    (TripRequest.city request ++ u "景点" ++ of_int (j + 1))
    (TripRequest.city request ++ u "市")
    (Location.mk
       (116.4 + float_of_int i * 0.01 + float_of_int j * 0.005)%float
       (39.9 + float_of_int i * 0.01 + float_of_int j * 0.005)%float)
    120
    (u "这是" ++ TripRequest.city request ++ u "的著名景点")
    (u "景点")
    None.

Definition fallback_meals (i : Z) : list Meal.t :=
  [ Meal.mk Meal.breakfast (u "第" ++ of_int (i + 1) ++ u "天早餐") (u "当地特色早餐") None;
    Meal.mk Meal.lunch (u "第" ++ of_int (i + 1) ++ u "天午餐") (u "午餐推荐") None;
    Meal.mk Meal.dinner (u "第" ++ of_int (i + 1) ++ u "天晚餐") (u "晚餐推荐") None ].

(** One turn of the loop [for i in range(request.travel_days)]. *)
Definition fallback_day (start : Datetime.date) (i : Z) : outcome DayPlan.t :=
  rbind (Datetime.add_days start i) (fun current_date =>
  Ok (DayPlan.mk
        (Datetime.strftime pad_year current_date)
        i
        (u "第" ++ of_int (i + 1) ++ u "天行程")
        (TripRequest.transportation request)
        (TripRequest.accommodation request)
        None
        (List.map (fallback_attraction i) (range 2))
        (fallback_meals i))).

Definition _create_fallback_plan : outcome TripPlan.t :=
  rbind (Datetime.strptime (TripRequest.start_date request)) (fun start_date =>
  rbind (rmapM (fallback_day start_date) (range (TripRequest.travel_days request)))
        (fun days =>
  Ok (TripPlan.mk
        (TripRequest.city request)
        (TripRequest.start_date request)
        (TripRequest.end_date request)
        days
        []
        (u "这是为您规划的" ++ TripRequest.city request
           ++ of_int (TripRequest.travel_days request)
           ++ u "日游行程,建议提前查看各景点的开放时间。")
        None))).

End Fallback.

Definition beijing_request (start : string) (n : Z) : TripRequest.t :=
  TripRequest.mk (u "北京") (u start) (u start) n (u "地铁") (u "经济型") [] None.


(** ** Parsing the agent's reply ([MultiAgentTripPlanner._parse_response]) *)

Section Parse.

(** [json.loads] on a [str], and the constructor [TripPlan] applied to the
    decoded dictionary as keyword arguments: the validation of the
    data model, which is not part of the modelled files. *)
Variable json_loads : pystr -> outcome pyval.
Variable TripPlan_of : pyval -> outcome TripPlan.t.
Variable pad_year : bool.

(** The first half of the [try] block: the text that is handed to
    [json.loads]. *)
Definition extract_json (response : pystr) : outcome pystr :=
  if contains (u "```json") response then
    let json_start := find (u "```json") response + 7 in
    let json_end := find_from (u "```") response json_start in
    Ok (strip (slice response json_start json_end))
  else if contains (u "```") response then
    let json_start := find (u "```") response + 3 in
    let json_end := find_from (u "```") response json_start in
    Ok (strip (slice response json_start json_end))
  else if contains (u "{") response && contains (u "}") response then
    let json_start := find (u "{") response in
    let json_end := rfind (u "}") response + 1 in
    Ok (slice response json_start json_end)
  else Raise ValueError.

(** The whole [try] block.  A reply that is not a [str] makes the first
    [in] test or the first [find] raise. *)
Definition parse_body (response : pyval) : outcome TripPlan.t :=
  rbind (match response with
         | VStr s => extract_json s
         | _ => Raise TypeError
         end) (fun json_str =>
  rbind (json_loads json_str) (fun data =>
  TripPlan_of data)).

Definition _parse_response (response : pyval) (request : TripRequest.t)
  : outcome TripPlan.t :=
  rcatch (parse_body response) (fun _ => _create_fallback_plan pad_year request).

End Parse.

(** ** Objects, remote tools and the world

    Objects live in a heap and are known by their address, so that "the
    same instance" means the same address.  The world also records the calls
    made so far; what a remote party answers may depend on that history. *)

Abbreviation ref := nat.

(** A handle on a remote tool of the mapping provider ([BaseTool]). *)
Record tool := mk_tool { tool_name : pystr; tool_id : N }.

(** The agent built by [create_agent(model=..., system_prompt=...)]. *)
Record agent := mk_agent { agent_model : ref; agent_prompt : pystr }.

Inductive class := HelloAgentsLLM | ChatOpenAI | AmapService | MultiAgentTripPlanner.

Inductive obj :=
| OLlm
| OChat (model base_url : pystr)
| OService (mcp_tools : option (list tool)) (mcp_tools_dict : option (gmap pystr tool))
| OPlanner (llm llm_doubao : ref) (planner_agent : option agent).

Inductive event :=
| Call (operation : pystr) (arguments : list pyval)
| ToolRun (t : tool) (arguments : gmap pystr pyval)
| GetTools
| AgentInvoke (a : agent) (query : pystr)
| Construct (c : class).

(** Module globals, [os.environ] and the heap. *)
Record store := mk_store {
  heap : list obj;
  environ : gmap pystr pystr;
  _amap_mcp_tool : option (list tool);
  _amap_service : option ref;
  sync_amap_mcp_tool : option (list tool);
  sync_amap_service : option ref;
  _llm_instance : option ref;
  _llm_instance_doubao : option ref;
  _multi_agent_planner : option ref }.

Record world := mk_world { mem : store; trace : list event }.

(** Modelled from the spec: the settings record of [app/config.py]. *)
Record Settings := mk_settings {
  amap_api_key : pystr;
  openai_api_key : pystr;
  openai_model : pystr;
  openai_base_url : pystr }.

(** Everything outside the modelled files: library functions, the data
    model's validation, and the remote parties, each answering from the
    history of calls. *)
Record externals := mk_externals {
  pad_year : bool;
  json_loads : pystr -> outcome pyval;
  TripPlan_of : pyval -> outcome TripPlan.t;
  Location_of : pystr -> pystr -> outcome Location.t;
  str_of_float : float -> pystr;
  format_value : pyval -> pystr;
  PLANNER_AGENT_PROMPT : pystr;
  get_settings : outcome Settings;
  get_tools : list event -> outcome (list tool);
  arun : list event -> tool -> gmap pystr pyval -> outcome pyval;
  invoke : list event -> agent -> pystr -> outcome pyval;
  construct : list event -> class -> outcome unit;
  create_agent : list event -> ref -> pystr -> outcome agent }.

(** State and exceptions: a computation runs in a world and ends with a
    value or an exception, leaving the world it changed. *)
Definition M (A : Type) : Type := world -> outcome A * world.

Definition ret {A} (a : A) : M A := fun w => (Ok a, w).

Definition raise {A} (e : exn) : M A := fun w => (Raise e, w).

Definition bind {A B} (m : M A) (k : A -> M B) : M B :=
  fun w => match m w with
           | (Ok a, w') => k a w'
           | (Raise e, w') => (Raise e, w')
           end.

Notation "'do' x <- m ; k" := (bind m (fun x => k))
  (at level 10, x name, m at level 100, k at level 200).

Definition lift {A} (r : outcome A) : M A := fun w => (r, w).

(** [try: body  except Exception as e: handler]. *)
Definition mcatch {A} (body : M A) (handler : exn -> M A) : M A :=
  fun w => match body w with
           | (Ok a, w') => (Ok a, w')
           | (Raise e, w') => handler e w'
           end.

Definition get_store : M store := fun w => (Ok (mem w), w).

Definition put_store (s : store) : M unit := fun w => (Ok tt, mk_world s (trace w)).

Definition emit (e : event) : M unit :=
  fun w => (Ok tt, mk_world (mem w) (trace w ++ [e])).

(** Ask a remote party: its answer is a function of the history. *)
Definition ask {A} (answer : list event -> outcome A) (e : event) : M A :=
  fun w => (answer (trace w), mk_world (mem w) (trace w ++ [e])).

Definition set_heap (h : list obj) (s : store) : store :=
  mk_store h (environ s) (_amap_mcp_tool s) (_amap_service s)
    (sync_amap_mcp_tool s) (sync_amap_service s)
    (_llm_instance s) (_llm_instance_doubao s) (_multi_agent_planner s).

Definition set_environ (e : gmap pystr pystr) (s : store) : store :=
  mk_store (heap s) e (_amap_mcp_tool s) (_amap_service s)
    (sync_amap_mcp_tool s) (sync_amap_service s)
    (_llm_instance s) (_llm_instance_doubao s) (_multi_agent_planner s).

Definition set_amap_mcp_tool (v : option (list tool)) (s : store) : store :=
  mk_store (heap s) (environ s) v (_amap_service s)
    (sync_amap_mcp_tool s) (sync_amap_service s)
    (_llm_instance s) (_llm_instance_doubao s) (_multi_agent_planner s).

Definition set_amap_service (v : option ref) (s : store) : store :=
  mk_store (heap s) (environ s) (_amap_mcp_tool s) v
    (sync_amap_mcp_tool s) (sync_amap_service s)
    (_llm_instance s) (_llm_instance_doubao s) (_multi_agent_planner s).

Definition set_sync_amap_mcp_tool (v : option (list tool)) (s : store) : store :=
  mk_store (heap s) (environ s) (_amap_mcp_tool s) (_amap_service s)
    v (sync_amap_service s)
    (_llm_instance s) (_llm_instance_doubao s) (_multi_agent_planner s).

Definition set_sync_amap_service (v : option ref) (s : store) : store :=
  mk_store (heap s) (environ s) (_amap_mcp_tool s) (_amap_service s)
    (sync_amap_mcp_tool s) v
    (_llm_instance s) (_llm_instance_doubao s) (_multi_agent_planner s).

Definition set_llm_instance (v : option ref) (s : store) : store :=
  mk_store (heap s) (environ s) (_amap_mcp_tool s) (_amap_service s)
    (sync_amap_mcp_tool s) (sync_amap_service s)
    v (_llm_instance_doubao s) (_multi_agent_planner s).

Definition set_llm_instance_doubao (v : option ref) (s : store) : store :=
  mk_store (heap s) (environ s) (_amap_mcp_tool s) (_amap_service s)
    (sync_amap_mcp_tool s) (sync_amap_service s)
    (_llm_instance s) v (_multi_agent_planner s).

Definition set_multi_agent_planner (v : option ref) (s : store) : store :=
  mk_store (heap s) (environ s) (_amap_mcp_tool s) (_amap_service s)
    (sync_amap_mcp_tool s) (sync_amap_service s)
    (_llm_instance s) (_llm_instance_doubao s) v.

Definition modify (f : store -> store) : M unit :=
  fun w => (Ok tt, mk_world (f (mem w)) (trace w)).

(** A new object: its address is the next free one. *)
Definition alloc (o : obj) : M ref :=
  fun w => (Ok (length (heap (mem w))),
            mk_world (set_heap (heap (mem w) ++ [o]) (mem w)) (trace w)).

Definition load (r : ref) : M obj :=
  fun w => match heap (mem w) !! r with
           | Some o => (Ok o, w)
           | None => (Raise AttributeError, w)
           end.

Definition store_at (r : ref) (o : obj) : M unit :=
  modify (fun s => set_heap (<[r := o]> (heap s)) s).

(** ** Operations on Python values *)

(** [v[i]] for [i] = 0 or -1 and beyond. *)
Definition list_index {A} (l : list A) (i : Z) : outcome A :=
  let j := if i <? 0 then i + Z.of_nat (length l) else i in
  if j <? 0 then Raise IndexError
  else match l !! Z.to_nat j with
       | Some x => Ok x
       | None => Raise IndexError
       end.

Definition py_index (v : pyval) (i : Z) : outcome pyval :=
  match v with
  | VList l => list_index l i
  | VStr s => rbind (list_index s i) (fun c => Ok (VStr [c]))
  | VDict _ => Raise KeyError
  | _ => Raise TypeError
  end.

(** [v.get(key)] and [v.get(key, default)]. *)
Definition py_get (v : pyval) (key : pystr) (default : pyval) : outcome pyval :=
  match v with
  | VDict d => Ok (match assoc key d with Some x => x | None => default end)
  | _ => Raise AttributeError
  end.

(** [v.name]. *)
Definition py_attr (v : pyval) (name : pystr) : outcome pyval :=
  match v with
  | VObj attrs =>
    match assoc name attrs with Some x => Ok x | None => Raise AttributeError end
  | _ => Raise AttributeError
  end.

(** [for x in v]. *)
Definition py_iter (v : pyval) : outcome (list pyval) :=
  match v with
  | VList l => Ok l
  | VStr s => Ok (List.map (fun c => VStr [c]) s)
  | VDict d => Ok (List.map (fun kv => VStr (fst kv)) d)
  | _ => Raise TypeError
  end.

(** [v.split(',')]. *)
Definition py_split_comma (v : pyval) : outcome (list pystr) :=
  match v with
  | VStr s => Ok (split 44 s)
  | _ => Raise AttributeError
  end.

(** [str(b).lower()] for a [bool]. *)
Definition lower_bool (b : bool) : pystr := if b then u "true" else u "false".

(** Truth value of an optional string ([if city:]). *)
Definition truthy_str (s : option pystr) : bool :=
  match s with
  | Some (_ :: _) => true
  | _ => false
  end.

Definition opt_str (s : option pystr) : pyval :=
  match s with Some x => VStr x | None => VNone end.

(** ** The mapping facade, asynchronous ([app/services/amap_service.py])

    [await] is sequencing here: nothing else runs between the steps of one
    operation.  Each public operation notes its own call in the trace, with
    its arguments in the order origin, origin city, destination, destination
    city, route type for [plan_route]. *)

Module Amap.
Section Amap.
Context (X : externals).

(** [get_amap_mcp_tool]: the tool list, fetched once. *)
Definition get_amap_mcp_tool : M (list tool) :=
  do settings <- lift (get_settings X);
  do s <- get_store;
  match _amap_mcp_tool s with
  | None =>
    do tools <- ask (get_tools X) GetTools;
    do _ <- modify (set_amap_mcp_tool (Some tools));
    ret tools
  | Some tools => ret tools
  end.

(** The loop [for tool in self.mcp_tools: self.mcp_tools_dict[tool.name] = tool]. *)
Definition tools_dict (tools : list tool) : gmap pystr tool :=
  foldl (fun d t => <[tool_name t := t]> d) ∅ tools.

Definition init_mcp_tools (self : ref) : M unit :=
  do tools <- get_amap_mcp_tool;
  store_at self (OService (Some tools) (Some (tools_dict tools))).

(** [self.mcp_tools_dict]. *)
Definition self_mcp_tools_dict (self : ref) : M (gmap pystr tool) :=
  do o <- load self;
  match o with
  | OService _ (Some d) => ret d
  | _ => raise AttributeError
  end.

(** [self.mcp_tools_dict.get(name)] followed by [if not tool: raise
    ValueError(...)]; a tool handle is never falsy. *)
Definition get_tool (self : ref) (name : pystr) : M tool :=
  do d <- self_mcp_tools_dict self;
  match d !! name with
  | Some t => ret t
  | None => raise ValueError
  end.

(** [await tool.arun(arguments)]. *)
Definition tool_arun (t : tool) (arguments : gmap pystr pyval) : M pyval :=
  ask (fun h => arun X h t arguments) (ToolRun t arguments).

(** [json.loads(result[0].get('text'))]. *)
Definition decode_result (result : pyval) : outcome pyval :=
  rbind (py_index result 0) (fun first =>
  rbind (py_get first (u "text") VNone) (fun text =>
  match text with
  | VStr s => json_loads X s
  | _ => Raise TypeError
  end)).

Definition get_weather (self : ref) (city : pystr) : M pyval :=
  do _ <- emit (Call (u "get_weather") [VStr city]);
  mcatch
    (do tool <- get_tool self (u "maps_weather");
     do result <- tool_arun tool {[ u "city" := VStr city ]};
     do weather_json <- lift (decode_result result);
     do forecasts <- lift (py_get weather_json (u "forecasts") VNone);
     ret forecasts)
    (fun _ => ret (VList [])).

Definition search_poi (self : ref) (keywords city : pystr) (citylimit : bool) : M pyval :=
  do _ <- emit (Call (u "search_poi") [VStr keywords; VStr city; VBool citylimit]);
  mcatch
    (do tool <- get_tool self (u "maps_text_search");
     do result <- tool_arun tool
                 (<[ u "keywords" := VStr keywords ]>
                    (<[ u "city" := VStr city ]>
                       {[ u "citylimit" := VStr (lower_bool citylimit) ]}));
     do poi_json <- lift (decode_result result);
     do pois <- lift (py_get poi_json (u "pois") VNone);
     ret pois)
    (fun _ => ret (VList [])).

(** One turn of the loop over [results] in [geocode]. *)
Definition geocode_one (r : pyval) : outcome Location.t :=
  rbind (py_get r (u "location") VNone) (fun location =>
  rbind (py_split_comma location) (fun location_split =>
  rbind (list_index location_split 0) (fun lon =>
  rbind (list_index location_split 1) (fun lat =>
  Location_of X lon lat)))).

Definition geocode_arguments (address : pystr) (city : option pystr)
  : gmap pystr pyval :=
  if truthy_str city
  then <[ u "city" := opt_str city ]> {[ u "address" := VStr address ]}
  else {[ u "address" := VStr address ]}.

Definition geocode (self : ref) (address : pystr) (city : option pystr)
  : M (option (list Location.t)) :=
  do _ <- emit (Call (u "geocode") [VStr address; opt_str city]);
  mcatch
    (do tool <- get_tool self (u "maps_geo");
     do result <- tool_arun tool (geocode_arguments address city);
     do result_json <- lift (decode_result result);
     do results <- lift (py_get result_json (u "results") VNone);
     do items <- lift (py_iter results);
     do geos <- lift (rmapM geocode_one items);
     ret (Some geos))
    (fun _ => ret None).

(** [str(locations[0].longitude) + "," + str(locations[0].latitude)]:
    subscripting [None] is a [TypeError], an empty list an [IndexError]. *)
Definition location_str (locations : option (list Location.t)) : outcome pystr :=
  match locations with
  | None => Raise TypeError
  | Some [] => Raise IndexError
  | Some (l :: _) =>
    Ok (str_of_float X (Location.longitude l) ++ u ","
        ++ str_of_float X (Location.latitude l))
  end.

(** [tool_map.get(route_type, "maps_direction_walking")]. *)
Definition route_tool_name (route_type : pystr) : pystr :=
  if Str.eqb route_type (u "walking") then u "maps_direction_walking"
  else if Str.eqb route_type (u "driving") then u "maps_direction_driving"
  else if Str.eqb route_type (u "transit") then u "maps_direction_transit_integrated"
  else u "maps_direction_walking".

Definition route_arguments (origin destination : pystr) (city1 city2 : pyval)
    (route_type : pystr) : gmap pystr pyval :=
  let arguments :=
    <[ u "origin" := VStr origin ]> {[ u "destination" := VStr destination ]} in
  if Str.eqb route_type (u "transit")
  then <[ u "city2" := city2 ]> (<[ u "city1" := city1 ]> arguments)
  else arguments.

(** The part of [plan_route] after the arguments are built. *)
Definition run_route_tool (self : ref) (tool_name : pystr)
    (arguments : gmap pystr pyval) : M pyval :=
  do tool <- get_tool self tool_name;
  do result <- tool_arun tool arguments;
  do route_json <- lift (decode_result result);
  do route <- lift (py_get route_json (u "route") VNone);
  do paths <- lift (py_get route (u "paths") VNone);
  ret paths.

Definition plan_route (self : ref)
    (origin_address origin_city destination_address destination_city route_type : pystr)
  : M pyval :=
  do _ <- emit (Call (u "plan_route")
          [VStr origin_address; VStr origin_city; VStr destination_address;
           VStr destination_city; VStr route_type]);
  mcatch
    (let tool_name := route_tool_name route_type in
     do origin_address_locations <- geocode self origin_address (Some origin_city);
     do origin_address_location_str <- lift (location_str origin_address_locations);
     do destination_address_locations <-
       geocode self destination_address (Some destination_city);
     do destination_address_location_str <-
       lift (location_str destination_address_locations);
     let arguments :=
       route_arguments origin_address_location_str destination_address_location_str
         (VStr origin_city) (VStr destination_city) route_type in
     run_route_tool self tool_name arguments)
    (fun _ => ret (VList [])).

Definition get_poi_detail (self : ref) (poi_id : pystr) : M pyval :=
  do _ <- emit (Call (u "get_poi_detail") [VStr poi_id]);
  mcatch
    (do tool <- get_tool self (u "maps_search_detail");
     do result <- tool_arun tool {[ u "id" := VStr poi_id ]};
     do poi_detail_info <- lift (decode_result result);
     ret poi_detail_info)
    (fun _ => ret (VDict [])).

(** [get_amap_service]: the service instance, built once. *)
Definition get_amap_service : M ref :=
  do s <- get_store;
  match _amap_service s with
  | None =>
    do _ <- emit (Construct AmapService);
    do r <- alloc (OService None None);
    do _ <- modify (set_amap_service (Some r));
    ret r
  | Some r => ret r
  end.

End Amap.
End Amap.

(** ** The mapping facade, blocking ([app/services/amap_service_sync.py])

    [asyncio.run(inner(...))] runs the inner coroutine to its end and hands
    back its result or its exception. *)

Module AmapSync.
Section AmapSync.
Context (X : externals).

Definition get_amap_mcp_tool : M (list tool) :=
  do settings <- lift (get_settings X);
  do s <- get_store;
  match sync_amap_mcp_tool s with
  | None =>
    do tools <- ask (get_tools X) GetTools;
    do _ <- modify (set_sync_amap_mcp_tool (Some tools));
    ret tools
  | Some tools => ret tools
  end.

(** [AmapService.__init__]: the catalog is resolved while the object is
    built. *)
Definition new_AmapService : M ref :=
  do _ <- emit (Construct AmapService);
  do tools <- get_amap_mcp_tool;
  alloc (OService (Some tools) (Some (Amap.tools_dict tools))).

Definition _get_weather_async (self : ref) (city : pystr) : M pyval :=
  mcatch
    (do tool <- Amap.get_tool self (u "maps_weather");
     do result <- Amap.tool_arun X tool {[ u "city" := VStr city ]};
     do weather_json <- lift (Amap.decode_result X result);
     do forecasts <- lift (py_get weather_json (u "forecasts") VNone);
     ret forecasts)
    (fun _ => ret (VList [])).

Definition get_weather (self : ref) (city : pystr) : M pyval :=
  do _ <- emit (Call (u "get_weather") [VStr city]);
  _get_weather_async self city.

Definition _search_poi_async (self : ref) (keywords city : pystr) (citylimit : bool)
  : M pyval :=
  mcatch
    (do tool <- Amap.get_tool self (u "maps_text_search");
     do result <- Amap.tool_arun X tool
                 (<[ u "keywords" := VStr keywords ]>
                    (<[ u "city" := VStr city ]>
                       {[ u "citylimit" := VStr (lower_bool citylimit) ]}));
     do poi_json <- lift (Amap.decode_result X result);
     do pois <- lift (py_get poi_json (u "pois") VNone);
     ret pois)
    (fun _ => ret (VList [])).

Definition search_poi (self : ref) (keywords city : pystr) (citylimit : bool) : M pyval :=
  do _ <- emit (Call (u "search_poi") [VStr keywords; VStr city; VBool citylimit]);
  _search_poi_async self keywords city citylimit.

Definition _geocode_async (self : ref) (address : pystr) (city : option pystr)
  : M (option (list Location.t)) :=
  mcatch
    (do tool <- Amap.get_tool self (u "maps_geo");
     do result <- Amap.tool_arun X tool (Amap.geocode_arguments address city);
     do result_json <- lift (Amap.decode_result X result);
     do results <- lift (py_get result_json (u "results") VNone);
     do items <- lift (py_iter results);
     do geos <- lift (rmapM (Amap.geocode_one X) items);
     ret (Some geos))
    (fun _ => ret None).

Definition geocode (self : ref) (address : pystr) (city : option pystr)
  : M (option (list Location.t)) :=
  do _ <- emit (Call (u "geocode") [VStr address; opt_str city]);
  _geocode_async self address city.

(** The inner coroutine of [plan_route]: its [origin_address] and
    [destination_address] are the coordinate strings. *)
Definition _play_route_async (self : ref)
    (origin_address : pystr) (origin_city : option pystr)
    (destination_address : pystr) (destination_city : option pystr)
    (route_type : pystr) : M pyval :=
  mcatch
    (let tool_name := Amap.route_tool_name route_type in
     let arguments :=
       Amap.route_arguments origin_address destination_address
         (opt_str origin_city) (opt_str destination_city) route_type in
     Amap.run_route_tool X self tool_name arguments)
    (fun _ => ret (VList [])).

(** [plan_route]: both addresses are geocoded before the inner coroutine
    starts, outside its [try]. *)
Definition plan_route (self : ref)
    (origin_address destination_address : pystr)
    (origin_city destination_city : option pystr) (route_type : pystr) : M pyval :=
  do _ <- emit (Call (u "plan_route")
          [VStr origin_address; opt_str origin_city; VStr destination_address;
           opt_str destination_city; VStr route_type]);
  do origin_address_locations <- geocode self origin_address origin_city;
  do origin_address_location_str <-
    lift (Amap.location_str X origin_address_locations);
  do destination_address_locations <- geocode self destination_address destination_city;
  do destination_address_location_str <-
    lift (Amap.location_str X destination_address_locations);
  _play_route_async self origin_address_location_str origin_city
    destination_address_location_str destination_city route_type.

Definition _get_poi_detail_async (self : ref) (poi_id : pystr) : M pyval :=
  mcatch
    (do tool <- Amap.get_tool self (u "maps_search_detail");
     do result <- Amap.tool_arun X tool {[ u "id" := VStr poi_id ]};
     do poi_detail_info <- lift (Amap.decode_result X result);
     ret poi_detail_info)
    (fun _ => ret (VDict [])).

Definition get_poi_detail (self : ref) (poi_id : pystr) : M pyval :=
  do _ <- emit (Call (u "get_poi_detail") [VStr poi_id]);
  _get_poi_detail_async self poi_id.

Definition get_amap_service : M ref :=
  do s <- get_store;
  match sync_amap_service s with
  | None =>
    do r <- new_AmapService;
    do _ <- modify (set_sync_amap_service (Some r));
    ret r
  | Some r => ret r
  end.

End AmapSync.
End AmapSync.

(** ** The orchestrator ([app/agents/trip_planner_agent.py]) and the
    chat-model singletons ([app/services/llm_service.py]) *)

Definition NL : pystr := [10%N].
Definition SP (n : nat) : pystr := replicate n 32%N.

(** [', '.join(request.preferences) if request.preferences else '无']. *)
Definition preferences_text (request : TripRequest.t) : pystr :=
  match TripRequest.preferences request with
  | [] => u "无"
  | ps => join (u ", ") ps
  end.

Module Planner.
Section Planner.
Context (X : externals).

Definition _build_planner_query (request : TripRequest.t)
    (attractions weather hotels : pyval) : pystr :=
  let query :=
    u "请根据以下信息生成" ++ TripRequest.city request ++ u "的" ++ of_int (TripRequest.travel_days request) ++ u "天旅行计划:"
    ++ NL
    ++ NL ++ SP 12 ++ u "**基本信息:**"
    ++ NL ++ SP 12 ++ u "- 城市: " ++ TripRequest.city request
    ++ NL ++ SP 12 ++ u "- 日期: " ++ TripRequest.start_date request ++ u " 至 " ++ TripRequest.end_date request
    ++ NL ++ SP 12 ++ u "- 天数: " ++ of_int (TripRequest.travel_days request) ++ u "天"
    ++ NL ++ SP 12 ++ u "- 交通方式: " ++ TripRequest.transportation request
    ++ NL ++ SP 12 ++ u "- 住宿: " ++ TripRequest.accommodation request
    ++ NL ++ SP 12 ++ u "- 偏好: " ++ preferences_text request
    ++ NL
    ++ NL ++ SP 12 ++ u "**景点信息:**"
    ++ NL ++ SP 12 ++ format_value X attractions
    ++ NL
    ++ NL ++ SP 12 ++ u "**天气信息:**"
    ++ NL ++ SP 12 ++ format_value X weather
    ++ NL
    ++ NL ++ SP 12 ++ u "**酒店信息:**"
    ++ NL ++ SP 12 ++ format_value X hotels
    ++ NL
    ++ NL ++ SP 12 ++ u "**要求:**"
    ++ NL ++ SP 12 ++ u "1. 每天安排2-3个景点"
    ++ NL ++ SP 12 ++ u "2. 每天必须包含早中晚三餐"
    ++ NL ++ SP 12 ++ u "3. 每天推荐一个具体的酒店(从酒店信息中选择)"
    ++ NL ++ SP 12 ++ u "3. 考虑景点之间的距离和交通方式"
    ++ NL ++ SP 12 ++ u "4. 返回完整的JSON格式数据"
    ++ NL ++ SP 12 ++ u "5. 景点的经纬度坐标要真实准确"
    ++ NL ++ SP 12 in
  match TripRequest.free_text_input request with
  | Some (c :: rest) => query ++ NL ++ u "**额外要求:** " ++ (c :: rest)
  | _ => query
  end.

(** A constructor call: the library may refuse, otherwise the new object
    gets the next address. *)
Definition new (c : class) (o : obj) : M ref :=
  do _ <- ask (fun h => construct X h c) (Construct c);
  alloc o.

(** [llm_service.get_llm]. *)
Definition get_llm : M ref :=
  do s <- get_store;
  match _llm_instance s with
  | None =>
    do settings <- lift (get_settings X);
    do r <- new HelloAgentsLLM OLlm;
    do _ <- modify (set_llm_instance (Some r));
    ret r
  | Some r => ret r
  end.

Definition OPENAI_API_KEY : pystr := u "OPENAI_API_KEY".

(** [llm_service.get_llm_DouBao].  The tests [not os.environ.get(...)] and
    [not _llm_instance_doubao] are truth tests: an empty key counts as
    missing, an instance never does. *)
Definition get_llm_DouBao : M ref :=
  do settings <- lift (get_settings X);
  do s <- get_store;
  do _ <- (if truthy_str (environ s !! OPENAI_API_KEY) then ret tt
           else modify (fun s =>
                  set_environ (<[OPENAI_API_KEY := openai_api_key settings]> (environ s)) s));
  do s <- get_store;
  match _llm_instance_doubao s with
  | None =>
    do r <- new ChatOpenAI (OChat (openai_model settings) (openai_base_url settings));
    do _ <- modify (set_llm_instance_doubao (Some r));
    ret r
  | Some r => ret r
  end.

(** [llm_service.reset_llm]. *)
Definition reset_llm : M unit := modify (set_llm_instance None).

(** [MultiAgentTripPlanner.__init__]. *)
Definition new_MultiAgentTripPlanner : M ref :=
  do _ <- emit (Construct MultiAgentTripPlanner);
  do llm <- get_llm;
  do llm_doubao <- get_llm_DouBao;
  alloc (OPlanner llm llm_doubao None).

(** [initialize_agents]: a failure is logged and raised again. *)
Definition initialize_agents (self : ref) : M unit :=
  mcatch
    (do o <- load self;
     match o with
     | OPlanner llm llm_doubao _ =>
       do a <- ask (fun h => create_agent X h llm_doubao (PLANNER_AGENT_PROMPT X))
                 (Call (u "create_agent") []);
       store_at self (OPlanner llm llm_doubao (Some a))
     | _ => raise AttributeError
     end)
    (fun e => raise e).

(** [self.planner_agent]. *)
Definition self_planner_agent (self : ref) : M agent :=
  do o <- load self;
  match o with
  | OPlanner _ _ (Some a) => ret a
  | _ => raise AttributeError
  end.

(** The keyword of the attraction search:
    [request.preferences[0] if request.preferences else "景点"]. *)
Definition attraction_keyword (request : TripRequest.t) : pystr :=
  match TripRequest.preferences request with
  | p :: _ => p
  | [] => u "景点"
  end.

(** The [try] block of [plan_trip]. *)
Definition plan_trip_body (self : ref) (request : TripRequest.t) : M TripPlan.t :=
  do service <- Amap.get_amap_service;
  do _ <- Amap.init_mcp_tools X service;
  do attraction_response <-
    Amap.search_poi X service (attraction_keyword request) (TripRequest.city request) true;
  do weather_response <- Amap.get_weather X service (TripRequest.city request);
  do hotel_response <-
    Amap.search_poi X service (u "{request.accommodation}酒店")
      (TripRequest.city request) true;
  let planner_query :=
    _build_planner_query request attraction_response weather_response hotel_response in
  do planner_agent <- self_planner_agent self;
  do planner_response <-
    ask (fun h => invoke X h planner_agent planner_query)
        (AgentInvoke planner_agent planner_query);
  do messages <- lift (py_get planner_response (u "messages") (VList []));
  do last_message <- lift (py_index messages (-1));
  do content <- lift (py_attr last_message (u "content"));
  lift (_parse_response (json_loads X) (TripPlan_of X) (pad_year X) content request).

(** [plan_trip]: the handler logs the exception and answers with the
    fallback generator, which runs outside any [try]. *)
Definition plan_trip (self : ref) (request : TripRequest.t) : M TripPlan.t :=
  mcatch (plan_trip_body self request)
         (fun _ => lift (_create_fallback_plan (pad_year X) request)).

(** [get_trip_planner_agent]. *)
Definition get_trip_planner_agent : M ref :=
  do s <- get_store;
  match _multi_agent_planner s with
  | None =>
    do r <- new_MultiAgentTripPlanner;
    do _ <- modify (set_multi_agent_planner (Some r));
    do _ <- initialize_agents r;
    ret r
  | Some r => ret r
  end.

End Planner.
End Planner.

(** ** Notions used in the statements *)

(** *** The calendar *)

Module Calendar.
Import Datetime.

(** Month and day of the [n]-th day (from 0) of a year: the tail of
    [ord2ymd]. *)
Definition md_of_doy (leapyear : bool) (n : Z) : Z * Z :=
  let m := Z.shiftr (n + 50) 5 in
  let preceding := tbl DAYS_BEFORE_MONTH m + (if (2 <? m) && leapyear then 1 else 0) in
  if n <? preceding
  then
    let m' := m - 1 in
    let preceding' :=
      preceding - (tbl DAYS_IN_MONTH m' + (if (m' =? 2) && leapyear then 1 else 0)) in
    (m', n - preceding' + 1)
  else (m, n - preceding + 1).

Definition leap_of (b c e : Z) : bool := (e =? 3) && (negb (c =? 24) || (b =? 3)).

Definition year_len (leap : bool) : Z := if leap then 366 else 365.

(** The day after [d] in the Gregorian calendar. *)
Definition next_day (d : date) : date :=
  if day d <? days_in_month (year d) (month d)
  then mkdate (year d) (month d) (day d + 1)
  else if month d <? 12 then mkdate (year d) (month d + 1) 1
  else mkdate (year d + 1) 1 1.

(** [next_day] inside one year, on month and day alone. *)
Definition md_step (leap : bool) (md : Z * Z) : Z * Z :=
  if snd md <? (if (fst md =? 2) && leap then 29 else tbl DAYS_IN_MONTH (fst md))
  then (fst md, snd md + 1)
  else (fst md + 1, 1).

Fixpoint md_ok_from (leap : bool) (fuel : nat) (n : Z) : bool :=
  match fuel with
  | O => true
  | S fuel' =>
    bool_decide (md_of_doy leap (n + 1) = md_step leap (md_of_doy leap n))
    && ((fst (md_of_doy leap n) <? 12)
        || (fst (md_of_doy leap n) =? 12) && (snd (md_of_doy leap n) <? 31))
    && md_ok_from leap fuel' (n + 1)
  end.

Inductive decomp (n : Z) : Prop :=
| Decomp (a b c e doy : Z) :
    0 <= a -> 0 <= b < 4 -> 0 <= c < 25 -> 0 <= e < 4 ->
    0 <= doy < year_len (leap_of b c e) ->
    n = DI400Y * a + DI100Y * b + DI4Y * c + 365 * e + doy + 1 ->
    decomp n.

End Calendar.

(** *** Occurrences of a substring *)

(** [sub] occurs in [s] at index [i]; it occurs there first; it occurs there
    last. *)
Definition occurs_at (sub s : pystr) (i : nat) : Prop :=
  (i <= length s)%nat /\ sub `prefix_of` drop i s.

Definition first_at (sub s : pystr) (i : nat) : Prop :=
  occurs_at sub s i /\ forall j, (j < i)%nat -> ~ occurs_at sub s j.

Definition last_at (sub s : pystr) (i : nat) : Prop :=
  occurs_at sub s i /\ forall j, (i < j)%nat -> ~ occurs_at sub s j.

Fixpoint first_index (sub s : pystr) : option nat :=
  if prefixb sub s then Some 0%nat
  else match s with
       | [] => None
       | _ :: s' => S <$> first_index sub s'
       end.

Fixpoint last_index (sub s : pystr) : option nat :=
  match s with
  | [] => if prefixb sub [] then Some 0%nat else None
  | _ :: s' =>
    match last_index sub s' with
    | Some i => Some (S i)
    | None => if prefixb sub s then Some 0%nat else None
    end
  end.

(** *** Plans *)

(** The attractions of the days whose [day_index] is [i]. *)
Definition attractions_of_day (i : Z) (r : outcome TripPlan.t) : list Attraction.t :=
  match r with
  | Ok plan =>
    flat_map DayPlan.attractions
      (filter (fun day => DayPlan.day_index day = i) (TripPlan.days plan))
  | Raise _ => []
  end.

(** *** Effects *)

(** Running [m] only adds events that satisfy [Q] to the trace. *)
Definition grows {A} (Q : event -> Prop) (m : M A) : Prop :=
  forall w, exists tr, trace (snd (m w)) = trace w ++ tr /\ Forall Q tr.

(** Running [m] leaves the store as it is. *)
Definition keeps_store {A} (m : M A) : Prop :=
  forall w, mem (snd (m w)) = mem w.

(** [m] ends with a value. *)
Definition never_raises {A} (m : M A) : Prop :=
  forall w, exists a w', m w = (Ok a, w').

(** The service at [self] has been initialised with the catalog [d]. *)
Definition serves (w : world) (self : ref) (d : gmap pystr tool) : Prop :=
  exists ts, heap (mem w) !! self = Some (OService ts (Some d)).

(** The world once an operation has noted its call. *)
Definition noted (w : world) (e : event) : world := mk_world (mem w) (trace w ++ [e]).

(** The coordinate string of a resolved address. *)
Definition coordinates (X : externals) (l : Location.t) : pystr :=
  str_of_float X (Location.longitude l) ++ u "," ++ str_of_float X (Location.latitude l).

(** What [plan_trip] does once the hotel candidates are in. *)
Definition after_search (X : externals) (self : ref) (request : TripRequest.t)
    (attractions weather hotels : pyval) : M TripPlan.t :=
  let planner_query := Planner._build_planner_query X request attractions weather hotels in
  do planner_agent <- Planner.self_planner_agent self;
  do planner_response <-
    ask (fun h => invoke X h planner_agent planner_query)
        (AgentInvoke planner_agent planner_query);
  do messages <- lift (py_get planner_response (u "messages") (VList []));
  do last_message <- lift (py_index messages (-1));
  do content <- lift (py_attr last_message (u "content"));
  lift (_parse_response (json_loads X) (TripPlan_of X) (pad_year X) content request).

(** The step of [get_llm_DouBao] that fills [os.environ]. *)
Definition ensure_api_key (settings : Settings) : M unit :=
  do s <- get_store;
  if truthy_str (environ s !! Planner.OPENAI_API_KEY) then ret tt
  else modify (fun s =>
         set_environ (<[Planner.OPENAI_API_KEY := openai_api_key settings]> (environ s)) s).

(** The first two statements of [plan_trip]'s [try] block: the service
    instance, with its tools resolved. *)
Definition connect (X : externals) : M ref :=
  do service <- Amap.get_amap_service;
  do _ <- Amap.init_mcp_tools X service;
  ret service.

(** The arguments of the [search_poi] calls recorded in a trace. *)
Definition search_poi_calls (tr : list event) : list (list pyval) :=
  flat_map (fun e => match e with
                     | Call operation arguments =>
                       if Str.eqb operation (u "search_poi") then [arguments] else []
                     | _ => []
                     end) tr.

(** An event that is not a [search_poi] call. *)
Definition not_search (e : event) : Prop := search_poi_calls [e] = [].

(** ** A small concrete world

    One instance of the externals, used to run the model: a provider with
    seven tools whose payloads decode to a few fixed values, and an agent
    whose reply holds no JSON. *)

Definition demo_settings : Settings :=
  mk_settings (u "amap-key") (u "sk-key") (u "doubao") (u "https://llm.example").

Definition demo_tools : list tool :=
  [ mk_tool (u "maps_weather") 1;
    mk_tool (u "maps_text_search") 2;
    mk_tool (u "maps_geo") 3;
    mk_tool (u "maps_search_detail") 4;
    mk_tool (u "maps_direction_walking") 5;
    mk_tool (u "maps_direction_driving") 6;
    mk_tool (u "maps_direction_transit_integrated") 7 ].

(** The text each tool answers with, and what the decoder makes of it. *)
Definition demo_payload (t : tool) : pystr :=
  if (tool_id t =? 3)%N then u "<geo>"
  else if (5 <=? tool_id t)%N then u "<route>"
  else u "{}".

Definition demo_json_loads (s : pystr) : outcome pyval :=
  if Str.eqb s (u "{}") then Ok (VDict [])
  else if Str.eqb s (u "<geo>")
  then Ok (VDict [(u "results",
                   VList [VDict [(u "location", VStr (u "116.482086,39.990496"))]])])
  else if Str.eqb s (u "<route>")
  then Ok (VDict [(u "route", VDict [(u "paths", VList [])])])
  else Raise ValueError.

Definition demo_Location_of (lon lat : pystr) : outcome Location.t :=
  if Str.eqb lon (u "116.482086") && Str.eqb lat (u "39.990496")
  then Ok (Location.mk 116.482086%float 39.990496%float)
  else Raise ValidationError.

Definition demo_str_of_float (f : float) : pystr :=
  if PrimFloat.eqb f 116.482086%float then u "116.482086"
  else if PrimFloat.eqb f 39.990496%float then u "39.990496"
  else u "nan".

Definition demo_reply : pyval :=
  VDict [(u "messages", VList [VObj [(u "content", VStr (u "no plan today"))]])].

Definition demo : externals :=
  mk_externals false demo_json_loads
    (fun _ => Raise ValidationError)
    demo_Location_of demo_str_of_float
    (fun _ => u "...") (u "planner prompt")
    (Ok demo_settings)
    (fun _ => Ok demo_tools)
    (fun _ t _ => Ok (VList [VDict [(u "text", VStr (demo_payload t))]]))
    (fun _ _ _ => Ok demo_reply)
    (fun _ _ => Ok tt)
    (fun _ r p => Ok (mk_agent r p)).

(** The same, with the mapping provider and the agent out of reach. *)
Definition offline : externals :=
  mk_externals false demo_json_loads
    (fun _ => Raise ValidationError)
    demo_Location_of demo_str_of_float
    (fun _ => u "...") (u "planner prompt")
    (Ok demo_settings)
    (fun _ => Raise RemoteError)
    (fun _ _ _ => Raise RemoteError)
    (fun _ _ _ => Raise RemoteError)
    (fun _ _ => Ok tt)
    (fun _ r p => Ok (mk_agent r p)).

Definition empty_world : world :=
  mk_world (mk_store [] ∅ None None None None None None None) [].

(** The world after [connect]: the service is the object at address 0. *)
Definition ready_world : world := snd (connect demo empty_world).

(** The world once the orchestrator singleton exists: the two chat models
    are the objects at addresses 0 and 1, the orchestrator is at address 2. *)
Definition planner_world (X : externals) : world :=
  snd (Planner.get_trip_planner_agent X empty_world).

(** ** The POI routes ([app/api/routes/poi.py])

    The two routes that go through the mapping facade.  A route handler
    runs its [try] block and turns whatever the block raises into
    [HTTPException(status_code=500, detail=...)].  The response models live
    outside the modelled files. *)

(** The envelope of the two response models,
    [{success, message, data}]. *)
Record envelope := mk_envelope { success : bool; message : pystr; data : pyval }.

(** What the routes lean on besides the mapping facade: the validation of
    the [data] field by each response model, and [str(e)] of an exception. *)
Record web := mk_web {
  POIDetailResponse_data : pyval -> outcome pyval;
  POISearchResponse_data : pyval -> outcome pyval;
  str_of_exn : exn -> pystr }.

(** How a request ends: with the handler's return value, or with the
    [HTTPException] it raises. *)
Inductive reply (A : Type) :=
| Answer (a : A)
| HTTPException (status_code : Z) (detail : pystr).
Arguments Answer {A} a.
Arguments HTTPException {A} status_code detail.

Module Poi.
Section Poi.
Context (X : externals) (W : web).

(** [try: body  except Exception as e: raise HTTPException(500, label + str(e))]. *)
Definition handle {A} (label : pystr) (body : M A) : world -> reply A * world :=
  fun w => match body w with
           | (Ok a, w') => (Answer a, w')
           | (Raise e, w') => (HTTPException 500 (label ++ str_of_exn W e), w')
           end.

(** [GET /poi/detail/{poi_id}]. *)
Definition get_poi_detail (poi_id : pystr) : world -> reply envelope * world :=
  handle (u "获取POI详情失败: ")
    (do amap_service <- Amap.get_amap_service;
     do _ <- Amap.init_mcp_tools X amap_service;
     do result <- Amap.get_poi_detail X amap_service poi_id;
     do data <- lift (POIDetailResponse_data W result);
     ret (mk_envelope true (u "获取POI详情成功") data)).

(** [GET /poi/search]; [city] defaults to "北京" when the query leaves it
    out. *)
Definition search_poi (keywords : pystr) (city : option pystr)
  : world -> reply envelope * world :=
  let city := match city with Some c => c | None => u "北京" end in
  handle (u "搜索POI失败: ")
    (do amap_service <- Amap.get_amap_service;
     do _ <- Amap.init_mcp_tools X amap_service;
     do result <- Amap.search_poi X amap_service keywords city true;
     do data <- lift (POISearchResponse_data W result);
     ret (mk_envelope true (u "搜索成功") data)).

End Poi.
End Poi.

(** ** More concrete worlds and notions *)

(** A provider whose catalog loads but whose tools all fail. *)
Definition flaky : externals :=
  mk_externals false demo_json_loads
    (fun _ => Raise ValidationError)
    demo_Location_of demo_str_of_float
    (fun _ => u "...") (u "planner prompt")
    (Ok demo_settings)
    (fun _ => Ok demo_tools)
    (fun _ _ _ => Raise RemoteError)
    (fun _ _ _ => Ok demo_reply)
    (fun _ _ => Ok tt)
    (fun _ r p => Ok (mk_agent r p)).

(** A provider that is out of reach the first time its catalog is asked
    for, and answers from then on. *)
Definition asked_before (h : list event) : bool :=
  existsb (fun e => match e with GetTools => true | _ => false end) h.

Definition recovering : externals :=
  mk_externals false demo_json_loads
    (fun _ => Raise ValidationError)
    demo_Location_of demo_str_of_float
    (fun _ => u "...") (u "planner prompt")
    (Ok demo_settings)
    (fun h => if asked_before h then Ok demo_tools else Raise RemoteError)
    (fun _ t _ => Ok (VList [VDict [(u "text", VStr (demo_payload t))]]))
    (fun _ _ _ => Ok demo_reply)
    (fun _ _ => Ok tt)
    (fun _ r p => Ok (mk_agent r p)).

(** A world in which the agent library refuses to build the agent. *)
Definition agentless : externals :=
  mk_externals false demo_json_loads
    (fun _ => Raise ValidationError)
    demo_Location_of demo_str_of_float
    (fun _ => u "...") (u "planner prompt")
    (Ok demo_settings)
    (fun _ => Ok demo_tools)
    (fun _ t _ => Ok (VList [VDict [(u "text", VStr (demo_payload t))]]))
    (fun _ _ _ => Ok demo_reply)
    (fun _ _ => Ok tt)
    (fun _ _ _ => Raise RemoteError).

(** The world after the asynchronous accessor alone: the service at
    address 0 has no catalog yet. *)
Definition fresh_world : world := snd (Amap.get_amap_service empty_world).

(** [P] holds of [i], [i + 1], ..., for [fuel] numbers. *)
Fixpoint all_from (fuel : nat) (i : Z) (P : Z -> bool) : bool :=
  match fuel with
  | O => true
  | S fuel' => P i && all_from fuel' (i + 1) P
  end.

(** The four digits of a year, as a padded [%Y] writes them. *)
Definition year_digits (y : Z) : pystr :=
  [Z.to_N (48 + y / 1000); Z.to_N (48 + y / 100 mod 10);
   Z.to_N (48 + y / 10 mod 10); Z.to_N (48 + y mod 10)].

(** An event that is not an invocation of the planning agent. *)
Definition not_invoke (e : event) : Prop :=
  match e with AgentInvoke _ _ => False | _ => True end.

(** A plan as the data model would hand it back. *)
Definition sample_plan : TripPlan.t :=
  TripPlan.mk (u "北京") (u "2024-05-01") (u "2024-05-02") [] [] (u "带伞") None.

(** An agent that answers with two messages; the last one carries a fenced
    JSON object, which the data model accepts. *)
Definition helpful_reply : pyval :=
  VDict [(u "messages",
          VList [VObj [(u "content", VStr (u "{ignored}"))];
                 VObj [(u "content", VStr (u "plan:" ++ u "```json" ++ u "{}" ++ u "```"))]])].

Definition helpful : externals :=
  mk_externals false demo_json_loads
    (fun _ => Ok sample_plan)
    demo_Location_of demo_str_of_float
    (fun _ => u "...") (u "planner prompt")
    (Ok demo_settings)
    (fun _ => Ok demo_tools)
    (fun _ t _ => Ok (VList [VDict [(u "text", VStr (demo_payload t))]]))
    (fun _ _ _ => Ok helpful_reply)
    (fun _ _ => Ok tt)
    (fun _ r p => Ok (mk_agent r p)).

(** An agent whose answer holds no message at all. *)
Definition mute : externals :=
  mk_externals false demo_json_loads
    (fun _ => Ok sample_plan)
    demo_Location_of demo_str_of_float
    (fun _ => u "...") (u "planner prompt")
    (Ok demo_settings)
    (fun _ => Ok demo_tools)
    (fun _ t _ => Ok (VList [VDict [(u "text", VStr (demo_payload t))]]))
    (fun _ _ _ => Ok (VDict []))
    (fun _ _ => Ok tt)
    (fun _ r p => Ok (mk_agent r p)).

(** Response models that accept any [data], and exceptions printed by
    their class name. *)
Definition demo_str_of_exn (e : exn) : pystr :=
  match e with
  | ValueError => u "ValueError"
  | TypeError => u "TypeError"
  | IndexError => u "IndexError"
  | KeyError => u "KeyError"
  | AttributeError => u "AttributeError"
  | OverflowError => u "OverflowError"
  | ValidationError => u "ValidationError"
  | RemoteError => u "RemoteError"
  end.

Definition demo_web : web := mk_web Ok Ok demo_str_of_exn.

(** [planner_response.get("messages", [])[-1].content]: what [plan_trip]
    reads of the agent's answer. *)
Definition last_content (planner_response : pyval) : outcome pyval :=
  rbind (py_get planner_response (u "messages") (VList [])) (fun messages =>
  rbind (py_index messages (-1)) (fun last_message =>
  py_attr last_message (u "content"))).

(** A provider whose catalog loads and whose tools all fail, with an agent
    that answers all the same. *)
Definition flaky_helpful : externals :=
  mk_externals false demo_json_loads
    (fun _ => Ok sample_plan)
    demo_Location_of demo_str_of_float
    (fun _ => u "...") (u "planner prompt")
    (Ok demo_settings)
    (fun _ => Ok demo_tools)
    (fun _ _ _ => Raise RemoteError)
    (fun _ _ _ => Ok helpful_reply)
    (fun _ _ => Ok tt)
    (fun _ r p => Ok (mk_agent r p)).

(** * Sanity checks of the runtime model (values observed on CPython 3.11) *)

Example u_chinese : u "北京景点1" = [21271; 20140; 26223; 28857; 49]%N.
Proof. reflexivity. Qed.

Example slice_negative_end : slice (u "abc") 1 (-1) = u "b".
Proof. reflexivity. Qed.

Example find_examples :
  find_from (u "c") (u "abc") 3 = -1 /\ find (u "bc") (u "abc") = 1
  /\ rfind (u "}") (u "{a}{b}") = 5 /\ of_int (-12) = u "-12"
  /\ strip (u "  {} ") = u "{}" /\ split 44 (u "1.5,2") = [u "1.5"; u "2"].
Proof. repeat split; reflexivity. Qed.

Example strptime_examples :
  Datetime.strptime (u "2024-05-01") = Ok (Datetime.mkdate 2024 5 1)
  /\ Datetime.strptime (u "2024-5-1") = Ok (Datetime.mkdate 2024 5 1)
  /\ Datetime.strptime (u "2024-05- 1") = Ok (Datetime.mkdate 2024 5 1)
  /\ Datetime.strptime (u "٢٠٢٤-05-1٣") = Ok (Datetime.mkdate 2024 5 13)
  /\ Datetime.strptime (u "9999-12-31") = Ok (Datetime.mkdate 9999 12 31)
  /\ Datetime.strptime (u "0000-01-01") = Raise ValueError
  /\ Datetime.strptime (u "2024-02-30") = Raise ValueError
  /\ Datetime.strptime (u "2024-01-39") = Raise ValueError
  /\ Datetime.strptime (u "2024-1٣-01") = Raise ValueError
  /\ Datetime.strptime (u "2024-13-01") = Raise ValueError
  /\ Datetime.strptime (u "2024-05-01 ") = Raise ValueError
  /\ Datetime.strptime (u " 2024-05-01") = Raise ValueError
  /\ Datetime.strptime (u "2024/05/01") = Raise ValueError.
Proof. repeat split; reflexivity. Qed.

Example ordinal_examples :
  Datetime.ymd2ord (Datetime.mkdate 2024 5 1) = 739007
  /\ Datetime.ymd2ord (Datetime.mkdate 9999 12 31) = Datetime.MAXORDINAL
  /\ Datetime.ord2ymd 739007 = Datetime.mkdate 2024 5 1
  /\ Datetime.ord2ymd 738945 = Datetime.mkdate 2024 2 29
  /\ Datetime.ord2ymd 3652059 = Datetime.mkdate 9999 12 31
  /\ Datetime.ord2ymd 1 = Datetime.mkdate 1 1 1
  /\ Datetime.add_days (Datetime.mkdate 9999 12 31) 1 = Raise OverflowError
  /\ Datetime.strftime false (Datetime.mkdate 999 1 2) = u "999-01-02"
  /\ Datetime.strftime true (Datetime.mkdate 999 1 2) = u "0999-01-02".
Proof. repeat split; reflexivity. Qed.

Example extract_json_examples :
  extract_json (u "x {a} ```json {b} ``` {c}") = Ok (u "{b}")
  /\ extract_json (u "x ``` {b} ``` {c}") = Ok (u "{b}")
  /\ extract_json (u "say {a} and {b}.") = Ok (u "{a} and {b}")
  /\ extract_json (u "} {") = Ok (u "")
  /\ extract_json (u "no braces") = Raise ValueError
  /\ extract_json (u "{ only") = Raise ValueError.
Proof. repeat split; reflexivity. Qed.

(** A fence that is never closed: [find] answers [-1], and the slice stops
    before the last character. *)
Example extract_json_unclosed_fence :
  extract_json (u "```json{}") = Ok (u "{").
Proof. reflexivity. Qed.

(** * The fallback plan *)

Section ResultLemmas.
Context {A B : Type} (f : A -> outcome B).

Lemma rmapM_Ok_Forall2 (l : list A) (ys : list B) :
  rmapM f l = Ok ys <-> Forall2 (fun x y => f x = Ok y) l ys.
Proof.
  revert ys. induction l as [|x l IH]; intros ys; simpl.
  - split.
    + intros [= <-]. constructor.
    + intros H. inversion H. reflexivity.
  - destruct (f x) as [y|e] eqn:Hx; simpl.
    + destruct (rmapM f l) as [zs|e] eqn:Hl; simpl.
      * split.
        -- intros [= <-]. constructor; [assumption|]. apply IH. reflexivity.
        -- intros H. inversion H as [|? y' ? zs' Hy Hzs]; subst.
           apply IH in Hzs. congruence.
      * split; [discriminate|].
        intros H. inversion H as [|? y' ? zs' Hy Hzs]; subst.
        apply IH in Hzs. discriminate.
    + split; [discriminate|].
      intros H. inversion H; subst. congruence.
Qed.

Lemma rmapM_total (l : list A) :
  (forall x, In x l -> exists y, f x = Ok y) -> exists ys, rmapM f l = Ok ys.
Proof.
  induction l as [|x l IH]; intros H; simpl.
  - eauto.
  - destruct (H x) as [y Hy]; [left; reflexivity|]. rewrite Hy. simpl.
    destruct IH as [ys Hys]; [intros; apply H; right; assumption|].
    rewrite Hys. simpl. eauto.
Qed.

(** The loop stops at the first element that raises; when every failure is
    the exception [e], so is the loop's. *)
Lemma rmapM_raise (l : list A) (e : exn) (x : A) :
  (forall a e', f a = Raise e' -> e' = e) ->
  In x l -> f x = Raise e -> rmapM f l = Raise e.
Proof.
  intros Honly. induction l as [|a l IH]; intros Hin Hx; [destruct Hin|].
  simpl. destruct (f a) as [y|e'] eqn:Ha; simpl.
  - destruct Hin as [->|Hin]; [congruence|].
    rewrite (IH Hin Hx). reflexivity.
  - f_equal. eauto.
Qed.

End ResultLemmas.

Lemma range_length (n : Z) : length (range n) = Z.to_nat n.
Proof. unfold range. rewrite length_map, length_seq. reflexivity. Qed.

Lemma range_lookup (n : Z) (k : nat) (i : Z) :
  range n !! k = Some i <-> i = Z.of_nat k /\ (k < Z.to_nat n)%nat.
Proof.
  unfold range. rewrite list_lookup_fmap.
  destruct (decide (k < Z.to_nat n)%nat) as [Hk|Hk].
  - rewrite lookup_seq_lt by assumption. simpl. split.
    + intros [= <-]. auto.
    + intros [-> _]. reflexivity.
  - rewrite lookup_seq_ge by lia. simpl. split; [discriminate|]. intros [_ ?]. lia.
Qed.

Lemma range_In (n i : Z) : In i (range n) <-> 0 <= i < n.
Proof.
  unfold range. rewrite in_map_iff. split.
  - intros (k & <- & Hk). apply in_seq in Hk. lia.
  - intros H. exists (Z.to_nat i). split; [lia|]. apply in_seq. lia.
Qed.

Module DatetimeFacts.
Import Datetime Calendar.

Lemma days_before_year_decomp (a b c e : Z) :
  0 <= b < 4 -> 0 <= c < 25 -> 0 <= e < 4 ->
  days_before_year (400 * a + 100 * b + 4 * c + e + 1)
  = DI400Y * a + DI100Y * b + DI4Y * c + 365 * e.
Proof.
  intros Hb Hc He. unfold days_before_year, DI400Y, DI100Y, DI4Y. cbv zeta.
  Z.div_mod_to_equations. lia.
Qed.

Lemma is_leap_decomp (a b c e : Z) :
  0 <= b < 4 -> 0 <= c < 25 -> 0 <= e < 4 ->
  is_leap (400 * a + 100 * b + 4 * c + e + 1)
  = (e =? 3) && (negb (c =? 24) || (b =? 3)).
Proof.
  intros Hb Hc He. unfold is_leap.
  assert (H4 : (400 * a + 100 * b + 4 * c + e + 1) mod 4 = (e + 1) mod 4).
  { Z.div_mod_to_equations. lia. }
  assert (H100 : (400 * a + 100 * b + 4 * c + e + 1) mod 100 = (4 * c + e + 1) mod 100).
  { Z.div_mod_to_equations. lia. }
  assert (H400 : (400 * a + 100 * b + 4 * c + e + 1) mod 400 = (100 * b + 4 * c + e + 1) mod 400).
  { Z.div_mod_to_equations. lia. }
  rewrite H4, H100, H400.
  destruct (Z.eqb_spec e 3) as [->|He3].
  - simpl. destruct (Z.eqb_spec c 24) as [->|Hc24].
    + simpl. destruct (Z.eqb_spec b 3) as [->|Hb3]; [reflexivity|].
      assert (b = 0 \/ b = 1 \/ b = 2) as [->|[->| ->]] by lia; reflexivity.
    + simpl. replace ((4 * c + 3 + 1) mod 100 =? 0) with false; [reflexivity|].
      symmetry. apply Z.eqb_neq. Z.div_mod_to_equations. lia.
  - simpl. replace ((e + 1) mod 4 =? 0) with false; [reflexivity|].
    symmetry. apply Z.eqb_neq. Z.div_mod_to_equations. lia.
Qed.

Lemma md_of_doy_last : md_of_doy true 365 = (12, 31).
Proof. reflexivity. Qed.

Ltac divmod_eq := Z.div_mod_to_equations; lia.

Lemma ord2ymd_spec (a b c e doy : Z) :
  0 <= b < 4 -> 0 <= c < 25 -> 0 <= e < 4 ->
  0 <= doy < year_len (leap_of b c e) ->
  ord2ymd (DI400Y * a + DI100Y * b + DI4Y * c + 365 * e + doy + 1)
  = mkdate (400 * a + 100 * b + 4 * c + e + 1)
           (fst (md_of_doy (leap_of b c e) doy))
           (snd (md_of_doy (leap_of b c e) doy)).
Proof.
  intros Hb Hc He Hdoy. unfold ord2ymd. cbv zeta.
  set (n0 := DI400Y * a + DI100Y * b + DI4Y * c + 365 * e + doy + 1 - 1).
  assert (Hleap : doy = 365 -> e = 3 /\ (c <> 24 \/ b = 3)).
  { intros ->. unfold year_len, leap_of in Hdoy.
    destruct (Z.eqb_spec e 3); simpl in Hdoy; [|lia].
    destruct (Z.eqb_spec c 24); destruct (Z.eqb_spec b 3); simpl in Hdoy; lia. }
  assert (Hle : doy <= 365) by (unfold year_len in Hdoy; destruct (leap_of b c e); lia).
  assert (H1 : n0 / DI400Y = a) by (unfold n0, DI400Y, DI100Y, DI4Y in *; divmod_eq).
  assert (H2 : n0 mod DI400Y = DI100Y * b + DI4Y * c + 365 * e + doy)
    by (unfold n0, DI400Y, DI100Y, DI4Y in *; divmod_eq).
  rewrite H1, H2.
  destruct (Z.eq_dec doy 365) as [Hd|Hd].
  - destruct (Hleap Hd) as [-> Hcb]. subst doy.
    replace (leap_of b c 3) with true
      by (unfold leap_of; destruct Hcb as [?| ->];
          [destruct (Z.eqb_spec c 24); [lia|]|]; simpl; rewrite ?orb_true_r; reflexivity).
    rewrite md_of_doy_last. simpl fst. simpl snd.
    destruct (Z.eq_dec c 24) as [->|Hc24].
    + assert (b = 3) as -> by lia.
      replace ((DI100Y * 3 + DI4Y * 24 + 365 * 3 + 365) / DI100Y) with 4 by reflexivity.
      replace ((DI100Y * 3 + DI4Y * 24 + 365 * 3 + 365) mod DI100Y) with 0 by reflexivity.
      change (0 `div` DI4Y) with 0. change (0 `mod` DI4Y) with 0. change (0 `div` 365) with 0. simpl. f_equal. lia.
    + assert (H3 : (DI100Y * b + DI4Y * c + 365 * 3 + 365) / DI100Y = b)
        by (unfold DI400Y, DI100Y, DI4Y in *; divmod_eq).
      assert (H4 : (DI100Y * b + DI4Y * c + 365 * 3 + 365) mod DI100Y = DI4Y * c + 1460)
        by (unfold DI400Y, DI100Y, DI4Y in *; divmod_eq).
      rewrite H3, H4.
      assert (H5 : (DI4Y * c + 1460) / DI4Y = c) by (unfold DI4Y in *; divmod_eq).
      assert (H6 : (DI4Y * c + 1460) mod DI4Y = 1460) by (unfold DI4Y in *; divmod_eq).
      rewrite H5, H6. simpl. change (1460 `div` 365) with 4. f_equal. lia.
  - assert (H3 : (DI100Y * b + DI4Y * c + 365 * e + doy) / DI100Y = b)
      by (unfold DI400Y, DI100Y, DI4Y in *; divmod_eq).
    assert (H4 : (DI100Y * b + DI4Y * c + 365 * e + doy) mod DI100Y = DI4Y * c + 365 * e + doy)
      by (unfold DI400Y, DI100Y, DI4Y in *; divmod_eq).
    rewrite H3, H4.
    assert (H5 : (DI4Y * c + 365 * e + doy) / DI4Y = c) by (unfold DI4Y in *; divmod_eq).
    assert (H6 : (DI4Y * c + 365 * e + doy) mod DI4Y = 365 * e + doy)
      by (unfold DI4Y in *; divmod_eq).
    rewrite H5, H6.
    assert (H7 : (365 * e + doy) / 365 = e) by divmod_eq.
    assert (H8 : (365 * e + doy) mod 365 = doy) by divmod_eq.
    rewrite H7, H8.
    replace (e =? 4) with false by (symmetry; apply Z.eqb_neq; lia).
    replace (b =? 4) with false by (symmetry; apply Z.eqb_neq; lia).
    simpl orb. cbv iota.
    fold (leap_of b c e). unfold md_of_doy. cbv zeta.
    destruct (doy <? _); simpl; f_equal; lia.
Qed.

Lemma md_ok_from_sound (leap : bool) (fuel : nat) (n i : Z) :
  md_ok_from leap fuel n = true -> n <= i < n + Z.of_nat fuel ->
  md_of_doy leap (i + 1) = md_step leap (md_of_doy leap i)
  /\ (fst (md_of_doy leap i) < 12
      \/ fst (md_of_doy leap i) = 12 /\ snd (md_of_doy leap i) < 31).
Proof.
  revert n. induction fuel as [|fuel IH]; intros n H Hi; [lia|].
  simpl in H. apply andb_prop in H as [H0 H1]. apply andb_prop in H0 as [H0 H0'].
  destruct (Z.eq_dec i n) as [->|Hne].
  - split; [apply bool_decide_eq_true in H0; assumption|].
    apply orb_prop in H0' as [H|H]; [apply Z.ltb_lt in H; auto|].
    apply andb_prop in H as [Hm Hd]. apply Z.eqb_eq in Hm. apply Z.ltb_lt in Hd. auto.
  - apply (IH (n + 1) H1). lia.
Qed.

Lemma md_of_doy_step (leap : bool) (doy : Z) :
  0 <= doy < year_len leap - 1 ->
  md_of_doy leap (doy + 1) = md_step leap (md_of_doy leap doy)
  /\ (fst (md_of_doy leap doy) < 12
      \/ fst (md_of_doy leap doy) = 12 /\ snd (md_of_doy leap doy) < 31).
Proof.
  intros H. destruct leap.
  - apply (md_ok_from_sound true 365 0); [vm_compute; reflexivity|]. simpl in *. lia.
  - apply (md_ok_from_sound false 364 0); [vm_compute; reflexivity|]. simpl in *. lia.
Qed.

Lemma md_of_doy_ends (leap : bool) :
  md_of_doy leap 0 = (1, 1) /\ md_of_doy leap (year_len leap - 1) = (12, 31).
Proof. destruct leap; split; reflexivity. Qed.

Lemma leap_of_cases (b c e : Z) :
  0 <= b < 4 -> 0 <= c < 25 -> 0 <= e < 4 ->
  (leap_of b c e = true /\ e = 3 /\ (c <> 24 \/ b = 3))
  \/ (leap_of b c e = false /\ (e <> 3 \/ (c = 24 /\ b <> 3))).
Proof.
  intros Hb Hc He. unfold leap_of.
  destruct (Z.eqb_spec e 3); destruct (Z.eqb_spec c 24); destruct (Z.eqb_spec b 3);
    simpl; lia.
Qed.

(** From the ordinal of a day to the next: the same year unless the day is
    its last. *)
Lemma ord2ymd_succ_decomp (n : Z) :
  decomp n -> decomp (n + 1) /\ ord2ymd (n + 1) = next_day (ord2ymd n).
Proof.
  intros [a b c e doy Ha Hb Hc He Hdoy ->].
  pose proof (ord2ymd_spec a b c e doy Hb Hc He Hdoy) as Hn.
  pose proof (is_leap_decomp a b c e Hb Hc He) as Hly. fold (leap_of b c e) in Hly.
  destruct (Z.eq_dec (doy + 1) (year_len (leap_of b c e))) as [Hlast|Hmid].
  - (* the last day of its year *)
    assert (Hd : doy = year_len (leap_of b c e) - 1) by lia.
    rewrite Hd in Hn. rewrite (proj2 (md_of_doy_ends _)) in Hn. simpl in Hn.
    assert (Hnext : forall a' b' c' e',
               0 <= a' -> 0 <= b' < 4 -> 0 <= c' < 25 -> 0 <= e' < 4 ->
               DI400Y * a + DI100Y * b + DI4Y * c + 365 * e + doy + 1 + 1
               = DI400Y * a' + DI100Y * b' + DI4Y * c' + 365 * e' + 0 + 1 ->
               400 * a' + 100 * b' + 4 * c' + e' + 1 = 400 * a + 100 * b + 4 * c + e + 1 + 1 ->
               decomp (DI400Y * a + DI100Y * b + DI4Y * c + 365 * e + doy + 1 + 1)
               /\ ord2ymd (DI400Y * a + DI100Y * b + DI4Y * c + 365 * e + doy + 1 + 1)
                  = next_day (ord2ymd (DI400Y * a + DI100Y * b + DI4Y * c + 365 * e + doy + 1))).
    { intros a' b' c' e' Ha' Hb' Hc' He' Heq Hy.
      assert (H0 : 0 <= 0 < year_len (leap_of b' c' e'))
        by (unfold year_len; destruct (leap_of b' c' e'); lia).
      split; [rewrite Heq; apply (Decomp _ a' b' c' e' 0); auto|].
      rewrite Heq, (ord2ymd_spec a' b' c' e' 0 Hb' Hc' He' H0).
      rewrite (proj1 (md_of_doy_ends _)). simpl fst. simpl snd.
      rewrite Hd, Hn. unfold next_day. simpl. rewrite Hy. reflexivity. }
    unfold DI400Y, DI100Y, DI4Y in *.
    destruct (leap_of_cases b c e Hb Hc He) as [(Hl & -> & Hcb)|(Hl & Hcb)];
      rewrite Hl in *; unfold year_len in *.
    + destruct (Z.eq_dec c 24) as [->|Hc24].
      * apply (Hnext (a + 1) 0 0 0); lia.
      * apply (Hnext a b (c + 1) 0); lia.
    + destruct (Z.eq_dec e 3) as [->|He3].
      * apply (Hnext a (b + 1) 0 0); lia.
      * apply (Hnext a b c (e + 1)); lia.
  - assert (Hdoy' : 0 <= doy + 1 < year_len (leap_of b c e)) by lia.
    split.
    + replace (DI400Y * a + DI100Y * b + DI4Y * c + 365 * e + doy + 1 + 1)
        with (DI400Y * a + DI100Y * b + DI4Y * c + 365 * e + (doy + 1) + 1) by ring.
      apply (Decomp _ a b c e (doy + 1)); auto.
    + replace (DI400Y * a + DI100Y * b + DI4Y * c + 365 * e + doy + 1 + 1)
        with (DI400Y * a + DI100Y * b + DI4Y * c + 365 * e + (doy + 1) + 1) by ring.
      rewrite (ord2ymd_spec a b c e (doy + 1) Hb Hc He Hdoy'), Hn.
      destruct (md_of_doy_step (leap_of b c e) doy) as [Hs Hm]; [lia|].
      rewrite Hs. unfold next_day, md_step, days_in_month. simpl. rewrite Hly.
      destruct (md_of_doy (leap_of b c e) doy) as [m d]. simpl in *.
      destruct (Z.ltb_spec d (if (m =? 2) && leap_of b c e then 29 else tbl DAYS_IN_MONTH m));
        [reflexivity|].
      (* a month that ends before the year does is not December *)
      destruct (Z.ltb_spec m 12); [reflexivity|].
      exfalso. destruct Hm as [Hm|[-> Hm]]; [lia|].
      simpl in *. change (tbl DAYS_IN_MONTH 12) with 31 in *. lia.
Qed.

Lemma decomp_all (n : Z) : 1 <= n -> decomp n.
Proof.
  intros Hn. pattern n. apply (Zlt_lower_bound_ind _ 1); [|assumption].
  clear n Hn. intros n IH Hn.
  destruct (Z.eq_dec n 1) as [->|Hne].
  - apply (Decomp _ 0 0 0 0 0); try lia. unfold year_len; simpl; lia.
  - replace n with (n - 1 + 1) by ring.
    apply ord2ymd_succ_decomp, IH. lia.
Qed.

(** Consecutive ordinals are consecutive calendar days. *)
Lemma ord2ymd_succ (n : Z) : 1 <= n -> ord2ymd (n + 1) = next_day (ord2ymd n).
Proof. intros Hn. apply ord2ymd_succ_decomp, decomp_all, Hn. Qed.

Lemma ord2ymd_iter (n : Z) (k : nat) :
  1 <= n -> ord2ymd (n + Z.of_nat k) = Nat.iter k next_day (ord2ymd n).
Proof.
  intros Hn. induction k as [|k IH].
  - simpl. f_equal. lia.
  - replace (n + Z.of_nat (S k)) with (n + Z.of_nat k + 1) by lia.
    rewrite ord2ymd_succ, IH by lia. reflexivity.
Qed.


End DatetimeFacts.

Section FallbackFacts.
Import Datetime Calendar DatetimeFacts.
Variable pad_year : bool.
Variable request : TripRequest.t.

(** The loop body succeeds exactly while the date stays in the calendar. *)
Lemma fallback_day_ok (start : date) (i : Z) :
  0 <= i -> 1 <= ymd2ord start -> ymd2ord start + i <= MAXORDINAL ->
  fallback_day pad_year request start i
  = Ok (DayPlan.mk
          (strftime pad_year (ord2ymd (ymd2ord start + i)))
          i
          (u "第" ++ of_int (i + 1) ++ u "天行程")
          (TripRequest.transportation request)
          (TripRequest.accommodation request)
          None
          (List.map (fallback_attraction request i) (range 2))
          (fallback_meals i)).
Proof.
  intros Hi Hs Hmax. unfold fallback_day, add_days.
  replace (999999999 <? Z.abs i) with false
    by (symmetry; apply Z.ltb_ge; unfold MAXORDINAL in *; lia).
  replace ((0 <? ymd2ord start + i) && (ymd2ord start + i <=? MAXORDINAL)) with true
    by (symmetry; apply andb_true_intro; split; [apply Z.ltb_lt|apply Z.leb_le]; lia).
  reflexivity.
Qed.

Lemma fallback_day_overflow (start : date) (i : Z) :
  0 <= i -> MAXORDINAL < ymd2ord start + i ->
  fallback_day pad_year request start i = Raise OverflowError.
Proof.
  intros Hi Hmax. unfold fallback_day, add_days.
  destruct (999999999 <? Z.abs i); [reflexivity|].
  replace (ymd2ord start + i <=? MAXORDINAL) with false
    by (symmetry; apply Z.leb_gt; lia).
  rewrite andb_false_r. reflexivity.
Qed.

Lemma fallback_day_raises_overflow (start : date) (i : Z) (e : exn) :
  fallback_day pad_year request start i = Raise e -> e = OverflowError.
Proof.
  unfold fallback_day, add_days.
  destruct (999999999 <? Z.abs i); [intros [= <-]; reflexivity|].
  destruct ((0 <? ymd2ord start + i) && (ymd2ord start + i <=? MAXORDINAL));
    simpl; [discriminate|intros [= <-]; reflexivity].
Qed.

(** The generator returns a plan whenever the start date parses and the
    last day is not after 9999-12-31. *)
Lemma fallback_plan_ok (start : date) :
  strptime (TripRequest.start_date request) = Ok start ->
  1 <= ymd2ord start ->
  ymd2ord start + TripRequest.travel_days request - 1 <= MAXORDINAL ->
  exists days,
    Forall2 (fun i day => fallback_day pad_year request start i = Ok day)
            (range (TripRequest.travel_days request)) days
    /\ _create_fallback_plan pad_year request
       = Ok (TripPlan.mk
               (TripRequest.city request)
               (TripRequest.start_date request)
               (TripRequest.end_date request)
               days
               []
               (u "这是为您规划的" ++ TripRequest.city request
                  ++ of_int (TripRequest.travel_days request)
                  ++ u "日游行程,建议提前查看各景点的开放时间。")
               None).
Proof.
  intros Hstart Hs Hmax. unfold _create_fallback_plan. rewrite Hstart. simpl.
  destruct (rmapM_total (fallback_day pad_year request start)
              (range (TripRequest.travel_days request))) as [days Hdays].
  { intros i Hi. apply range_In in Hi.
    rewrite fallback_day_ok by lia. eauto. }
  exists days. split; [apply rmapM_Ok_Forall2, Hdays|].
  rewrite Hdays. reflexivity.
Qed.

(** Past the end of the calendar the loop raises [OverflowError]. *)
Lemma fallback_plan_overflow (start : date) :
  strptime (TripRequest.start_date request) = Ok start ->
  MAXORDINAL < ymd2ord start + TripRequest.travel_days request - 1 ->
  1 <= TripRequest.travel_days request ->
  _create_fallback_plan pad_year request = Raise OverflowError.
Proof.
  intros Hstart Hmax Hn. unfold _create_fallback_plan. rewrite Hstart. simpl.
  rewrite (rmapM_raise (fallback_day pad_year request start) _ OverflowError
             (TripRequest.travel_days request - 1)).
  - reflexivity.
  - intros a e'. apply fallback_day_raises_overflow.
  - apply range_In. lia.
  - apply fallback_day_overflow; lia.
Qed.

(** A malformed start date makes the generator raise [ValueError]. *)
Lemma fallback_plan_bad_date :
  strptime (TripRequest.start_date request) = Raise ValueError ->
  _create_fallback_plan pad_year request = Raise ValueError.
Proof. intros H. unfold _create_fallback_plan. rewrite H. reflexivity. Qed.

End FallbackFacts.

Lemma strptime_raises_ValueError (s : pystr) (e : exn) :
  Datetime.strptime s = Raise e -> e = ValueError.
Proof.
  unfold Datetime.strptime. intros H.
  repeat match type of H with
         | match ?x with _ => _ end = _ => destruct x
         | (if ?b then _ else _) = _ => destruct b
         | Raise _ = Raise _ => injection H as <-; reflexivity
         | Ok _ = Raise _ => discriminate H
         end.
Qed.

(** C3 (amended).  For a request starting on 2024-05-01 with
    [travel_days = N], [1 <= N <= 2913053] (the last day is then no later
    than 9999-12-31, the last date of the calendar), the fallback generator
    returns a plan with exactly [N] days; the day at position [k] has
    [day_index = k] and its date is 2024-05-01 advanced by [k] calendar
    days, so the plan starts "2024-05-01", "2024-05-02", ... *)
Theorem fallback_plan_days
    (pad_year : bool) (request : TripRequest.t) (N : Z) :
  TripRequest.start_date request = u "2024-05-01" ->
  TripRequest.travel_days request = N ->
  1 <= N <= 2913053 ->
  exists plan,
    _create_fallback_plan pad_year request = Ok plan
    /\ Z.of_nat (length (TripPlan.days plan)) = N
    /\ (forall (k : nat) (day : DayPlan.t),
          TripPlan.days plan !! k = Some day ->
          DayPlan.day_index day = Z.of_nat k
          /\ DayPlan.date day
             = Datetime.strftime pad_year
                 (Nat.iter k Calendar.next_day (Datetime.mkdate 2024 5 1)))
    /\ (forall day, TripPlan.days plan !! 0%nat = Some day ->
                    DayPlan.date day = u "2024-05-01")
    /\ (forall day, TripPlan.days plan !! 1%nat = Some day ->
                    DayPlan.date day = u "2024-05-02").
Proof.
  intros Hstart Hdays HN.
  assert (Hp : Datetime.strptime (TripRequest.start_date request)
               = Ok (Datetime.mkdate 2024 5 1)) by (rewrite Hstart; reflexivity).
  assert (Ho : Datetime.ymd2ord (Datetime.mkdate 2024 5 1) = 739007) by reflexivity.
  destruct (fallback_plan_ok pad_year request _ Hp) as (days & Hall & Hplan).
  { rewrite Ho. lia. }
  { rewrite Ho, Hdays. unfold Datetime.MAXORDINAL. lia. }
  assert (Hk : forall (k : nat) (day : DayPlan.t),
             days !! k = Some day ->
             DayPlan.day_index day = Z.of_nat k
             /\ DayPlan.date day
                = Datetime.strftime pad_year
                    (Nat.iter k Calendar.next_day (Datetime.mkdate 2024 5 1))).
  { intros k day Hday.
    destruct (Forall2_lookup_r _ _ _ _ _ Hall Hday) as (i & Hi & Hfi).
    apply range_lookup in Hi as [-> Hlt].
    rewrite fallback_day_ok in Hfi
      by (rewrite ?Ho; unfold Datetime.MAXORDINAL; lia).
    injection Hfi as <-. simpl. split; [reflexivity|].
    rewrite Ho, DatetimeFacts.ord2ymd_iter by lia. reflexivity. }
  eexists. split; [exact Hplan|]. simpl.
  split; [|split; [exact Hk|split]].
  - rewrite <- (Forall2_length _ _ _ Hall), range_length, Hdays. lia.
  - intros day Hday. destruct (Hk _ _ Hday) as [_ ->]. destruct pad_year; reflexivity.
  - intros day Hday. destruct (Hk _ _ Hday) as [_ ->]. destruct pad_year; reflexivity.
Qed.

Lemma fallback_plan_days_witness :
  exists plan,
    _create_fallback_plan false (beijing_request "2024-05-01" 3) = Ok plan
    /\ Z.of_nat (length (TripPlan.days plan)) = 3
    /\ (forall (k : nat) (day : DayPlan.t),
          TripPlan.days plan !! k = Some day ->
          DayPlan.day_index day = Z.of_nat k
          /\ DayPlan.date day
             = Datetime.strftime false
                 (Nat.iter k Calendar.next_day (Datetime.mkdate 2024 5 1)))
    /\ (forall day, TripPlan.days plan !! 0%nat = Some day ->
                    DayPlan.date day = u "2024-05-01")
    /\ (forall day, TripPlan.days plan !! 1%nat = Some day ->
                    DayPlan.date day = u "2024-05-02").
Proof.
  apply (fallback_plan_days false (beijing_request "2024-05-01" 3) 3);
    [reflexivity | reflexivity | lia].
Defined.

(** C3, as stated, fails for a stay that runs past 9999-12-31: with
    [travel_days = 2913054] the generator raises [OverflowError] instead of
    returning 2913054 days. *)
Lemma fallback_plan_days_overflow :
  _create_fallback_plan false (beijing_request "2024-05-01" 2913054)
  = Raise OverflowError.
Proof.
  apply (fallback_plan_overflow false (beijing_request "2024-05-01" 2913054)
           (Datetime.mkdate 2024 5 1)).
  - reflexivity.
  - vm_compute. reflexivity.
  - vm_compute. discriminate.
Qed.

(** Every day of a fallback plan is an output of the loop body, at the
    position given by its [day_index]. *)
Lemma fallback_plan_day_inv
    (pad_year : bool) (request : TripRequest.t) (plan : TripPlan.t) (day : DayPlan.t) :
  _create_fallback_plan pad_year request = Ok plan ->
  In day (TripPlan.days plan) ->
  DayPlan.attractions day
  = List.map (fallback_attraction request (DayPlan.day_index day)) (range 2).
Proof.
  unfold _create_fallback_plan.
  destruct (Datetime.strptime (TripRequest.start_date request)) as [start|]; [|discriminate].
  simpl. destruct (rmapM _ _) as [days|] eqn:Hdays; [|discriminate].
  simpl. intros [= <-]. simpl. intros Hin.
  apply rmapM_Ok_Forall2 in Hdays.
  apply list_elem_of_In, list_elem_of_lookup in Hin as [k Hk].
  destruct (Forall2_lookup_r _ _ _ _ _ Hdays Hk) as (i & _ & Hfi).
  unfold fallback_day in Hfi.
  destruct (Datetime.add_days start i); [|discriminate].
  simpl in Hfi. injection Hfi as <-. reflexivity.
Qed.

(** C4 (amended).  In a fallback plan for the city "北京", the day with
    [day_index = 1] has exactly two attractions, "北京景点1" and "北京景点2",
    each with [visit_duration] 120; their latitudes are 39.91 and 39.915 and
    the second longitude is 116.415, but the first longitude is the binary64
    sum [116.4 + 1*0.01 + 0*0.005], which is 116.41000000000001 and not
    116.41. *)
Theorem fallback_day1_attractions
    (pad_year : bool) (request : TripRequest.t) (plan : TripPlan.t) (day : DayPlan.t) :
  TripRequest.city request = u "北京" ->
  _create_fallback_plan pad_year request = Ok plan ->
  In day (TripPlan.days plan) ->
  DayPlan.day_index day = 1 ->
  DayPlan.attractions day
  = [ Attraction.mk (u "北京景点1") (u "北京市")
        (Location.mk 116.41000000000001%float 39.91%float)
        120 (u "这是北京的著名景点") (u "景点") None;
      Attraction.mk (u "北京景点2") (u "北京市")
        (Location.mk 116.415%float 39.915%float)
        120 (u "这是北京的著名景点") (u "景点") None ].
Proof.
  intros Hcity Hplan Hin Hidx.
  rewrite (fallback_plan_day_inv _ _ _ _ Hplan Hin), Hidx.
  unfold fallback_attraction. rewrite Hcity. vm_compute. reflexivity.
Qed.

Lemma fallback_day1_attractions_witness :
  exists plan day,
    _create_fallback_plan false (beijing_request "2024-05-01" 2) = Ok plan
    /\ In day (TripPlan.days plan)
    /\ DayPlan.day_index day = 1
    /\ DayPlan.attractions day
       = [ Attraction.mk (u "北京景点1") (u "北京市")
             (Location.mk 116.41000000000001%float 39.91%float)
             120 (u "这是北京的著名景点") (u "景点") None;
           Attraction.mk (u "北京景点2") (u "北京市")
             (Location.mk 116.415%float 39.915%float)
             120 (u "这是北京的著名景点") (u "景点") None ].
Proof.
  set (req := beijing_request "2024-05-01" 2).
  destruct (_create_fallback_plan false req) as [plan|] eqn:Hplan;
    [|vm_compute in Hplan; discriminate].
  destruct (TripPlan.days plan !! 1%nat) as [day|] eqn:Hday.
  2: { exfalso. revert Hday. vm_compute in Hplan. injection Hplan as <-. discriminate. }
  exists plan, day.
  assert (Hin : In day (TripPlan.days plan))
    by (apply list_elem_of_In, list_elem_of_lookup; eauto).
  assert (Hidx : DayPlan.day_index day = 1).
  { revert Hday. vm_compute in Hplan. injection Hplan as <-.
    intros [= <-]. reflexivity. }
  split; [reflexivity | split; [exact Hin | split; [exact Hidx|]]].
  exact (fallback_day1_attractions false req plan day eq_refl Hplan Hin Hidx).
Defined.

(** C4, as stated, fails on the first longitude: compared with the claimed
    values, the longitudes of day 1 are (not equal, equal) to
    (116.41, 116.415), while both latitudes equal (39.91, 39.915). *)
Lemma fallback_day1_longitude_inexact :
  let attractions :=
    attractions_of_day 1 (_create_fallback_plan false (beijing_request "2024-05-01" 2)) in
  List.map (fun a => Location.longitude (Attraction.location a)) attractions
  = [116.41000000000001; 116.415]%float
  /\ List.map (fun '(a, claimed) =>
                PrimFloat.eqb (Location.longitude (Attraction.location a)) claimed)
       (combine attractions [116.41; 116.415]%float)
     = [false; true]
  /\ List.map (fun '(a, claimed) =>
                PrimFloat.eqb (Location.latitude (Attraction.location a)) claimed)
       (combine attractions [39.91; 39.915]%float)
     = [true; true].
Proof. repeat split; vm_compute; reflexivity. Qed.

(** * The response parser *)

Section StrFacts.
Implicit Types sub s pre post : pystr.

Lemma prefixb_spec sub s : prefixb sub s = true <-> sub `prefix_of` s.
Proof.
  revert s. induction sub as [|a sub IH]; intros s; simpl.
  - split; [intros _; apply prefix_nil|reflexivity].
  - destruct s as [|b s].
    + split; [discriminate|]. intros H. destruct (prefix_nil_not _ _ H).
    + rewrite andb_true_iff, N.eqb_eq, IH. split.
      * intros [-> H]. apply prefix_cons, H.
      * intros H. split; [eapply prefix_cons_inv_1, H|eapply prefix_cons_inv_2, H].
Qed.

Lemma prefixb_false sub s : prefixb sub s = false <-> ~ sub `prefix_of` s.
Proof. rewrite <- prefixb_spec. destruct (prefixb sub s); split; congruence. Qed.

Lemma occurs_at_0 sub s : occurs_at sub s 0 <-> sub `prefix_of` s.
Proof. unfold occurs_at. simpl. split; [intros [_ H]; exact H|intros H; split; [lia|exact H]]. Qed.

Lemma occurs_at_S sub a s j : occurs_at sub (a :: s) (S j) <-> occurs_at sub s j.
Proof. unfold occurs_at. simpl. rewrite <- Nat.succ_le_mono. reflexivity. Qed.

Lemma occurs_at_nil sub j : occurs_at sub [] j <-> j = 0%nat /\ sub = [].
Proof.
  unfold occurs_at. rewrite drop_nil. simpl. split.
  - intros [Hj H]. split; [lia|apply prefix_nil_inv, H].
  - intros [-> ->]. split; [lia|reflexivity].
Qed.

Lemma occurs_at_app sub pre s j :
  occurs_at sub (pre ++ s) (length pre + j) <-> occurs_at sub s j.
Proof.
  unfold occurs_at. rewrite <- drop_drop, drop_app_length, length_app.
  rewrite <- Nat.add_le_mono_l. reflexivity.
Qed.

Lemma occurs_at_here sub pre post : occurs_at sub (pre ++ sub ++ post) (length pre).
Proof.
  unfold occurs_at. rewrite drop_app_length, length_app. split; [lia|].
  apply prefix_app_r. reflexivity.
Qed.

Lemma first_index_spec sub s :
  match first_index sub s with
  | Some i => first_at sub s i
  | None => forall j, ~ occurs_at sub s j
  end.
Proof.
  induction s as [|a s IH]; simpl.
  - destruct (prefixb sub []) eqn:Hp.
    + split; [apply occurs_at_0, prefixb_spec, Hp|]. intros j Hj. lia.
    + intros j Hj. apply occurs_at_nil in Hj as [_ ->]. discriminate.
  - destruct (prefixb sub (a :: s)) eqn:Hp.
    + split; [apply occurs_at_0, prefixb_spec, Hp|]. intros j Hj. lia.
    + apply prefixb_false in Hp. rewrite <- occurs_at_0 in Hp.
      destruct (first_index sub s) as [i|]; simpl.
      * destruct IH as [Hi Hlt]. split; [apply occurs_at_S, Hi|].
        intros [|j] Hj; [exact Hp|]. rewrite occurs_at_S. apply Hlt. lia.
      * intros [|j]; [exact Hp|]. rewrite occurs_at_S. apply IH.
Qed.

Lemma first_at_unique sub s i j : first_at sub s i -> first_at sub s j -> i = j.
Proof.
  intros [Hi Hlti] [Hj Hltj].
  destruct (lt_eq_lt_dec i j) as [[H|H]|H]; [|exact H|].
  - destruct (Hltj i H Hi).
  - destruct (Hlti j H Hj).
Qed.

Lemma first_index_Some sub s i : first_at sub s i -> first_index sub s = Some i.
Proof.
  intros H. pose proof (first_index_spec sub s) as Hs.
  destruct (first_index sub s) as [k|].
  - f_equal. eapply first_at_unique; eassumption.
  - destruct (Hs i (proj1 H)).
Qed.

Lemma find_aux_first_index sub s off :
  find_aux sub s off
  = match first_index sub s with Some i => off + Z.of_nat i | None => -1 end.
Proof.
  revert off. induction s as [|a s IH]; intros off; simpl.
  - destruct (prefixb sub []); [lia|reflexivity].
  - destruct (prefixb sub (a :: s)); [lia|].
    rewrite IH. destruct (first_index sub s); simpl; lia.
Qed.

(** [find] answers the index of the first occurrence. *)
Lemma find_first_at sub s i : first_at sub s i -> find sub s = Z.of_nat i.
Proof.
  intros H. unfold find. rewrite find_aux_first_index, (first_index_Some _ _ _ H). lia.
Qed.

Lemma first_at_find sub s i : find sub s = Z.of_nat i -> first_at sub s i.
Proof.
  unfold find. rewrite find_aux_first_index. pose proof (first_index_spec sub s) as Hs.
  destruct (first_index sub s) as [k|]; [|lia].
  intros H. replace i with k by lia. exact Hs.
Qed.

(** [sub in s] holds exactly when [sub] occurs somewhere. *)
Lemma contains_true sub s : contains sub s = true <-> exists i, occurs_at sub s i.
Proof.
  unfold contains, find. rewrite find_aux_first_index.
  pose proof (first_index_spec sub s) as Hs.
  destruct (first_index sub s) as [k|].
  - split; [intros _; exists k; apply Hs|intros _].
    apply negb_true_iff, Z.eqb_neq. lia.
  - split; [discriminate|]. intros [i Hi]. destruct (Hs i Hi).
Qed.

Lemma contains_false sub s : contains sub s = false <-> forall i, ~ occurs_at sub s i.
Proof.
  rewrite <- not_true_iff_false, contains_true. split.
  - intros H i Hi. apply H. eauto.
  - intros H [i Hi]. exact (H i Hi).
Qed.

(** A text without [sub] is without every extension of [sub]. *)
Lemma contains_false_ext sub ext s :
  contains sub s = false -> contains (sub ++ ext) s = false.
Proof.
  rewrite !contains_false. intros H i [Hle Hi]. apply (H i). split; [exact Hle|].
  etransitivity; [|exact Hi]. apply prefix_app_r. reflexivity.
Qed.

Lemma find_from_drop sub s (k : nat) :
  (k <= length s)%nat ->
  find_from sub s (Z.of_nat k) = find_aux sub (drop k s) (Z.of_nat k).
Proof.
  intros Hk. unfold find_from, len.
  replace (Z.of_nat k <? 0) with false by (symmetry; apply Z.ltb_ge; lia).
  replace (Z.of_nat (length s) <? Z.of_nat k) with false
    by (symmetry; apply Z.ltb_ge; lia).
  rewrite Nat2Z.id. reflexivity.
Qed.

Lemma slice_take_drop s (a b : nat) :
  (a <= b)%nat -> (b <= length s)%nat ->
  slice s (Z.of_nat a) (Z.of_nat b) = take (b - a) (drop a s).
Proof.
  intros Hab Hb. unfold slice, clamp, len.
  replace (Z.of_nat a <? 0) with false by (symmetry; apply Z.ltb_ge; lia).
  replace (Z.of_nat b <? 0) with false by (symmetry; apply Z.ltb_ge; lia).
  replace (Z.max 0 (Z.min (Z.of_nat a) (Z.of_nat (length s)))) with (Z.of_nat a) by lia.
  replace (Z.max 0 (Z.min (Z.of_nat b) (Z.of_nat (length s)))) with (Z.of_nat b) by lia.
  rewrite Nat2Z.id. f_equal. lia.
Qed.

Lemma last_index_spec sub s :
  match last_index sub s with
  | Some i => last_at sub s i
  | None => forall j, ~ occurs_at sub s j
  end.
Proof.
  induction s as [|a s IH]; simpl.
  - destruct (prefixb sub []) eqn:Hp.
    + split; [apply occurs_at_0, prefixb_spec, Hp|].
      intros j Hj [Hle _]. simpl in Hle. lia.
    + intros j Hj. apply occurs_at_nil in Hj as [_ ->]. discriminate.
  - destruct (last_index sub s) as [i|].
    + destruct IH as [Hi Hgt]. split; [apply occurs_at_S, Hi|].
      intros [|j] Hj; [lia|]. rewrite occurs_at_S. apply Hgt. lia.
    + destruct (prefixb sub (a :: s)) eqn:Hp.
      * split; [apply occurs_at_0, prefixb_spec, Hp|].
        intros [|j] Hj; [lia|]. rewrite occurs_at_S. apply IH.
      * apply prefixb_false in Hp. rewrite <- occurs_at_0 in Hp.
        intros [|j]; [exact Hp|]. rewrite occurs_at_S. apply IH.
Qed.

Lemma last_at_unique sub s i j : last_at sub s i -> last_at sub s j -> i = j.
Proof.
  intros [Hi Hgti] [Hj Hgtj].
  destruct (lt_eq_lt_dec i j) as [[H|H]|H]; [|exact H|].
  - destruct (Hgti j H Hj).
  - destruct (Hgtj i H Hi).
Qed.

Lemma rfind_aux_last_index sub s off last :
  rfind_aux sub s off last
  = match last_index sub s with Some i => off + Z.of_nat i | None => last end.
Proof.
  revert off last. induction s as [|a s IH]; intros off last; simpl.
  - destruct (prefixb sub []); [lia|reflexivity].
  - rewrite IH. destruct (last_index sub s); [lia|].
    destruct (prefixb sub (a :: s)); [lia|reflexivity].
Qed.

(** [rfind] answers the index of the last occurrence. *)
Lemma rfind_last_at sub s i : last_at sub s i -> rfind sub s = Z.of_nat i.
Proof.
  intros H. unfold rfind. rewrite rfind_aux_last_index.
  pose proof (last_index_spec sub s) as Hs.
  destruct (last_index sub s) as [k|].
  - rewrite (last_at_unique _ _ _ _ Hs H). lia.
  - destruct (Hs i (proj1 H)).
Qed.

(** One character occurs at [i] exactly when it is the [i]-th character. *)
Lemma occurs_at_char (c : N) s i : occurs_at [c] s i <-> s !! i = Some c.
Proof.
  unfold occurs_at. split.
  - intros [_ [k Hk]]. rewrite <- (Nat.add_0_r i), <- lookup_drop, Hk. reflexivity.
  - intros H. split; [apply Nat.lt_le_incl, (lookup_lt_Some _ _ _ H)|].
    exists (drop (S i) s). rewrite (drop_S _ _ _ H). reflexivity.
Qed.

End StrFacts.

(** No fence at all, hence no JSON-language fence. *)
Lemma no_fence_no_json_fence (s : pystr) :
  contains (u "```") s = false -> contains (u "```json") s = false.
Proof.
  intros H. change (u "```json") with (u "```" ++ u "json").
  apply contains_false_ext, H.
Qed.

Section ParseFacts.
Variable json_loads : pystr -> outcome pyval.
Variable TripPlan_of : pyval -> outcome TripPlan.t.
Variable pad_year : bool.
Implicit Types pre body post response : pystr.

(** What the two fenced branches compute, for an opening marker [mark]. *)
Lemma fenced_slice (mark : pystr) pre body post :
  first_at mark (pre ++ mark ++ body ++ u "```" ++ post) (length pre) ->
  first_at (u "```") (body ++ u "```" ++ post) (length body) ->
  contains mark (pre ++ mark ++ body ++ u "```" ++ post) = true
  /\ slice (pre ++ mark ++ body ++ u "```" ++ post)
        (find mark (pre ++ mark ++ body ++ u "```" ++ post) + Z.of_nat (length mark))
        (find_from (u "```") (pre ++ mark ++ body ++ u "```" ++ post)
           (find mark (pre ++ mark ++ body ++ u "```" ++ post) + Z.of_nat (length mark)))
     = body.
Proof.
  intros Hopen Hclose.
  split; [apply contains_true; exists (length pre); apply Hopen|].
  rewrite (find_first_at _ _ _ Hopen), <- Nat2Z.inj_add.
  set (response := pre ++ mark ++ body ++ u "```" ++ post).
  assert (Hdrop : drop (length pre + length mark) response = body ++ u "```" ++ post).
  { unfold response. rewrite (app_assoc pre mark).
    apply drop_app_length'. rewrite length_app. reflexivity. }
  assert (Hlen : (length pre + length mark + length body <= length response)%nat).
  { unfold response. rewrite !length_app. lia. }
  rewrite find_from_drop by lia.
  rewrite Hdrop, find_aux_first_index, (first_index_Some _ _ _ Hclose).
  rewrite <- Nat2Z.inj_add, slice_take_drop by lia.
  rewrite Hdrop.
  replace (length pre + length mark + length body - (length pre + length mark))%nat
    with (length body) by lia.
  apply take_app_length.
Qed.

Lemma extract_json_fenced_json pre body post :
  first_at (u "```json") (pre ++ u "```json" ++ body ++ u "```" ++ post) (length pre) ->
  first_at (u "```") (body ++ u "```" ++ post) (length body) ->
  extract_json (pre ++ u "```json" ++ body ++ u "```" ++ post) = Ok (strip body).
Proof.
  intros Hopen Hclose.
  destruct (fenced_slice _ _ _ _ Hopen Hclose) as [Hin Hslice].
  unfold extract_json. rewrite Hin. cbv zeta.
  change 7 with (Z.of_nat (length (u "```json"))). rewrite Hslice. reflexivity.
Qed.

Lemma extract_json_fenced_plain pre body post :
  contains (u "```json") (pre ++ u "```" ++ body ++ u "```" ++ post) = false ->
  first_at (u "```") (pre ++ u "```" ++ body ++ u "```" ++ post) (length pre) ->
  first_at (u "```") (body ++ u "```" ++ post) (length body) ->
  extract_json (pre ++ u "```" ++ body ++ u "```" ++ post) = Ok (strip body).
Proof.
  intros Hno Hopen Hclose.
  destruct (fenced_slice _ _ _ _ Hopen Hclose) as [Hin Hslice].
  unfold extract_json. rewrite Hno, Hin. cbv zeta.
  change 3 with (Z.of_nat (length (u "```"))). rewrite Hslice. reflexivity.
Qed.

Lemma extract_json_braces pre body post :
  contains (u "```") (pre ++ u "{" ++ body ++ u "}" ++ post) = false ->
  123%N ∉ pre -> 125%N ∉ post ->
  extract_json (pre ++ u "{" ++ body ++ u "}" ++ post) = Ok (u "{" ++ body ++ u "}").
Proof.
  intros Hno Hpre Hpost. set (response := pre ++ u "{" ++ body ++ u "}" ++ post) in *.
  assert (Hfirst : first_at (u "{") response (length pre)).
  { split; [apply occurs_at_here|]. intros j Hj Hocc.
    apply occurs_at_char in Hocc. unfold response in Hocc.
    rewrite lookup_app_l in Hocc by exact Hj.
    apply Hpre, list_elem_of_lookup. eauto. }
  assert (Hlast : last_at (u "}") response (length pre + 1 + length body)).
  { split.
    - unfold response.
      replace (pre ++ u "{" ++ body ++ u "}" ++ post)
        with ((pre ++ u "{" ++ body) ++ u "}" ++ post) by (rewrite <- !app_assoc; reflexivity).
      replace (length pre + 1 + length body)%nat with (length (pre ++ u "{" ++ body))
        by (rewrite !length_app; simpl; lia).
      apply occurs_at_here.
    - intros j Hj Hocc. apply occurs_at_char in Hocc.
      unfold response in Hocc.
      replace (pre ++ u "{" ++ body ++ u "}" ++ post)
        with ((pre ++ u "{" ++ body ++ u "}") ++ post) in Hocc
        by (rewrite <- !app_assoc; reflexivity).
      rewrite lookup_app_r in Hocc by (rewrite !length_app; simpl; lia).
      apply Hpost, list_elem_of_lookup. eauto. }
  unfold extract_json. fold response.
  rewrite (no_fence_no_json_fence response Hno), Hno.
  replace (contains (u "{") response) with true
    by (symmetry; apply contains_true; exists (length pre); apply Hfirst).
  replace (contains (u "}") response) with true
    by (symmetry; apply contains_true; eexists; apply Hlast).
  simpl andb. cbv iota zeta.
  rewrite (find_first_at _ _ _ Hfirst), (rfind_last_at _ _ _ Hlast).
  replace (Z.of_nat (length pre + 1 + length body) + 1)
    with (Z.of_nat (length pre + 1 + length body + 1)) by lia.
  rewrite slice_take_drop
    by (unfold response; rewrite ?length_app; simpl; lia).
  unfold response. rewrite drop_app_length. f_equal.
  replace (u "{" ++ body ++ u "}" ++ post) with ((u "{" ++ body ++ u "}") ++ post)
    by (rewrite <- !app_assoc; reflexivity).
  apply take_app_length'. rewrite !length_app. simpl. lia.
Qed.


(** Whatever goes wrong inside the [try] block, the parser answers what the
    fallback generator answers. *)
Lemma parse_response_caught (response : pyval) (request : TripRequest.t) (e : exn) :
  parse_body json_loads TripPlan_of response = Raise e ->
  _parse_response json_loads TripPlan_of pad_year response request
  = _create_fallback_plan pad_year request.
Proof. intros H. unfold _parse_response. rewrite H. reflexivity. Qed.

End ParseFacts.

(** * Effects: traces and exceptions *)

Section MonadFacts.
Context {A B : Type}.
Implicit Types (Q : event -> Prop) (w : world).

Lemma bind_Ok (m : M A) (k : A -> M B) w a w' :
  m w = (Ok a, w') -> bind m k w = k a w'.
Proof. intros H. unfold bind. rewrite H. reflexivity. Qed.

Lemma bind_Raise (m : M A) (k : A -> M B) w e w' :
  m w = (Raise e, w') -> bind m k w = (Raise e, w').
Proof. intros H. unfold bind. rewrite H. reflexivity. Qed.

Lemma mcatch_Ok (m : M A) (h : exn -> M A) w a w' :
  m w = (Ok a, w') -> mcatch m h w = (Ok a, w').
Proof. intros H. unfold mcatch. rewrite H. reflexivity. Qed.

Lemma mcatch_Raise (m : M A) (h : exn -> M A) w e w' :
  m w = (Raise e, w') -> mcatch m h w = h e w'.
Proof. intros H. unfold mcatch. rewrite H. reflexivity. Qed.

Lemma grows_ret Q (a : A) : grows Q (ret a).
Proof. intros w. exists []. simpl. rewrite app_nil_r. auto. Qed.

Lemma grows_raise Q (e : exn) : grows Q (@raise A e).
Proof. intros w. exists []. simpl. rewrite app_nil_r. auto. Qed.

Lemma grows_lift Q (r : outcome A) : grows Q (lift r).
Proof. intros w. exists []. simpl. rewrite app_nil_r. auto. Qed.

Lemma grows_ask Q (answer : list event -> outcome A) (e : event) :
  Q e -> grows Q (ask answer e).
Proof. intros He w. exists [e]. simpl. auto. Qed.

Lemma grows_bind Q (m : M A) (k : A -> M B) :
  grows Q m -> (forall a, grows Q (k a)) -> grows Q (bind m k).
Proof.
  intros Hm Hk w. destruct (Hm w) as (tr & Htr & HQ). unfold bind.
  destruct (m w) as [[a|e] w']; simpl in *.
  - destruct (Hk a w') as (tr' & Htr' & HQ').
    exists (tr ++ tr'). rewrite Htr', Htr, app_assoc. split; [reflexivity|].
    apply Forall_app; auto.
  - exists tr. auto.
Qed.

Lemma grows_mcatch Q (m : M A) (h : exn -> M A) :
  grows Q m -> (forall e, grows Q (h e)) -> grows Q (mcatch m h).
Proof.
  intros Hm Hh w. destruct (Hm w) as (tr & Htr & HQ). unfold mcatch.
  destruct (m w) as [[a|e] w']; simpl in *.
  - exists tr. auto.
  - destruct (Hh e w') as (tr' & Htr' & HQ').
    exists (tr ++ tr'). rewrite Htr', Htr, app_assoc. split; [reflexivity|].
    apply Forall_app; auto.
Qed.

Lemma keeps_store_ret (a : A) : keeps_store (ret a).
Proof. intros w. reflexivity. Qed.

Lemma keeps_store_raise (e : exn) : keeps_store (@raise A e).
Proof. intros w. reflexivity. Qed.

Lemma keeps_store_lift (r : outcome A) : keeps_store (lift r).
Proof. intros w. reflexivity. Qed.

Lemma keeps_store_ask (answer : list event -> outcome A) (e : event) :
  keeps_store (ask answer e).
Proof. intros w. reflexivity. Qed.

Lemma keeps_store_bind (m : M A) (k : A -> M B) :
  keeps_store m -> (forall a, keeps_store (k a)) -> keeps_store (bind m k).
Proof.
  intros Hm Hk w. specialize (Hm w). unfold bind.
  destruct (m w) as [[a|e] w']; simpl in *; [|exact Hm].
  rewrite Hk. exact Hm.
Qed.

Lemma keeps_store_mcatch (m : M A) (h : exn -> M A) :
  keeps_store m -> (forall e, keeps_store (h e)) -> keeps_store (mcatch m h).
Proof.
  intros Hm Hh w. specialize (Hm w). unfold mcatch.
  destruct (m w) as [[a|e] w']; simpl in *; [exact Hm|].
  rewrite Hh. exact Hm.
Qed.

(** A handler that returns a default turns any body into one that never
    raises. *)
Lemma never_raises_mcatch_ret (m : M A) (d : exn -> A) :
  never_raises (mcatch m (fun e => ret (d e))).
Proof.
  intros w. unfold mcatch. destruct (m w) as [[a|e] w']; simpl; eauto.
Qed.

Lemma never_raises_bind (m : M A) (k : A -> M B) :
  never_raises m -> (forall a, never_raises (k a)) -> never_raises (bind m k).
Proof.
  intros Hm Hk w. destruct (Hm w) as (a & w' & Ha). unfold bind. rewrite Ha.
  apply Hk.
Qed.

End MonadFacts.

Lemma grows_emit Q (e : event) : Q e -> grows Q (emit e).
Proof. intros He w. exists [e]. simpl. auto. Qed.

Lemma grows_get_store Q : grows Q get_store.
Proof. intros w. exists []. simpl. rewrite app_nil_r. auto. Qed.

Lemma grows_modify Q (f : store -> store) : grows Q (modify f).
Proof. intros w. exists []. simpl. rewrite app_nil_r. auto. Qed.

Lemma grows_alloc Q (o : obj) : grows Q (alloc o).
Proof. intros w. exists []. simpl. rewrite app_nil_r. auto. Qed.

Lemma grows_load Q (r : ref) : grows Q (load r).
Proof.
  intros w. exists []. unfold load. rewrite app_nil_r.
  destruct (heap (mem w) !! r); auto.
Qed.

Lemma grows_store_at Q (r : ref) (o : obj) : grows Q (store_at r o).
Proof. apply grows_modify. Qed.

Lemma keeps_store_emit (e : event) : keeps_store (emit e).
Proof. intros w. reflexivity. Qed.

Lemma keeps_store_load (r : ref) : keeps_store (load r).
Proof. intros w. unfold load. destruct (heap (mem w) !! r); reflexivity. Qed.

Lemma never_raises_emit (e : event) : never_raises (emit e).
Proof. intros w. unfold emit. eauto. Qed.

Create HintDb effects.
#[export] Hint Resolve grows_ret grows_raise grows_lift grows_ask grows_emit
  grows_get_store grows_modify grows_alloc grows_load grows_store_at
  keeps_store_ret keeps_store_raise keeps_store_lift keeps_store_ask
  keeps_store_emit keeps_store_load : effects.

(** Decompose a computation along its [bind]s and [try] blocks. *)
Ltac effects :=
  repeat first
    [ apply grows_bind; [|intros ?]
    | apply grows_mcatch; [|intros ?]
    | apply keeps_store_bind; [|intros ?]
    | apply keeps_store_mcatch; [|intros ?]
    | match goal with
      | |- grows _ (match ?x with _ => _ end) => destruct x
      | |- keeps_store (match ?x with _ => _ end) => destruct x
      | |- grows _ (if ?x then _ else _) => destruct x
      | |- keeps_store (if ?x then _ else _) => destruct x
      end
    | solve [auto with effects] ].

(** * The mapping facade *)

Section AmapFacts.
Context (X : externals).
Implicit Types (w : world) (self : ref) (d : gmap pystr tool).

Lemma serves_mem w w' self d : mem w' = mem w -> serves w self d -> serves w' self d.
Proof. intros Hm [ts H]. exists ts. rewrite Hm. exact H. Qed.

Lemma get_tool_found w self d name t :
  serves w self d -> d !! name = Some t -> Amap.get_tool self name w = (Ok t, w).
Proof.
  intros [ts Hs] Ht. unfold Amap.get_tool, Amap.self_mcp_tools_dict, bind, load.
  rewrite Hs. simpl. rewrite Ht. reflexivity.
Qed.

Lemma get_tool_absent w self d name :
  serves w self d -> d !! name = None ->
  Amap.get_tool self name w = (Raise ValueError, w).
Proof.
  intros [ts Hs] Ht. unfold Amap.get_tool, Amap.self_mcp_tools_dict, bind, load.
  rewrite Hs. simpl. rewrite Ht. reflexivity.
Qed.

(** The catalog built by [init_mcp_tools] files every tool under its own
    name. *)
Lemma tools_dict_name (ts : list tool) (name : pystr) (t : tool) :
  Amap.tools_dict ts !! name = Some t -> tool_name t = name.
Proof.
  unfold Amap.tools_dict.
  assert (H : forall d0 : gmap pystr tool,
             (forall n t0, d0 !! n = Some t0 -> tool_name t0 = n) ->
             forall n t0,
               foldl (fun d t1 => <[tool_name t1 := t1]> d) d0 ts !! n = Some t0 ->
               tool_name t0 = n).
  { induction ts as [|a ts IH]; intros d0 Hd0 n t0; simpl; [apply Hd0|].
    apply IH. intros n' t'. rewrite lookup_insert.
    destruct (decide (tool_name a = n')) as [<-|Hne]; rewrite ?decide_True, ?decide_False by auto.
    - intros [= <-]. reflexivity.
    - apply Hd0. }
  apply H. intros n t0. rewrite lookup_empty. discriminate.
Qed.


Lemma bind_emit {B} (e : event) (k : unit -> M B) w : bind (emit e) k w = k tt (noted w e).
Proof. reflexivity. Qed.

Lemma bind_lift_Ok {A B} (a : A) (k : A -> M B) w : bind (lift (Ok a)) k w = k a w.
Proof. reflexivity. Qed.

Lemma serves_noted w self d e : serves w self d -> serves (noted w e) self d.
Proof. apply serves_mem. reflexivity. Qed.

(** C5.  [get_weather] answers an empty list when the weather tool is not
    in the catalog and when the call or the decoding of its payload raises;
    when the decoded payload is a dictionary without [forecasts], it answers
    [None], not the empty list the claim (and the return annotation) asks
    for. *)
Theorem get_weather_degrades w self d (city : pystr) :
  serves w self d ->
  let w0 := noted w (Call (u "get_weather") [VStr city]) in
  (d !! u "maps_weather" = None ->
   Amap.get_weather X self city w = (Ok (VList []), w0))
  /\ (forall t, d !! u "maps_weather" = Some t ->
       let w1 := noted w0 (ToolRun t {[ u "city" := VStr city ]}) in
       (forall e, arun X (trace w0) t {[ u "city" := VStr city ]} = Raise e ->
                  Amap.get_weather X self city w = (Ok (VList []), w1))
       /\ (forall payload e,
             arun X (trace w0) t {[ u "city" := VStr city ]} = Ok payload ->
             Amap.decode_result X payload = Raise e ->
             Amap.get_weather X self city w = (Ok (VList []), w1))
       /\ (forall payload fields,
             arun X (trace w0) t {[ u "city" := VStr city ]} = Ok payload ->
             Amap.decode_result X payload = Ok (VDict fields) ->
             assoc (u "forecasts") fields = None ->
             Amap.get_weather X self city w = (Ok VNone, w1))).
Proof.
  intros Hs w0.
  assert (Hs0 : serves w0 self d) by apply serves_noted, Hs.
  split.
  - intros Hno. unfold Amap.get_weather. rewrite bind_emit. fold w0.
    unfold mcatch, bind. rewrite (get_tool_absent _ _ _ _ Hs0 Hno). reflexivity.
  - intros t Ht w1.
    assert (Hrun : forall r,
               arun X (trace w0) t {[ u "city" := VStr city ]} = r ->
               Amap.get_weather X self city w
               = mcatch (do weather_json <- lift (rbind r (Amap.decode_result X));
                         do forecasts <- lift (py_get weather_json (u "forecasts") VNone);
                         ret forecasts)
                        (fun _ => ret (VList [])) w1).
    { intros r Hr. unfold Amap.get_weather. rewrite bind_emit. fold w0.
      unfold mcatch, bind. rewrite (get_tool_found _ _ _ _ _ Hs0 Ht).
      unfold Amap.tool_arun, ask, lift. rewrite Hr. fold w1.
      destruct r; reflexivity. }
    repeat split.
    + intros e He. rewrite (Hrun _ He). reflexivity.
    + intros payload e Hp He. rewrite (Hrun _ Hp). unfold mcatch, bind, lift. simpl.
      rewrite He. reflexivity.
    + intros payload fields Hp Hd Hf. rewrite (Hrun _ Hp). unfold mcatch, bind, lift. simpl.
      rewrite Hd. simpl. rewrite Hf. reflexivity.
Qed.


Lemma keeps_store_get_tool self (name : pystr) : keeps_store (Amap.get_tool self name).
Proof. unfold Amap.get_tool, Amap.self_mcp_tools_dict. effects. Qed.

Lemma keeps_store_geocode self (address : pystr) (city : option pystr) :
  keeps_store (Amap.geocode X self address city).
Proof.
  unfold Amap.geocode, Amap.tool_arun. effects.
Qed.

(** Once its tool is found, the routing step runs it exactly once, with the
    arguments it was given. *)
Lemma run_route_tool_run w self d (name : pystr) (t : tool) (arguments : gmap pystr pyval) :
  serves w self d -> d !! name = Some t ->
  exists r, Amap.run_route_tool X self name arguments w
            = (r, noted w (ToolRun t arguments)).
Proof.
  intros Hs Ht. unfold Amap.run_route_tool, bind.
  rewrite (get_tool_found _ _ _ _ _ Hs Ht).
  unfold Amap.tool_arun, ask, lift. fold (noted w (ToolRun t arguments)).
  repeat match goal with
         | |- context [match ?x with Ok _ => _ | Raise _ => _ end] => destruct x
         end; eauto.
Qed.

Section Route.
Variables (self : ref) (d : gmap pystr tool).
Variables (origin_address origin_city destination_address destination_city : pystr).
Variable route_type : pystr.
Variables (w w1 w2 : world).
Variables (origin destination : Location.t) (more_origins more_destinations : list Location.t).

Abbreviation w0 :=
  (noted w (Call (u "plan_route")
              [VStr origin_address; VStr origin_city; VStr destination_address;
               VStr destination_city; VStr route_type])).

Abbreviation arguments :=
  (Amap.route_arguments (coordinates X origin) (coordinates X destination)
     (VStr origin_city) (VStr destination_city) route_type).

Hypothesis Hserves : serves w self d.
Hypothesis Horigin :
  Amap.geocode X self origin_address (Some origin_city) w0
  = (Ok (Some (origin :: more_origins)), w1).
Hypothesis Hdestination :
  Amap.geocode X self destination_address (Some destination_city) w1
  = (Ok (Some (destination :: more_destinations)), w2).

Lemma serves_after_geocoding : serves w2 self d.
Proof.
  apply (serves_mem w); [|exact Hserves].
  pose proof (keeps_store_geocode self destination_address (Some destination_city) w1) as H2.
  pose proof (keeps_store_geocode self origin_address (Some origin_city) w0) as H1.
  rewrite Hdestination in H2. rewrite Horigin in H1. simpl in *. congruence.
Qed.

Lemma plan_route_run (t : tool) :
  d !! Amap.route_tool_name route_type = Some t ->
  exists paths,
    Amap.plan_route X self origin_address origin_city destination_address
      destination_city route_type w
    = (Ok paths, noted w2 (ToolRun t arguments)).
Proof.
  intros Ht. unfold Amap.plan_route. rewrite bind_emit.
  unfold mcatch. rewrite (bind_Ok _ _ _ _ _ Horigin).
  change (Amap.location_str X (Some (origin :: more_origins)))
    with (Ok (coordinates X origin)).
  rewrite bind_lift_Ok, (bind_Ok _ _ _ _ _ Hdestination).
  change (Amap.location_str X (Some (destination :: more_destinations)))
    with (Ok (coordinates X destination)).
  rewrite bind_lift_Ok.
  destruct (run_route_tool_run w2 self d _ t arguments serves_after_geocoding Ht) as [r Hr].
  rewrite Hr. destruct r; simpl; eauto.
Qed.

Lemma sync_plan_route_run (t : tool) :
  d !! Amap.route_tool_name route_type = Some t ->
  exists paths,
    AmapSync.plan_route X self origin_address destination_address
      (Some origin_city) (Some destination_city) route_type w
    = (Ok paths, noted w2 (ToolRun t arguments)).
Proof.
  intros Ht. unfold AmapSync.plan_route. rewrite bind_emit.
  change (opt_str (Some origin_city)) with (VStr origin_city).
  change (opt_str (Some destination_city)) with (VStr destination_city).
  change (AmapSync.geocode X) with (Amap.geocode X).
  rewrite (bind_Ok _ _ _ _ _ Horigin).
  change (Amap.location_str X (Some (origin :: more_origins)))
    with (Ok (coordinates X origin)).
  rewrite bind_lift_Ok, (bind_Ok _ _ _ _ _ Hdestination).
  change (Amap.location_str X (Some (destination :: more_destinations)))
    with (Ok (coordinates X destination)).
  rewrite bind_lift_Ok. unfold AmapSync._play_route_async, mcatch.
  change (opt_str (Some origin_city)) with (VStr origin_city).
  change (opt_str (Some destination_city)) with (VStr destination_city).
  destruct (run_route_tool_run w2 self d _ t arguments serves_after_geocoding Ht) as [r Hr].
  rewrite Hr. destruct r; simpl; eauto.
Qed.

(** Once both addresses are resolved the two facades run the same steps. *)
Lemma sync_plan_route_agrees :
  AmapSync.plan_route X self origin_address destination_address
    (Some origin_city) (Some destination_city) route_type w
  = Amap.plan_route X self origin_address origin_city destination_address
      destination_city route_type w.
Proof.
  unfold AmapSync.plan_route, Amap.plan_route. rewrite !bind_emit.
  change (opt_str (Some origin_city)) with (VStr origin_city).
  change (opt_str (Some destination_city)) with (VStr destination_city).
  change (AmapSync.geocode X) with (Amap.geocode X).
  unfold mcatch. rewrite !(bind_Ok _ _ _ _ _ Horigin).
  change (Amap.location_str X (Some (origin :: more_origins)))
    with (Ok (coordinates X origin)).
  rewrite !bind_lift_Ok, !(bind_Ok _ _ _ _ _ Hdestination).
  change (Amap.location_str X (Some (destination :: more_destinations)))
    with (Ok (coordinates X destination)).
  rewrite !bind_lift_Ok. reflexivity.
Qed.

End Route.


Lemma route_tool_name_other (route_type : pystr) :
  route_type <> u "walking" -> route_type <> u "driving" -> route_type <> u "transit" ->
  Amap.route_tool_name route_type = u "maps_direction_walking".
Proof.
  intros Hw Hd Ht. unfold Amap.route_tool_name, Str.eqb.
  rewrite !bool_decide_eq_false_2 by assumption. reflexivity.
Qed.

Lemma route_arguments_transit (o dst : pystr) (c1 c2 : pyval) :
  let arguments := Amap.route_arguments o dst c1 c2 (u "transit") in
  arguments !! u "origin" = Some (VStr o)
  /\ arguments !! u "destination" = Some (VStr dst)
  /\ arguments !! u "city1" = Some c1
  /\ arguments !! u "city2" = Some c2.
Proof. repeat split; vm_compute; reflexivity. Qed.

Lemma route_arguments_plain (o dst : pystr) (c1 c2 : pyval) (route_type : pystr) :
  route_type <> u "transit" ->
  let arguments := Amap.route_arguments o dst c1 c2 route_type in
  arguments !! u "origin" = Some (VStr o)
  /\ arguments !! u "destination" = Some (VStr dst)
  /\ arguments !! u "city1" = None
  /\ arguments !! u "city2" = None.
Proof.
  intros Hne. unfold Amap.route_arguments, Str.eqb.
  rewrite bool_decide_eq_false_2 by assumption.
  repeat split; vm_compute; reflexivity.
Qed.

(** C7.  With both addresses resolved, [plan_route] (in the asynchronous
    and in the blocking facade) ends by running one tool: for "transit" the
    tool filed as [maps_direction_transit_integrated], with [city1] and
    [city2] among the arguments; for "driving" the tool filed as
    [maps_direction_driving], without city arguments; for a route type that
    is none of the three known ones, the walking tool. *)
Theorem plan_route_tool_choice
    (self : ref) (d : gmap pystr tool)
    (origin_address origin_city destination_address destination_city route_type : pystr)
    (w w1 w2 : world)
    (origin destination : Location.t) (more_origins more_destinations : list Location.t)
    (route : M pyval) :
  serves w self d ->
  Amap.geocode X self origin_address (Some origin_city)
    (noted w (Call (u "plan_route")
                [VStr origin_address; VStr origin_city; VStr destination_address;
                 VStr destination_city; VStr route_type]))
  = (Ok (Some (origin :: more_origins)), w1) ->
  Amap.geocode X self destination_address (Some destination_city) w1
  = (Ok (Some (destination :: more_destinations)), w2) ->
  route = Amap.plan_route X self origin_address origin_city destination_address
            destination_city route_type
  \/ route = AmapSync.plan_route X self origin_address destination_address
               (Some origin_city) (Some destination_city) route_type ->
  (route_type = u "transit" ->
   forall t, d !! u "maps_direction_transit_integrated" = Some t ->
   exists paths arguments,
     route w = (Ok paths, noted w2 (ToolRun t arguments))
     /\ arguments !! u "origin" = Some (VStr (coordinates X origin))
     /\ arguments !! u "destination" = Some (VStr (coordinates X destination))
     /\ arguments !! u "city1" = Some (VStr origin_city)
     /\ arguments !! u "city2" = Some (VStr destination_city))
  /\ (route_type = u "driving" ->
      forall t, d !! u "maps_direction_driving" = Some t ->
      exists paths arguments,
        route w = (Ok paths, noted w2 (ToolRun t arguments))
        /\ arguments !! u "origin" = Some (VStr (coordinates X origin))
        /\ arguments !! u "destination" = Some (VStr (coordinates X destination))
        /\ arguments !! u "city1" = None
        /\ arguments !! u "city2" = None)
  /\ (route_type <> u "walking" -> route_type <> u "driving" ->
      route_type <> u "transit" ->
      forall t, d !! u "maps_direction_walking" = Some t ->
      exists paths arguments,
        route w = (Ok paths, noted w2 (ToolRun t arguments))
        /\ arguments !! u "origin" = Some (VStr (coordinates X origin))
        /\ arguments !! u "destination" = Some (VStr (coordinates X destination))
        /\ arguments !! u "city1" = None
        /\ arguments !! u "city2" = None).
Proof.
  intros Hs Ho Hd Hroute.
  assert (Hrun : forall t, d !! Amap.route_tool_name route_type = Some t ->
            exists paths,
              route w
              = (Ok paths,
                 noted w2 (ToolRun t
                   (Amap.route_arguments (coordinates X origin) (coordinates X destination)
                      (VStr origin_city) (VStr destination_city) route_type)))).
  { intros t Ht. destruct Hroute as [-> | ->].
    - eapply plan_route_run; eassumption.
    - eapply sync_plan_route_run; eassumption. }
  split; [|split].
  - intros -> t Ht. destruct (Hrun t Ht) as [paths Hp].
    eexists _, _. split; [exact Hp|]. apply route_arguments_transit.
  - intros -> t Ht. destruct (Hrun t Ht) as [paths Hp].
    eexists _, _. split; [exact Hp|]. apply route_arguments_plain. discriminate.
  - intros Hnw Hnd Hnt t Ht.
    destruct (Hrun t) as [paths Hp]; [rewrite route_tool_name_other; assumption|].
    eexists _, _. split; [exact Hp|]. apply route_arguments_plain. exact Hnt.
Qed.

(** C8.  The blocking [plan_route] geocodes outside its [try] block: when
    geocoding the origin fails (answers [None]) or finds nothing, the
    asynchronous operation answers an empty list, and the blocking one raises
    [TypeError] or [IndexError]. *)
Theorem sync_plan_route_raises
    (self : ref)
    (origin_address origin_city destination_address destination_city route_type : pystr)
    (w w1 : world) (found : option (list Location.t)) :
  Amap.geocode X self origin_address (Some origin_city)
    (noted w (Call (u "plan_route")
                [VStr origin_address; VStr origin_city; VStr destination_address;
                 VStr destination_city; VStr route_type]))
  = (Ok found, w1) ->
  found = None \/ found = Some [] ->
  Amap.plan_route X self origin_address origin_city destination_address
    destination_city route_type w
  = (Ok (VList []), w1)
  /\ AmapSync.plan_route X self origin_address destination_address
       (Some origin_city) (Some destination_city) route_type w
     = (Raise (match found with Some _ => IndexError | None => TypeError end), w1).
Proof.
  intros Ho Hfound. split.
  - unfold Amap.plan_route. rewrite bind_emit. unfold mcatch.
    rewrite (bind_Ok _ _ _ _ _ Ho). destruct Hfound as [-> | ->]; reflexivity.
  - unfold AmapSync.plan_route. rewrite bind_emit.
    change (opt_str (Some origin_city)) with (VStr origin_city).
    change (opt_str (Some destination_city)) with (VStr destination_city).
    change (AmapSync.geocode X) with (Amap.geocode X).
    rewrite (bind_Ok _ _ _ _ _ Ho). destruct Hfound as [-> | ->]; reflexivity.
Qed.

(** The other four operations of the blocking facade are the asynchronous
    ones. *)
Lemma sync_operations_agree (self : ref) :
  (forall city, AmapSync.get_weather X self city = Amap.get_weather X self city)
  /\ (forall keywords city citylimit,
        AmapSync.search_poi X self keywords city citylimit
        = Amap.search_poi X self keywords city citylimit)
  /\ (forall address city,
        AmapSync.geocode X self address city = Amap.geocode X self address city)
  /\ (forall poi_id,
        AmapSync.get_poi_detail X self poi_id = Amap.get_poi_detail X self poi_id).
Proof. repeat split. Qed.

End AmapFacts.

Lemma serves_ready : serves ready_world 0%nat (Amap.tools_dict demo_tools).
Proof. exists (Some demo_tools). vm_compute. reflexivity. Qed.

(** C5 at the failing input: the weather tool answers the text [{}], which
    decodes to an empty dictionary, and [get_weather] answers [None]. *)
Lemma get_weather_degrades_witness :
  fst (Amap.get_weather demo 0%nat (u "北京") ready_world) = Ok VNone
  /\ fst (Amap.get_weather offline 0%nat (u "北京") ready_world) = Ok (VList []).
Proof.
  destruct (get_weather_degrades demo ready_world 0%nat _ (u "北京") serves_ready)
    as [_ Hfound].
  destruct (Hfound (mk_tool (u "maps_weather") 1)) as (_ & _ & Hnone);
    [vm_compute; reflexivity|].
  destruct (get_weather_degrades offline ready_world 0%nat _ (u "北京") serves_ready)
    as [_ Hfound'].
  destruct (Hfound' (mk_tool (u "maps_weather") 1)) as (Hraise & _ & _);
    [vm_compute; reflexivity|].
  split.
  - rewrite (Hnone _ [] eq_refl); [reflexivity | reflexivity | reflexivity].
  - rewrite (Hraise RemoteError eq_refl). reflexivity.
Defined.

Lemma plan_route_tool_choice_witness :
  (exists arguments,
     last (trace (snd (Amap.plan_route demo 0%nat (u "天安门") (u "北京") (u "故宫")
                         (u "北京") (u "transit") ready_world)))
     = Some (ToolRun (mk_tool (u "maps_direction_transit_integrated") 7) arguments)
     /\ arguments !! u "city1" = Some (VStr (u "北京"))
     /\ arguments !! u "city2" = Some (VStr (u "北京")))
  /\ (exists arguments,
        last (trace (snd (AmapSync.plan_route demo 0%nat (u "天安门") (u "故宫")
                            (Some (u "北京")) (Some (u "北京")) (u "teleport")
                            ready_world)))
        = Some (ToolRun (mk_tool (u "maps_direction_walking") 5) arguments)
        /\ arguments !! u "city1" = None
        /\ arguments !! u "city2" = None).
Proof.
  assert (Hgeo : forall route_type,
            let w0 := noted ready_world
                        (Call (u "plan_route")
                           [VStr (u "天安门"); VStr (u "北京"); VStr (u "故宫");
                            VStr (u "北京"); VStr route_type]) in
            let w1 := snd (Amap.geocode demo 0%nat (u "天安门") (Some (u "北京")) w0) in
            let w2 := snd (Amap.geocode demo 0%nat (u "故宫") (Some (u "北京")) w1) in
            Amap.geocode demo 0%nat (u "天安门") (Some (u "北京")) w0
            = (Ok (Some [Location.mk 116.482086%float 39.990496%float]), w1)
            /\ Amap.geocode demo 0%nat (u "故宫") (Some (u "北京")) w1
               = (Ok (Some [Location.mk 116.482086%float 39.990496%float]), w2)).
  { intros route_type. split; reflexivity. }
  split.
  - destruct (Hgeo (u "transit")) as [H1 H2].
    destruct (plan_route_tool_choice demo 0%nat _ _ _ _ _ _ ready_world _ _ _ _ [] [] _
                serves_ready H1 H2 (or_introl eq_refl)) as (Ht & _ & _).
    destruct (Ht eq_refl (mk_tool (u "maps_direction_transit_integrated") 7))
      as (paths & arguments & Hrun & _ & _ & Hc1 & Hc2); [vm_compute; reflexivity|].
    exists arguments. rewrite Hrun. simpl. rewrite last_snoc. auto.
  - destruct (Hgeo (u "teleport")) as [H1 H2].
    destruct (plan_route_tool_choice demo 0%nat _ _ _ _ _ _ ready_world _ _ _ _ [] [] _
                serves_ready H1 H2 (or_intror eq_refl)) as (_ & _ & Ho).
    destruct (Ho ltac:(discriminate) ltac:(discriminate) ltac:(discriminate)
                (mk_tool (u "maps_direction_walking") 5))
      as (paths & arguments & Hrun & _ & _ & Hc1 & Hc2); [vm_compute; reflexivity|].
    exists arguments. rewrite Hrun. simpl. rewrite last_snoc. auto.
Defined.

(** C8 at a failing input: the provider is out of reach, geocoding the
    origin answers [None]; the asynchronous [plan_route] answers an empty
    list and the blocking one raises [TypeError]. *)
Lemma sync_plan_route_raises_witness :
  fst (Amap.plan_route offline 0%nat (u "天安门") (u "北京") (u "故宫") (u "北京")
         (u "walking") ready_world)
  = Ok (VList [])
  /\ fst (AmapSync.plan_route offline 0%nat (u "天安门") (u "故宫")
            (Some (u "北京")) (Some (u "北京")) (u "walking") ready_world)
     = Raise TypeError.
Proof.
  destruct (sync_plan_route_raises offline 0%nat (u "天安门") (u "北京") (u "故宫")
              (u "北京") (u "walking") ready_world _ None eq_refl (or_introl eq_refl))
    as [Ha Hs].
  rewrite Ha, Hs. split; reflexivity.
Defined.

(** * The orchestrator *)

Module StrptimeFacts.
Import Datetime.

Lemma ascii_digit_range (lo hi : Z) (c : N) (v : Z) :
  ascii_digit lo hi c = Some v -> lo <= v <= hi.
Proof.
  unfold ascii_digit. destruct (Z.leb_spec lo (Z.of_N c - 48)); simpl; [|discriminate].
  destruct (Z.leb_spec (Z.of_N c - 48) hi); [|discriminate].
  intros [= <-]. lia.
Qed.

Lemma digit_in_nonneg (zs : list N) (c : N) (v : Z) : digit_in zs c = Some v -> 0 <= v.
Proof.
  induction zs as [|z zs IH]; simpl; [discriminate|].
  destruct ((z <=? c)%N && (c <? z + 10)%N); [intros [= <-]; lia|exact IH].
Qed.

Ltac alts :=
  repeat match goal with
         | H : In _ (_ ++ _) |- _ => apply in_app_or in H as [H|H]
         | H : In _ [] |- _ => destruct H
         | H : In _ [_] |- _ => destruct H as [H|[]]
         | H : In _ (if ?b then _ else _) |- _ => destruct b
         | H : In _ (match ?x with Some _ => _ | None => _ end) |- _ => destruct x eqn:?
         | H : (_, _) = (_, _) |- _ => injection H as <- <-
         | H : ascii_digit _ _ _ = Some _ |- _ => apply ascii_digit_range in H
         | H : digit _ = Some _ |- _ => apply digit_in_nonneg in H
         end.

Lemma month_alts_range (s r : pystr) (m : Z) : In (m, r) (month_alts s) -> 1 <= m <= 12.
Proof.
  unfold month_alts. destruct s as [|c0 [|c1 r1]]; intros H; alts; lia.
Qed.

Lemma day_alts_range (s r : pystr) (d : Z) : In (d, r) (day_alts s) -> 1 <= d.
Proof.
  unfold day_alts. destruct s as [|c0 [|c1 r1]]; intros H; alts; lia.
Qed.

Lemma match_month_day_range (s rest : pystr) (m d : Z) :
  match_month_day s = Some (m, d, rest) -> 1 <= m <= 12 /\ 1 <= d.
Proof.
  unfold match_month_day. intros H.
  apply head_Some_elem_of, list_elem_of_In, in_flat_map in H as ([m' r] & Hm & Hd).
  destruct r as [|c r']; [destruct Hd|].
  destruct (c =? 45)%N; [|destruct Hd].
  apply in_map_iff in Hd as ([d' rest'] & [= <- <- <-] & Hd).
  split; [eapply month_alts_range, Hm|eapply day_alts_range, Hd].
Qed.

(** A date that [strptime] accepts lies in the calendar. *)
Lemma strptime_ok_range (s : pystr) (d : date) :
  strptime s = Ok d -> 1 <= year d /\ 1 <= month d <= 12 /\ 1 <= day d.
Proof.
  unfold strptime. intros H.
  repeat match type of H with
         | match ?x with _ => _ end = _ => destruct x eqn:?
         | (if ?b then _ else _) = _ => destruct b eqn:?
         | Raise _ = Ok _ => discriminate H
         end.
  injection H as <-. simpl.
  match goal with Hm : match_month_day _ = Some _ |- _ =>
    apply match_month_day_range in Hm end.
  match goal with Hy : (MINYEAR <=? _) && _ = true |- _ =>
    apply andb_prop in Hy as [Hy _]; apply Z.leb_le in Hy; unfold MINYEAR in Hy end.
  lia.
Qed.

Lemma ymd2ord_pos (d : date) :
  1 <= year d -> 1 <= month d <= 12 -> 1 <= day d -> 1 <= ymd2ord d.
Proof.
  intros Hy Hm Hd. unfold ymd2ord.
  assert (0 <= days_before_year (year d)).
  { unfold days_before_year. cbv zeta. Z.div_mod_to_equations. lia. }
  assert (0 <= days_before_month (year d) (month d)).
  { unfold days_before_month.
    assert (0 <= tbl DAYS_BEFORE_MONTH (month d)).
    { assert (Hc : month d = 1 \/ month d = 2 \/ month d = 3 \/ month d = 4
                   \/ month d = 5 \/ month d = 6 \/ month d = 7 \/ month d = 8
                   \/ month d = 9 \/ month d = 10 \/ month d = 11 \/ month d = 12) by lia.
      repeat (destruct Hc as [->|Hc]; [vm_compute; discriminate|]).
      rewrite Hc. vm_compute. discriminate. }
    destruct ((2 <? month d) && is_leap (year d)); lia. }
  lia.
Qed.

Lemma strptime_ok_ordinal (s : pystr) (d : date) : strptime s = Ok d -> 1 <= ymd2ord d.
Proof.
  intros H. apply strptime_ok_range in H as (Hy & Hm & Hd). apply ymd2ord_pos; assumption.
Qed.

End StrptimeFacts.

Lemma bind_Ok_inv {A B} (m : M A) (k : A -> M B) (w w' : world) (b : B) :
  bind m k w = (Ok b, w') -> exists a w1, m w = (Ok a, w1) /\ k a w1 = (Ok b, w').
Proof.
  unfold bind. destruct (m w) as [[a|e] w1]; [eauto|discriminate].
Qed.

Lemma search_poi_calls_app (a b : list event) :
  search_poi_calls (a ++ b) = search_poi_calls a ++ search_poi_calls b.
Proof. unfold search_poi_calls. apply flat_map_app. Qed.

Lemma search_poi_calls_none (tr : list event) :
  Forall not_search tr -> search_poi_calls tr = [].
Proof.
  induction 1 as [|e tr He _ IH]; [reflexivity|].
  change (e :: tr) with ([e] ++ tr). rewrite search_poi_calls_app, IH, app_nil_r. exact He.
Qed.

Section PlannerFacts.
Context (X : externals).
Implicit Types (w : world) (self : ref) (request : TripRequest.t).

(** C10.  When the start date does not parse, a failure inside the [try]
    block of [plan_trip] reaches the caller: the handler runs the fallback
    generator outside any [try], and its date parsing raises [ValueError]. *)
Theorem plan_trip_raises_on_malformed_date self request w (e : exn) (w1 : world) :
  is_ok (Datetime.strptime (TripRequest.start_date request)) = false ->
  Planner.plan_trip_body X self request w = (Raise e, w1) ->
  _create_fallback_plan (pad_year X) request = Raise ValueError
  /\ Planner.plan_trip X self request w = (Raise ValueError, w1).
Proof.
  intros Hbad Hbody.
  assert (Hfallback : _create_fallback_plan (pad_year X) request = Raise ValueError).
  { apply fallback_plan_bad_date.
    destruct (Datetime.strptime (TripRequest.start_date request)) as [d|e'] eqn:Hs;
      [discriminate|].
    rewrite (strptime_raises_ValueError _ _ Hs). reflexivity. }
  split; [exact Hfallback|].
  unfold Planner.plan_trip. rewrite (mcatch_Raise _ _ _ _ _ Hbody).
  unfold lift. rewrite Hfallback. reflexivity.
Qed.

End PlannerFacts.

Lemma plan_trip_raises_on_malformed_date_witness :
  _create_fallback_plan (pad_year offline) (beijing_request "2024/05/01" 2)
  = Raise ValueError
  /\ fst (Planner.plan_trip offline 2%nat (beijing_request "2024/05/01" 2)
            (planner_world offline))
     = Raise ValueError.
Proof.
  destruct (plan_trip_raises_on_malformed_date offline 2%nat
              (beijing_request "2024/05/01" 2) (planner_world offline) RemoteError
              (snd (Planner.plan_trip_body offline 2%nat
                      (beijing_request "2024/05/01" 2) (planner_world offline))))
    as [Hfallback Hplan].
  - reflexivity.
  - vm_compute. reflexivity.
  - split; [exact Hfallback|]. rewrite Hplan. reflexivity.
Defined.

Section SearchCalls.
Context (X : externals).
Implicit Types (w : world) (self : ref) (request : TripRequest.t).

Ltac quiet :=
  repeat first
    [ apply grows_bind; [|intros ?]
    | apply grows_mcatch; [|intros ?]
    | match goal with
      | |- grows _ (match ?x with _ => _ end) => destruct x
      | |- grows _ (if ?x then _ else _) => destruct x
      | |- grows _ (ask _ _) => apply grows_ask; reflexivity
      | |- grows _ (emit _) => apply grows_emit; reflexivity
      end
    | solve [auto with effects] ].

Lemma connect_quiet : grows not_search (connect X).
Proof.
  unfold connect, Amap.get_amap_service, Amap.init_mcp_tools, Amap.get_amap_mcp_tool.
  quiet.
Qed.

Lemma get_tool_quiet self (name : pystr) : grows not_search (Amap.get_tool self name).
Proof. unfold Amap.get_tool, Amap.self_mcp_tools_dict. quiet. Qed.

Lemma get_weather_quiet self (city : pystr) :
  grows not_search (Amap.get_weather X self city).
Proof. unfold Amap.get_weather, Amap.tool_arun. quiet. Qed.

Lemma get_weather_total self (city : pystr) : never_raises (Amap.get_weather X self city).
Proof.
  unfold Amap.get_weather. apply never_raises_bind; [apply never_raises_emit|].
  intros _. apply (never_raises_mcatch_ret _ (fun _ => VList [])).
Qed.

(** [search_poi] notes its call, runs at most its tool, and always answers. *)
Lemma search_poi_run self (keywords city : pystr) (citylimit : bool) w :
  exists pois w' tr,
    Amap.search_poi X self keywords city citylimit w = (Ok pois, w')
    /\ trace w'
       = trace w
         ++ Call (u "search_poi") [VStr keywords; VStr city; VBool citylimit] :: tr
    /\ Forall not_search tr.
Proof.
  unfold Amap.search_poi. rewrite bind_emit.
  set (w0 := noted w _). unfold mcatch.
  match goal with |- context [match ?body w0 with _ => _ end] =>
    assert (Hbody : grows not_search body)
      by (unfold Amap.tool_arun; quiet);
    destruct (Hbody w0) as (tr & Htr & Hq); destruct (body w0) as [[pois|e] w']
  end; simpl in Htr.
  - exists pois, w', tr. split; [reflexivity|]. split; [|exact Hq].
    rewrite Htr. unfold w0, noted. simpl. rewrite <- app_assoc. reflexivity.
  - exists (VList []), w', tr. split; [reflexivity|]. split; [|exact Hq].
    rewrite Htr. unfold w0, noted. simpl. rewrite <- app_assoc. reflexivity.
Qed.

Lemma after_search_quiet self request (a b c : pyval) :
  grows not_search (after_search X self request a b c).
Proof. unfold after_search, Planner.self_planner_agent. quiet. Qed.

Lemma plan_trip_body_connect self request w service w1 :
  connect X w = (Ok service, w1) ->
  Planner.plan_trip_body X self request w
  = (do attraction_response <-
       Amap.search_poi X service (Planner.attraction_keyword request)
         (TripRequest.city request) true;
     do weather_response <- Amap.get_weather X service (TripRequest.city request);
     do hotel_response <-
       Amap.search_poi X service (u "{request.accommodation}酒店")
         (TripRequest.city request) true;
     after_search X self request attraction_response weather_response hotel_response) w1.
Proof.
  unfold connect, Planner.plan_trip_body. intros H.
  apply bind_Ok_inv in H as (s & wa & Hs & H).
  apply bind_Ok_inv in H as ([] & wb & Hi & H).
  injection H as -> ->.
  rewrite (bind_Ok _ _ _ _ _ Hs), (bind_Ok _ _ _ _ _ Hi). reflexivity.
Qed.

(** C6.  Once the mapping service is connected, [plan_trip] calls
    [search_poi] exactly twice, both times for [request.city]: first with the
    attraction keyword, then with the keyword that is the literal text
    [{request.accommodation}酒店], whatever the request's accommodation is. *)
Theorem plan_trip_search_calls self request w (service : ref) (w1 : world) :
  connect X w = (Ok service, w1) ->
  exists r w2 tr,
    Planner.plan_trip X self request w = (r, w2)
    /\ trace w2 = trace w ++ tr
    /\ search_poi_calls tr
       = [ [VStr (Planner.attraction_keyword request);
            VStr (TripRequest.city request); VBool true];
           [VStr (u "{request.accommodation}酒店");
            VStr (TripRequest.city request); VBool true] ].
Proof.
  intros Hc.
  destruct (connect_quiet w) as (tr0 & Htr0 & Hq0). rewrite Hc in Htr0. simpl in Htr0.
  destruct (search_poi_run service (Planner.attraction_keyword request)
              (TripRequest.city request) true w1) as (a & w2 & tr1 & Ha & Htr1 & Hq1).
  destruct (get_weather_total service (TripRequest.city request) w2) as (b & w3 & Hb).
  destruct (get_weather_quiet service (TripRequest.city request) w2) as (tr2 & Htr2 & Hq2).
  rewrite Hb in Htr2. simpl in Htr2.
  destruct (search_poi_run service (u "{request.accommodation}酒店")
              (TripRequest.city request) true w3) as (c & w4 & tr3 & Hh & Htr3 & Hq3).
  destruct (after_search_quiet self request a b c w4) as (tr4 & Htr4 & Hq4).
  assert (Hbody : Planner.plan_trip_body X self request w
                  = after_search X self request a b c w4).
  { rewrite (plan_trip_body_connect _ _ _ _ _ Hc).
    rewrite (bind_Ok _ _ _ _ _ Ha), (bind_Ok _ _ _ _ _ Hb), (bind_Ok _ _ _ _ _ Hh).
    reflexivity. }
  assert (Htrace : exists r w5, Planner.plan_trip X self request w = (r, w5)
                                /\ trace w5 = trace w4 ++ tr4).
  { unfold Planner.plan_trip, mcatch. rewrite Hbody.
    destruct (after_search X self request a b c w4) as [[plan|e] w5]; simpl in Htr4;
      unfold lift; eauto. }
  destruct Htrace as (r & w5 & Hrun & Htr5).
  exists r, w5,
    (tr0
     ++ [Call (u "search_poi")
           [VStr (Planner.attraction_keyword request);
            VStr (TripRequest.city request); VBool true]]
     ++ tr1 ++ tr2
     ++ [Call (u "search_poi")
           [VStr (u "{request.accommodation}酒店");
            VStr (TripRequest.city request); VBool true]]
     ++ tr3 ++ tr4).
  split; [exact Hrun|]. split.
  - rewrite Htr5, Htr3, Htr2, Htr1, Htr0. rewrite <- !app_assoc. reflexivity.
  - rewrite !search_poi_calls_app.
    rewrite (search_poi_calls_none _ Hq0), (search_poi_calls_none _ Hq1),
      (search_poi_calls_none _ Hq2), (search_poi_calls_none _ Hq3),
      (search_poi_calls_none _ Hq4).
    reflexivity.
Qed.

End SearchCalls.

Lemma plan_trip_search_calls_witness :
  exists r w2 tr,
    Planner.plan_trip demo 2%nat (beijing_request "2024-05-01" 2) (planner_world demo)
    = (r, w2)
    /\ trace w2 = trace (planner_world demo) ++ tr
    /\ search_poi_calls tr
       = [ [VStr (Planner.attraction_keyword (beijing_request "2024-05-01" 2));
            VStr (TripRequest.city (beijing_request "2024-05-01" 2)); VBool true];
           [VStr (u "{request.accommodation}酒店");
            VStr (TripRequest.city (beijing_request "2024-05-01" 2)); VBool true] ].
Proof.
  apply (plan_trip_search_calls demo 2%nat (beijing_request "2024-05-01" 2)
           (planner_world demo) 3%nat (snd (connect demo (planner_world demo)))).
  vm_compute. reflexivity.
Defined.

(** * The singleton accessors *)

Section Singletons.
Context (X : externals).
Implicit Types (w : world) (r : ref).

Lemma world_eta w : mk_world (mem w) (trace w) = w.
Proof. destruct w. reflexivity. Qed.

Lemma set_environ_same (s : store) (e : gmap pystr pystr) :
  environ s = e -> set_environ e s = s.
Proof. intros <-. destruct s. reflexivity. Qed.

Lemma get_llm_again w r w1 :
  Planner.get_llm X w = (Ok r, w1) -> Planner.get_llm X w1 = (Ok r, w1).
Proof.
  unfold Planner.get_llm, Planner.new, bind, get_store, lift, ask, alloc, modify, ret.
  destruct (_llm_instance (mem w)) as [r0|] eqn:Hg.
  - intros [= <- <-]. rewrite Hg. reflexivity.
  - destruct (get_settings X); [|discriminate].
    destruct (construct X (trace w) HelloAgentsLLM); [|discriminate].
    simpl. intros [= <- <-]. reflexivity.
Qed.

Lemma get_amap_service_again w r w1 :
  Amap.get_amap_service w = (Ok r, w1) -> Amap.get_amap_service w1 = (Ok r, w1).
Proof.
  unfold Amap.get_amap_service, bind, get_store, emit, alloc, modify, ret.
  destruct (_amap_service (mem w)) as [r0|] eqn:Hg.
  - intros [= <- <-]. rewrite Hg. reflexivity.
  - simpl. intros [= <- <-]. reflexivity.
Qed.

Lemma ensure_api_key_again (settings : Settings) w w1 :
  ensure_api_key settings w = (Ok tt, w1) ->
  ensure_api_key settings w1 = (Ok tt, w1) /\ trace w1 = trace w
  /\ _llm_instance_doubao (mem w1) = _llm_instance_doubao (mem w).
Proof.
  unfold ensure_api_key, bind, get_store, modify, ret.
  destruct (truthy_str (environ (mem w) !! Planner.OPENAI_API_KEY)) eqn:Ht.
  - intros [= <-]. rewrite Ht. auto.
  - intros [= <-]. simpl. split; [|auto].
    destruct (truthy_str
                (<[Planner.OPENAI_API_KEY := openai_api_key settings]> (environ (mem w))
                   !! Planner.OPENAI_API_KEY)); [reflexivity|].
    unfold set_environ. simpl. rewrite insert_insert_eq. reflexivity.
Qed.

Lemma ensure_api_key_stable (settings : Settings) w w2 :
  ensure_api_key settings w = (Ok tt, w) ->
  environ (mem w2) = environ (mem w) ->
  ensure_api_key settings w2 = (Ok tt, w2).
Proof.
  unfold ensure_api_key, bind, get_store, modify, ret. intros H Henv. rewrite Henv.
  destruct (truthy_str (environ (mem w) !! Planner.OPENAI_API_KEY)); [reflexivity|].
  injection H as H. apply (f_equal (fun x => environ (mem x))) in H.
  unfold set_environ in H. simpl in H.
  cbv beta. rewrite ?Henv, H, (set_environ_same _ _ Henv), world_eta. reflexivity.
Qed.

Lemma get_llm_DouBao_steps w :
  Planner.get_llm_DouBao X w
  = (do settings <- lift (get_settings X);
     do _ <- ensure_api_key settings;
     do s <- get_store;
     match _llm_instance_doubao s with
     | None =>
       do r <- Planner.new X ChatOpenAI
                 (OChat (openai_model settings) (openai_base_url settings));
       do _ <- modify (set_llm_instance_doubao (Some r));
       ret r
     | Some r => ret r
     end) w.
Proof.
  unfold Planner.get_llm_DouBao, ensure_api_key, bind, lift, get_store.
  destruct (get_settings X); [|reflexivity].
  destruct (truthy_str (environ (mem w) !! Planner.OPENAI_API_KEY)); reflexivity.
Qed.

Lemma get_llm_DouBao_again w r w1 :
  Planner.get_llm_DouBao X w = (Ok r, w1) -> Planner.get_llm_DouBao X w1 = (Ok r, w1).
Proof.
  rewrite !get_llm_DouBao_steps. intros H.
  apply bind_Ok_inv in H as (settings & w' & Hs & H).
  unfold lift in Hs. injection Hs as Hs <-.
  apply bind_Ok_inv in H as ([] & wa & He & H).
  destruct (ensure_api_key_again _ _ _ He) as (He' & Htr & Hg).
  assert (Hnext : forall w2,
             ensure_api_key settings w2 = (Ok tt, w2) ->
             _llm_instance_doubao (mem w2) = Some r ->
             (do settings <- lift (get_settings X);
              do _ <- ensure_api_key settings;
              do s <- get_store;
              match _llm_instance_doubao s with
              | None =>
                do r <- Planner.new X ChatOpenAI
                          (OChat (openai_model settings) (openai_base_url settings));
                do _ <- modify (set_llm_instance_doubao (Some r));
                ret r
              | Some r => ret r
              end) w2 = (Ok r, w2)).
  { intros w2 H2 Hg2. unfold bind at 1, lift at 1. rewrite Hs.
    rewrite (bind_Ok _ _ _ _ _ H2). unfold bind, get_store. rewrite Hg2. reflexivity. }
  unfold bind at 1, get_store at 1 in H.
  destruct (_llm_instance_doubao (mem wa)) as [r0|] eqn:Hga.
  - injection H as <- <-. apply Hnext; assumption.
  - unfold Planner.new, bind, ask, alloc, modify, ret in H.
    destruct (construct X (trace wa) ChatOpenAI); [|discriminate].
    simpl in H. injection H as <- <-. apply Hnext; [|reflexivity].
    apply (ensure_api_key_stable settings wa); [exact He'|reflexivity].
Qed.

Lemma initialize_agents_global (self : ref) w :
  _multi_agent_planner (mem (snd (Planner.initialize_agents X self w)))
  = _multi_agent_planner (mem w).
Proof.
  unfold Planner.initialize_agents, mcatch, bind, load, ask, store_at, modify, raise.
  destruct (heap (mem w) !! self) as [[| | |llm llm_doubao a]|]; try reflexivity.
  destruct (create_agent X (trace w) llm_doubao (PLANNER_AGENT_PROMPT X)); reflexivity.
Qed.

Lemma get_trip_planner_agent_again w r w1 :
  Planner.get_trip_planner_agent X w = (Ok r, w1) ->
  Planner.get_trip_planner_agent X w1 = (Ok r, w1).
Proof.
  unfold Planner.get_trip_planner_agent. unfold bind at 1, get_store at 1.
  destruct (_multi_agent_planner (mem w)) as [r0|] eqn:Hg.
  - intros [= <- <-]. unfold bind, get_store. rewrite Hg. reflexivity.
  - intros H.
    apply bind_Ok_inv in H as (r0 & wa & _ & H).
    apply bind_Ok_inv in H as ([] & wb & Hm & H).
    apply bind_Ok_inv in H as ([] & wc & Hi & H).
    injection H as <- <-.
    unfold modify in Hm. injection Hm as <-.
    pose proof (initialize_agents_global r0 (mk_world (set_multi_agent_planner (Some r0) (mem wa)) (trace wa))) as Hgl.
    rewrite Hi in Hgl. simpl in Hgl.
    unfold bind, get_store. rewrite Hgl. reflexivity.
Qed.

(** C9.  Each accessor, called again in the world its first call left,
    returns the same address and changes nothing: no constructor runs, no
    object is allocated, no global is rebound. *)
Theorem singleton_accessors_idempotent w r w1 :
  (Planner.get_llm X w = (Ok r, w1) -> Planner.get_llm X w1 = (Ok r, w1))
  /\ (Planner.get_llm_DouBao X w = (Ok r, w1) ->
      Planner.get_llm_DouBao X w1 = (Ok r, w1))
  /\ (Amap.get_amap_service w = (Ok r, w1) -> Amap.get_amap_service w1 = (Ok r, w1))
  /\ (Planner.get_trip_planner_agent X w = (Ok r, w1) ->
      Planner.get_trip_planner_agent X w1 = (Ok r, w1)).
Proof.
  split; [apply get_llm_again|].
  split; [apply get_llm_DouBao_again|].
  split; [apply get_amap_service_again|apply get_trip_planner_agent_again].
Qed.

End Singletons.

Lemma singleton_accessors_idempotent_witness :
  Planner.get_llm demo (snd (Planner.get_llm demo empty_world))
  = (Ok 0%nat, snd (Planner.get_llm demo empty_world))
  /\ Planner.get_llm_DouBao demo (snd (Planner.get_llm_DouBao demo empty_world))
     = (Ok 0%nat, snd (Planner.get_llm_DouBao demo empty_world))
  /\ Amap.get_amap_service (snd (Amap.get_amap_service empty_world))
     = (Ok 0%nat, snd (Amap.get_amap_service empty_world))
  /\ Planner.get_trip_planner_agent demo (planner_world demo)
     = (Ok 2%nat, planner_world demo).
Proof.
  split; [|split; [|split]].
  - apply (proj1 (singleton_accessors_idempotent demo empty_world 0%nat _)).
    vm_compute. reflexivity.
  - apply (proj1 (proj2 (singleton_accessors_idempotent demo empty_world 0%nat _))).
    vm_compute. reflexivity.
  - apply (proj1 (proj2 (proj2 (singleton_accessors_idempotent demo empty_world 0%nat _)))).
    vm_compute. reflexivity.
  - apply (proj2 (proj2 (proj2 (singleton_accessors_idempotent demo empty_world 2%nat _)))).
    vm_compute. reflexivity.
Defined.

(** * The tool catalog *)

Section Catalog.
Context (X : externals).
Implicit Types (w : world) (self : ref).

Lemma tools_dict_from (ts : list tool) (d0 : gmap pystr tool) (name : pystr) :
  foldl (fun d t => <[tool_name t := t]> d) d0 ts !! name
  = match last (filter (fun t => tool_name t = name) ts) with
    | Some t => Some t
    | None => d0 !! name
    end.
Proof.
  revert d0. induction ts as [|a ts IH]; intros d0; simpl; [reflexivity|].
  rewrite IH, filter_cons.
  destruct (decide (tool_name a = name)) as [Ha|Ha].
  - rewrite last_cons. destruct (last (filter _ ts)); [reflexivity|].
    rewrite Ha. apply lookup_insert_eq.
  - destruct (last (filter _ ts)); [reflexivity|].
    apply lookup_insert_ne, Ha.
Qed.

(** X1.  The catalog that [init_mcp_tools] (and the blocking facade's
    constructor) builds maps a name to the last tool of the provider's list
    that bears it: a later tool replaces an earlier one of the same name,
    and a name that no tool bears is absent. *)
Theorem tools_dict_lookup (ts : list tool) (name : pystr) :
  Amap.tools_dict ts !! name = last (filter (fun t => tool_name t = name) ts).
Proof.
  unfold Amap.tools_dict. rewrite tools_dict_from, lookup_empty.
  destruct (last _); reflexivity.
Qed.

Lemma get_amap_mcp_tool_cached w (tools : list tool) (settings : Settings) :
  get_settings X = Ok settings ->
  _amap_mcp_tool (mem w) = Some tools ->
  Amap.get_amap_mcp_tool X w = (Ok tools, w).
Proof.
  intros Hs Hc. unfold Amap.get_amap_mcp_tool, bind, lift, get_store.
  rewrite Hs, Hc. reflexivity.
Qed.

Lemma get_amap_mcp_tool_Ok w w1 (tools : list tool) :
  Amap.get_amap_mcp_tool X w = (Ok tools, w1) ->
  (exists settings, get_settings X = Ok settings)
  /\ _amap_mcp_tool (mem w1) = Some tools
  /\ heap (mem w1) = heap (mem w).
Proof.
  unfold Amap.get_amap_mcp_tool, bind, lift, get_store, ask, modify, ret.
  destruct (get_settings X) as [settings|]; [|discriminate].
  destruct (_amap_mcp_tool (mem w)) as [ts|] eqn:Hc.
  - intros [= <- <-]. eauto.
  - destruct (get_tools X (trace w)); [|discriminate].
    intros [= <- <-]. simpl. eauto.
Qed.

(** X2.  [init_mcp_tools] is idempotent: run again in the world its first
    run left, it changes nothing and contacts no one.  The first run leaves
    the provider's list cached in the module global and files the service
    under the catalog built from it; from then on [get_amap_mcp_tool]
    answers from the cache in any world that still holds it. *)
Theorem init_mcp_tools_idempotent self w w1 :
  Amap.init_mcp_tools X self w = (Ok tt, w1) ->
  Amap.init_mcp_tools X self w1 = (Ok tt, w1)
  /\ exists tools,
       _amap_mcp_tool (mem w1) = Some tools
       /\ heap (mem w1)
          = <[self := OService (Some tools) (Some (Amap.tools_dict tools))]> (heap (mem w))
       /\ forall w2, _amap_mcp_tool (mem w2) = Some tools ->
                     Amap.get_amap_mcp_tool X w2 = (Ok tools, w2).
Proof.
  unfold Amap.init_mcp_tools. intros H.
  apply bind_Ok_inv in H as (tools & wa & Hget & Hst).
  destruct (get_amap_mcp_tool_Ok _ _ _ Hget) as ([settings Hs] & Hc & Hh).
  unfold store_at, modify in Hst. injection Hst as <-.
  split.
  - set (w1 := mk_world _ _).
    assert (Hc1 : _amap_mcp_tool (mem w1) = Some tools) by exact Hc.
    rewrite (bind_Ok _ _ _ _ _ (get_amap_mcp_tool_cached w1 tools settings Hs Hc1)).
    unfold store_at, modify, w1. simpl. rewrite list_insert_insert_eq. reflexivity.
  - exists tools. split; [exact Hc|]. split; [simpl; rewrite Hh; reflexivity|].
    intros w2 Hc2. apply (get_amap_mcp_tool_cached _ _ settings Hs Hc2).
Qed.

(** X3.  A failed fetch of the provider's list is not cached: the
    exception leaves [get_amap_mcp_tool] with the global still unset, so the
    next call asks the provider again, and caches what it then answers. *)
Theorem get_amap_mcp_tool_retries w (e : exn) (settings : Settings) :
  get_settings X = Ok settings ->
  _amap_mcp_tool (mem w) = None ->
  get_tools X (trace w) = Raise e ->
  let w1 := noted w GetTools in
  Amap.get_amap_mcp_tool X w = (Raise e, w1)
  /\ _amap_mcp_tool (mem w1) = None
  /\ forall tools,
       get_tools X (trace w1) = Ok tools ->
       exists w2,
         Amap.get_amap_mcp_tool X w1 = (Ok tools, w2)
         /\ _amap_mcp_tool (mem w2) = Some tools
         /\ trace w2 = trace w1 ++ [GetTools].
Proof.
  intros Hs Hc He w1.
  assert (Hrun : forall w0, _amap_mcp_tool (mem w0) = None ->
            Amap.get_amap_mcp_tool X w0
            = match get_tools X (trace w0) with
              | Ok tools =>
                (Ok tools,
                 mk_world (set_amap_mcp_tool (Some tools) (mem w0)) (trace w0 ++ [GetTools]))
              | Raise e0 => (Raise e0, noted w0 GetTools)
              end).
  { intros w0 H0. unfold Amap.get_amap_mcp_tool, bind, lift, get_store, ask, modify, ret.
    rewrite Hs, H0. destruct (get_tools X (trace w0)); reflexivity. }
  split; [rewrite (Hrun w Hc), He; reflexivity|].
  split; [exact Hc|].
  intros tools Ht. eexists. rewrite (Hrun w1 Hc), Ht.
  split; [reflexivity|]. split; reflexivity.
Qed.

End Catalog.

Lemma init_mcp_tools_idempotent_witness :
  Amap.init_mcp_tools demo 0%nat ready_world = (Ok tt, ready_world)
  /\ exists tools,
       _amap_mcp_tool (mem ready_world) = Some tools
       /\ heap (mem ready_world)
          = <[0%nat := OService (Some tools) (Some (Amap.tools_dict tools))]>
              (heap (mem fresh_world))
       /\ forall w2, _amap_mcp_tool (mem w2) = Some tools ->
                     Amap.get_amap_mcp_tool demo w2 = (Ok tools, w2).
Proof.
  apply (init_mcp_tools_idempotent demo 0%nat fresh_world ready_world).
  vm_compute. reflexivity.
Defined.

Lemma get_amap_mcp_tool_retries_witness :
  Amap.get_amap_mcp_tool recovering empty_world
  = (Raise RemoteError, noted empty_world GetTools)
  /\ _amap_mcp_tool (mem (noted empty_world GetTools)) = None
  /\ forall tools,
       get_tools recovering (trace (noted empty_world GetTools)) = Ok tools ->
       exists w2,
         Amap.get_amap_mcp_tool recovering (noted empty_world GetTools) = (Ok tools, w2)
         /\ _amap_mcp_tool (mem w2) = Some tools
         /\ trace w2 = trace (noted empty_world GetTools) ++ [GetTools].
Proof.
  apply (get_amap_mcp_tool_retries recovering empty_world RemoteError demo_settings);
    reflexivity.
Defined.

(** * The mapping facade: answers and failures *)

Section Facade.
Context (X : externals).
Implicit Types (w : world) (self : ref) (d : gmap pystr tool).

Lemma keeps_store_tool_arun (t : tool) (arguments : gmap pystr pyval) :
  keeps_store (Amap.tool_arun X t arguments).
Proof. apply keeps_store_ask. Qed.

Lemma keeps_store_get_weather self (city : pystr) :
  keeps_store (Amap.get_weather X self city).
Proof. unfold Amap.get_weather, Amap.get_tool, Amap.self_mcp_tools_dict, Amap.tool_arun. effects. Qed.

Lemma keeps_store_search_poi self (keywords city : pystr) (citylimit : bool) :
  keeps_store (Amap.search_poi X self keywords city citylimit).
Proof. unfold Amap.search_poi, Amap.get_tool, Amap.self_mcp_tools_dict, Amap.tool_arun. effects. Qed.

Lemma keeps_store_get_poi_detail self (poi_id : pystr) :
  keeps_store (Amap.get_poi_detail X self poi_id).
Proof. unfold Amap.get_poi_detail, Amap.get_tool, Amap.self_mcp_tools_dict, Amap.tool_arun. effects. Qed.

Lemma keeps_store_plan_route self (oa oc da dc rt : pystr) :
  keeps_store (Amap.plan_route X self oa oc da dc rt).
Proof.
  unfold Amap.plan_route, Amap.run_route_tool, Amap.geocode, Amap.get_tool,
    Amap.self_mcp_tools_dict, Amap.tool_arun.
  effects.
Qed.

Lemma never_raises_search_poi self (keywords city : pystr) (citylimit : bool) :
  never_raises (Amap.search_poi X self keywords city citylimit).
Proof.
  unfold Amap.search_poi. apply never_raises_bind; [apply never_raises_emit|].
  intros _. apply (never_raises_mcatch_ret _ (fun _ => VList [])).
Qed.

Lemma never_raises_get_weather self (city : pystr) :
  never_raises (Amap.get_weather X self city).
Proof.
  unfold Amap.get_weather. apply never_raises_bind; [apply never_raises_emit|].
  intros _. apply (never_raises_mcatch_ret _ (fun _ => VList [])).
Qed.

Lemma never_raises_geocode self (address : pystr) (city : option pystr) :
  never_raises (Amap.geocode X self address city).
Proof.
  unfold Amap.geocode. apply never_raises_bind; [apply never_raises_emit|].
  intros _. apply (never_raises_mcatch_ret _ (fun _ => None)).
Qed.

Lemma never_raises_get_poi_detail self (poi_id : pystr) :
  never_raises (Amap.get_poi_detail X self poi_id).
Proof.
  unfold Amap.get_poi_detail. apply never_raises_bind; [apply never_raises_emit|].
  intros _. apply (never_raises_mcatch_ret _ (fun _ => VDict [])).
Qed.

Lemma never_raises_plan_route self (oa oc da dc rt : pystr) :
  never_raises (Amap.plan_route X self oa oc da dc rt).
Proof.
  unfold Amap.plan_route. apply never_raises_bind; [apply never_raises_emit|].
  intros _. apply (never_raises_mcatch_ret _ (fun _ => VList [])).
Qed.

(** X4.  None of the five operations of the asynchronous facade lets an
    exception out, whatever the world it runs in and whatever the provider
    answers, and none of them changes a global, the environment or an
    object: all they leave behind is their entries in the call history. *)
Theorem facade_never_raises self :
  (forall city,
      never_raises (Amap.get_weather X self city)
      /\ keeps_store (Amap.get_weather X self city))
  /\ (forall keywords city citylimit,
        never_raises (Amap.search_poi X self keywords city citylimit)
        /\ keeps_store (Amap.search_poi X self keywords city citylimit))
  /\ (forall address city,
        never_raises (Amap.geocode X self address city)
        /\ keeps_store (Amap.geocode X self address city))
  /\ (forall poi_id,
        never_raises (Amap.get_poi_detail X self poi_id)
        /\ keeps_store (Amap.get_poi_detail X self poi_id))
  /\ (forall origin_address origin_city destination_address destination_city route_type,
        never_raises (Amap.plan_route X self origin_address origin_city
                        destination_address destination_city route_type)
        /\ keeps_store (Amap.plan_route X self origin_address origin_city
                          destination_address destination_city route_type)).
Proof.
  repeat split.
  - apply never_raises_get_weather.
  - apply keeps_store_get_weather.
  - apply never_raises_search_poi.
  - apply keeps_store_search_poi.
  - apply never_raises_geocode.
  - apply keeps_store_geocode.
  - apply never_raises_get_poi_detail.
  - apply keeps_store_get_poi_detail.
  - apply never_raises_plan_route.
  - apply keeps_store_plan_route.
Qed.

Lemma get_tool_uninitialised w self (ts : option (list tool)) (name : pystr) :
  heap (mem w) !! self = Some (OService ts None) ->
  Amap.get_tool self name w = (Raise AttributeError, w).
Proof.
  intros H. unfold Amap.get_tool, Amap.self_mcp_tools_dict, bind, load.
  rewrite H. reflexivity.
Qed.

Lemma geocode_uninitialised w self (ts : option (list tool))
    (address : pystr) (city : option pystr) :
  heap (mem w) !! self = Some (OService ts None) ->
  Amap.geocode X self address city w
  = (Ok None, noted w (Call (u "geocode") [VStr address; opt_str city])).
Proof.
  intros H. unfold Amap.geocode. rewrite bind_emit. unfold mcatch, bind.
  rewrite (get_tool_uninitialised _ self ts); [reflexivity|exact H].
Qed.

(** X5.  A service that [get_amap_service] has built but on which
    [init_mcp_tools] has not run has no catalog: every operation then
    answers its failure value ([[]], [[]], [None], [{}], [[]]) without
    running any tool; the attribute error is swallowed. *)
Theorem uninitialised_service_answers w self (ts : option (list tool))
    (city keywords address poi_id : pystr) (citylimit : bool) (geo_city : option pystr)
    (origin_address origin_city destination_address destination_city route_type : pystr) :
  heap (mem w) !! self = Some (OService ts None) ->
  Amap.get_weather X self city w
  = (Ok (VList []), noted w (Call (u "get_weather") [VStr city]))
  /\ Amap.search_poi X self keywords city citylimit w
     = (Ok (VList []),
        noted w (Call (u "search_poi") [VStr keywords; VStr city; VBool citylimit]))
  /\ Amap.geocode X self address geo_city w
     = (Ok None, noted w (Call (u "geocode") [VStr address; opt_str geo_city]))
  /\ Amap.get_poi_detail X self poi_id w
     = (Ok (VDict []), noted w (Call (u "get_poi_detail") [VStr poi_id]))
  /\ Amap.plan_route X self origin_address origin_city destination_address
       destination_city route_type w
     = (Ok (VList []),
        noted (noted w (Call (u "plan_route")
                         [VStr origin_address; VStr origin_city; VStr destination_address;
                          VStr destination_city; VStr route_type]))
              (Call (u "geocode") [VStr origin_address; VStr origin_city])).
Proof.
  intros H.
  assert (Hn : forall e, heap (mem (noted w e)) !! self = Some (OService ts None))
    by (intros e; exact H).
  repeat split.
  - unfold Amap.get_weather. rewrite bind_emit. unfold mcatch, bind.
    rewrite (get_tool_uninitialised _ self ts) by apply Hn. reflexivity.
  - unfold Amap.search_poi. rewrite bind_emit. unfold mcatch, bind.
    rewrite (get_tool_uninitialised _ self ts) by apply Hn. reflexivity.
  - apply (geocode_uninitialised _ _ ts), H.
  - unfold Amap.get_poi_detail. rewrite bind_emit. unfold mcatch, bind.
    rewrite (get_tool_uninitialised _ self ts) by apply Hn. reflexivity.
  - unfold Amap.plan_route. rewrite bind_emit. unfold mcatch.
    rewrite (bind_Ok _ _ _ _ _ (geocode_uninitialised _ self ts _ _ (Hn _))).
    reflexivity.
Qed.

(** The two steps every operation starts with, once the service has its
    catalog: the lookup of the tool and its run. *)
Lemma tool_step {A : Type} w self d (name : pystr) (arguments : gmap pystr pyval)
    (k : pyval -> M A) :
  serves w self d ->
  (do tool <- Amap.get_tool self name;
   do result <- Amap.tool_arun X tool arguments;
   k result) w
  = match d !! name with
    | None => (Raise ValueError, w)
    | Some t =>
      match arun X (trace w) t arguments with
      | Ok payload => k payload (noted w (ToolRun t arguments))
      | Raise e => (Raise e, noted w (ToolRun t arguments))
      end
    end.
Proof.
  intros Hs. destruct (d !! name) as [t|] eqn:Ht.
  - rewrite (bind_Ok _ _ _ _ _ (get_tool_found _ _ _ _ _ Hs Ht)).
    unfold bind, Amap.tool_arun, ask. destruct (arun X (trace w) t arguments); reflexivity.
  - rewrite (bind_Raise _ _ _ _ _ (get_tool_absent _ _ _ _ Hs Ht)). reflexivity.
Qed.

(** X6.  [search_poi] on a service with its catalog: it answers [[]] when
    the search tool is missing, when its run raises, when the payload cannot
    be decoded and when the decoded payload is not a dictionary; for a
    decoded dictionary it answers the value filed under [pois], and [None]
    when there is no such key.  The tool receives [citylimit] as the text
    "true" or "false". *)
Theorem search_poi_answers w self d (keywords city : pystr) (citylimit : bool) :
  serves w self d ->
  let w0 := noted w (Call (u "search_poi") [VStr keywords; VStr city; VBool citylimit]) in
  let arguments : gmap pystr pyval :=
    <[ u "keywords" := VStr keywords ]>
      (<[ u "city" := VStr city ]>
         {[ u "citylimit" := VStr (if citylimit then u "true" else u "false") ]}) in
  (d !! u "maps_text_search" = None ->
   Amap.search_poi X self keywords city citylimit w = (Ok (VList []), w0))
  /\ (forall t, d !! u "maps_text_search" = Some t ->
       let w1 := noted w0 (ToolRun t arguments) in
       (forall e, arun X (trace w0) t arguments = Raise e ->
                  Amap.search_poi X self keywords city citylimit w = (Ok (VList []), w1))
       /\ (forall payload e,
             arun X (trace w0) t arguments = Ok payload ->
             Amap.decode_result X payload = Raise e ->
             Amap.search_poi X self keywords city citylimit w = (Ok (VList []), w1))
       /\ (forall payload fields,
             arun X (trace w0) t arguments = Ok payload ->
             Amap.decode_result X payload = Ok (VDict fields) ->
             Amap.search_poi X self keywords city citylimit w
             = (Ok (default VNone (assoc (u "pois") fields)), w1))
       /\ (forall payload v,
             arun X (trace w0) t arguments = Ok payload ->
             Amap.decode_result X payload = Ok v ->
             (forall fields, v <> VDict fields) ->
             Amap.search_poi X self keywords city citylimit w = (Ok (VList []), w1))).
Proof.
  intros Hs w0 arguments.
  assert (Hs0 : serves w0 self d) by apply serves_noted, Hs.
  assert (Hargs : <[ u "keywords" := VStr keywords ]>
                    (<[ u "city" := VStr city ]>
                       {[ u "citylimit" := VStr (lower_bool citylimit) ]}) = arguments)
    by (destruct citylimit; reflexivity).
  assert (Hrun : Amap.search_poi X self keywords city citylimit w
                 = mcatch
                     (do tool <- Amap.get_tool self (u "maps_text_search");
                      do result <- Amap.tool_arun X tool arguments;
                      do poi_json <- lift (Amap.decode_result X result);
                      do pois <- lift (py_get poi_json (u "pois") VNone);
                      ret pois)
                     (fun _ => ret (VList [])) w0).
  { unfold Amap.search_poi. rewrite bind_emit, Hargs. reflexivity. }
  rewrite Hrun. unfold mcatch. rewrite (tool_step _ _ _ _ _ _ Hs0).
  split.
  - intros ->. reflexivity.
  - intros t Ht. rewrite Ht. cbv zeta. repeat split.
    + intros e ->. reflexivity.
    + intros payload e -> He. unfold bind, lift. rewrite He. reflexivity.
    + intros payload fields -> Hd. unfold bind, lift. rewrite Hd. simpl.
      destruct (assoc (u "pois") fields); reflexivity.
    + intros payload v -> Hd Hv. unfold bind, lift. rewrite Hd.
      destruct v; try reflexivity. destruct (Hv d0 eq_refl).
Qed.

(** X7.  [get_poi_detail] on a service with its catalog answers whatever
    the payload of the detail tool decodes to, as it is, and the empty
    dictionary when the tool is missing, its run raises or the payload cannot
    be decoded. *)
Theorem get_poi_detail_answers w self d (poi_id : pystr) :
  serves w self d ->
  let w0 := noted w (Call (u "get_poi_detail") [VStr poi_id]) in
  let arguments : gmap pystr pyval := {[ u "id" := VStr poi_id ]} in
  (d !! u "maps_search_detail" = None ->
   Amap.get_poi_detail X self poi_id w = (Ok (VDict []), w0))
  /\ (forall t, d !! u "maps_search_detail" = Some t ->
       let w1 := noted w0 (ToolRun t arguments) in
       (forall e, arun X (trace w0) t arguments = Raise e ->
                  Amap.get_poi_detail X self poi_id w = (Ok (VDict []), w1))
       /\ (forall payload e,
             arun X (trace w0) t arguments = Ok payload ->
             Amap.decode_result X payload = Raise e ->
             Amap.get_poi_detail X self poi_id w = (Ok (VDict []), w1))
       /\ (forall payload v,
             arun X (trace w0) t arguments = Ok payload ->
             Amap.decode_result X payload = Ok v ->
             Amap.get_poi_detail X self poi_id w = (Ok v, w1))).
Proof.
  intros Hs w0 arguments.
  assert (Hs0 : serves w0 self d) by apply serves_noted, Hs.
  subst arguments. unfold Amap.get_poi_detail. rewrite bind_emit. fold w0. unfold mcatch.
  rewrite (tool_step _ _ _ _ _ _ Hs0).
  split.
  - intros ->. reflexivity.
  - intros t Ht. rewrite Ht. cbv zeta. repeat split.
    + intros e ->. reflexivity.
    + intros payload e -> He. unfold bind, lift. rewrite He. reflexivity.
    + intros payload v -> Hd. unfold bind, lift. rewrite Hd. reflexivity.
Qed.

Lemma split_aux_sep (sep : N) (a rest cur : pystr) :
  sep ∉ a ->
  split_aux sep (a ++ sep :: rest) cur = (reverse cur ++ a) :: split_aux sep rest [].
Proof.
  revert cur. induction a as [|c a IH]; intros cur Ha; simpl.
  - rewrite N.eqb_refl, app_nil_r. reflexivity.
  - apply not_elem_of_cons in Ha as [Hc Ha].
    replace (c =? sep)%N with false by (symmetry; apply N.eqb_neq; congruence).
    rewrite (IH _ Ha), reverse_cons, <- app_assoc. reflexivity.
Qed.

Lemma split_aux_last (sep : N) (a cur : pystr) :
  sep ∉ a -> split_aux sep a cur = [reverse cur ++ a].
Proof.
  revert cur. induction a as [|c a IH]; intros cur Ha; simpl.
  - rewrite app_nil_r. reflexivity.
  - apply not_elem_of_cons in Ha as [Hc Ha].
    replace (c =? sep)%N with false by (symmetry; apply N.eqb_neq; congruence).
    rewrite (IH _ Ha), reverse_cons, <- app_assoc. reflexivity.
Qed.

(** ["lon,lat".split(',')]. *)
Lemma split_pair (lon lat : pystr) :
  44%N ∉ lon -> 44%N ∉ lat -> split 44 (lon ++ u "," ++ lat) = [lon; lat].
Proof.
  intros Hlon Hlat. unfold split. change (u "," ++ lat) with (44%N :: lat).
  rewrite (split_aux_sep _ _ _ _ Hlon), (split_aux_last _ _ _ Hlat). reflexivity.
Qed.

(** One turn of the loop of [geocode] on a well-formed record. *)
Lemma geocode_one_located (fields : list (pystr * pyval)) (lon lat : pystr) :
  assoc (u "location") fields = Some (VStr (lon ++ u "," ++ lat)) ->
  44%N ∉ lon -> 44%N ∉ lat ->
  Amap.geocode_one X (VDict fields) = Location_of X lon lat.
Proof.
  intros Hl Hlon Hlat. unfold Amap.geocode_one. cbn [py_get rbind]. rewrite Hl.
  cbn [py_split_comma rbind]. rewrite (split_pair _ _ Hlon Hlat). reflexivity.
Qed.

Lemma rmapM_raises {A B} (f : A -> outcome B) (l : list A) (x : A) (e : exn) :
  In x l -> f x = Raise e -> exists e', rmapM f l = Raise e'.
Proof.
  induction l as [|a l IH]; intros Hin Hx; [destruct Hin|].
  simpl. destruct (f a) as [y|e0] eqn:Ha; simpl; [|eauto].
  destruct Hin as [->|Hin]; [congruence|].
  destruct (IH Hin Hx) as [e' ->]. simpl. eauto.
Qed.

(** [geocode] after its call is noted, on a service with its catalog. *)
Lemma geocode_steps w self d (address : pystr) (city : option pystr) :
  serves w self d ->
  let w0 := noted w (Call (u "geocode") [VStr address; opt_str city]) in
  let arguments := Amap.geocode_arguments address city in
  Amap.geocode X self address city w
  = match d !! u "maps_geo" with
    | None => (Ok None, w0)
    | Some t =>
      (match rbind (arun X (trace w0) t arguments) (fun payload =>
             rbind (Amap.decode_result X payload) (fun result_json =>
             rbind (py_get result_json (u "results") VNone) (fun results =>
             rbind (py_iter results) (fun items =>
             rmapM (Amap.geocode_one X) items)))) with
       | Ok geos => Ok (Some geos)
       | Raise _ => Ok None
       end, noted w0 (ToolRun t arguments))
    end.
Proof.
  intros Hs w0 arguments.
  assert (Hs0 : serves w0 self d) by apply serves_noted, Hs.
  unfold Amap.geocode. rewrite bind_emit. fold w0. unfold mcatch.
  rewrite (tool_step _ _ _ _ _ _ Hs0). fold arguments.
  destruct (d !! u "maps_geo") as [t|]; [|reflexivity].
  destruct (arun X (trace w0) t arguments) as [payload|]; [|reflexivity].
  unfold bind, lift. simpl.
  destruct (Amap.decode_result X payload) as [result_json|]; [|reflexivity]. simpl.
  destruct (py_get result_json (u "results") VNone) as [results|]; [|reflexivity]. simpl.
  destruct (py_iter results) as [items|]; [|reflexivity]. simpl.
  destruct (rmapM (Amap.geocode_one X) items); reflexivity.
Qed.

(** The arguments of the geocoding tool: the city is passed only when it
    is a non-empty string. *)
Lemma geocode_arguments_city (address : pystr) (city : option pystr) :
  Amap.geocode_arguments address city
  = match city with
    | Some (c :: cs) => <[ u "city" := VStr (c :: cs) ]> {[ u "address" := VStr address ]}
    | _ => {[ u "address" := VStr address ]}
    end.
Proof. destruct city as [[|c cs]|]; reflexivity. Qed.

(** X8.  [geocode] resolves an address to one location per record of the
    provider's [results], in the provider's order: each record's [location]
    text "lon,lat" is split at the comma and handed to the data model.  The
    city reaches the tool only when it is a non-empty string.  No record at
    all gives the empty list, not [None]. *)
Theorem geocode_resolves w self d (t : tool) (address : pystr) (city : option pystr)
    (payload : pyval) (fields : list (pystr * pyval)) (items : list pyval)
    (locations : list Location.t) :
  serves w self d ->
  d !! u "maps_geo" = Some t ->
  let w0 := noted w (Call (u "geocode") [VStr address; opt_str city]) in
  let arguments : gmap pystr pyval :=
    match city with
    | Some (c :: cs) => <[ u "city" := VStr (c :: cs) ]> {[ u "address" := VStr address ]}
    | _ => {[ u "address" := VStr address ]}
    end in
  arun X (trace w0) t arguments = Ok payload ->
  Amap.decode_result X payload = Ok (VDict fields) ->
  assoc (u "results") fields = Some (VList items) ->
  Forall2 (fun item location =>
             exists item_fields lon lat,
               item = VDict item_fields
               /\ assoc (u "location") item_fields = Some (VStr (lon ++ u "," ++ lat))
               /\ (44%N ∉ lon) /\ (44%N ∉ lat)
               /\ Location_of X lon lat = Ok location) items locations ->
  Amap.geocode X self address city w
  = (Ok (Some locations), noted w0 (ToolRun t arguments)).
Proof.
  intros Hs Ht w0 arguments Hrun Hdec Hres Hitems.
  rewrite (geocode_steps _ _ _ _ _ Hs), Ht. cbv zeta. fold w0.
  rewrite geocode_arguments_city. fold arguments. rewrite Hrun. simpl.
  rewrite Hdec. simpl. rewrite Hres. simpl.
  replace (rmapM (Amap.geocode_one X) items) with (Ok locations); [reflexivity|].
  symmetry. apply rmapM_Ok_Forall2.
  eapply Forall2_impl; [exact Hitems|].
  intros item location (item_fields & lon & lat & -> & Hl & Hlon & Hlat & Hloc).
  rewrite (geocode_one_located _ _ _ Hl Hlon Hlat). exact Hloc.
Qed.

(** X9.  [geocode] answers [None] when the geocoding tool is missing, when
    its run raises, when the payload cannot be decoded, when the decoded
    dictionary has no [results], and when any single record lacks its
    [location]: one bad record discards the locations of all the others. *)
Theorem geocode_fails w self d (address : pystr) (city : option pystr) :
  serves w self d ->
  let w0 := noted w (Call (u "geocode") [VStr address; opt_str city]) in
  let arguments := Amap.geocode_arguments address city in
  (d !! u "maps_geo" = None -> Amap.geocode X self address city w = (Ok None, w0))
  /\ (forall t, d !! u "maps_geo" = Some t ->
       let w1 := noted w0 (ToolRun t arguments) in
       (forall e, arun X (trace w0) t arguments = Raise e ->
                  Amap.geocode X self address city w = (Ok None, w1))
       /\ (forall payload e,
             arun X (trace w0) t arguments = Ok payload ->
             Amap.decode_result X payload = Raise e ->
             Amap.geocode X self address city w = (Ok None, w1))
       /\ (forall payload fields,
             arun X (trace w0) t arguments = Ok payload ->
             Amap.decode_result X payload = Ok (VDict fields) ->
             assoc (u "results") fields = None ->
             Amap.geocode X self address city w = (Ok None, w1))
       /\ (forall payload fields items item_fields,
             arun X (trace w0) t arguments = Ok payload ->
             Amap.decode_result X payload = Ok (VDict fields) ->
             assoc (u "results") fields = Some (VList items) ->
             In (VDict item_fields) items ->
             assoc (u "location") item_fields = None ->
             Amap.geocode X self address city w = (Ok None, w1))).
Proof.
  intros Hs w0 arguments. rewrite (geocode_steps _ _ _ _ _ Hs). cbv zeta.
  fold w0 arguments. split.
  - intros ->. reflexivity.
  - intros t Ht. rewrite Ht. repeat split.
    + intros e ->. reflexivity.
    + intros payload e -> He. simpl. rewrite He. reflexivity.
    + intros payload fields -> Hd Hr. simpl. rewrite Hd. simpl. rewrite Hr. reflexivity.
    + intros payload fields items item_fields -> Hd Hr Hin Hl. simpl.
      rewrite Hd. simpl. rewrite Hr. simpl.
      destruct (rmapM_raises (Amap.geocode_one X) items (VDict item_fields) AttributeError
                  Hin) as [e' ->]; [|reflexivity].
      unfold Amap.geocode_one. simpl. rewrite Hl. reflexivity.
Qed.

(** [plan_route], in either facade, once both addresses are resolved. *)
Lemma plan_route_steps w w1 w2 self d
    (origin_address origin_city destination_address destination_city route_type : pystr)
    (origin destination : Location.t) (more_origins more_destinations : list Location.t)
    (route : M pyval) :
  serves w self d ->
  Amap.geocode X self origin_address (Some origin_city)
    (noted w (Call (u "plan_route")
                [VStr origin_address; VStr origin_city; VStr destination_address;
                 VStr destination_city; VStr route_type]))
  = (Ok (Some (origin :: more_origins)), w1) ->
  Amap.geocode X self destination_address (Some destination_city) w1
  = (Ok (Some (destination :: more_destinations)), w2) ->
  route = Amap.plan_route X self origin_address origin_city destination_address
            destination_city route_type
  \/ route = AmapSync.plan_route X self origin_address destination_address
               (Some origin_city) (Some destination_city) route_type ->
  serves w2 self d
  /\ route w
     = mcatch (Amap.run_route_tool X self (Amap.route_tool_name route_type)
                 (Amap.route_arguments (coordinates X origin) (coordinates X destination)
                    (VStr origin_city) (VStr destination_city) route_type))
              (fun _ => ret (VList [])) w2.
Proof.
  intros Hs Ho Hd Hroute.
  split; [eapply serves_after_geocoding; eassumption|].
  assert (Hasync : Amap.plan_route X self origin_address origin_city destination_address
                     destination_city route_type w
                   = mcatch (Amap.run_route_tool X self (Amap.route_tool_name route_type)
                               (Amap.route_arguments (coordinates X origin)
                                  (coordinates X destination)
                                  (VStr origin_city) (VStr destination_city) route_type))
                            (fun _ => ret (VList [])) w2).
  { unfold Amap.plan_route. rewrite bind_emit. unfold mcatch.
    rewrite (bind_Ok _ _ _ _ _ Ho).
    change (Amap.location_str X (Some (origin :: more_origins)))
      with (Ok (coordinates X origin)).
    rewrite bind_lift_Ok, (bind_Ok _ _ _ _ _ Hd).
    change (Amap.location_str X (Some (destination :: more_destinations)))
      with (Ok (coordinates X destination)).
    rewrite bind_lift_Ok. reflexivity. }
  destruct Hroute as [-> | ->]; [exact Hasync|].
  rewrite <- Hasync. eapply sync_plan_route_agrees; eassumption.
Qed.

(** X10.  What [plan_route] answers, in either facade, once both addresses
    are resolved: [[]] when the routing tool is missing, when its run raises
    and when the decoded payload has no [route]; otherwise the value filed
    under [paths] inside [route], and [None] when [route] has no [paths]. *)
Theorem plan_route_answers w w1 w2 self d
    (origin_address origin_city destination_address destination_city route_type : pystr)
    (origin destination : Location.t) (more_origins more_destinations : list Location.t)
    (route : M pyval) :
  serves w self d ->
  Amap.geocode X self origin_address (Some origin_city)
    (noted w (Call (u "plan_route")
                [VStr origin_address; VStr origin_city; VStr destination_address;
                 VStr destination_city; VStr route_type]))
  = (Ok (Some (origin :: more_origins)), w1) ->
  Amap.geocode X self destination_address (Some destination_city) w1
  = (Ok (Some (destination :: more_destinations)), w2) ->
  route = Amap.plan_route X self origin_address origin_city destination_address
            destination_city route_type
  \/ route = AmapSync.plan_route X self origin_address destination_address
               (Some origin_city) (Some destination_city) route_type ->
  let arguments :=
    Amap.route_arguments (coordinates X origin) (coordinates X destination)
      (VStr origin_city) (VStr destination_city) route_type in
  (d !! Amap.route_tool_name route_type = None -> route w = (Ok (VList []), w2))
  /\ (forall t, d !! Amap.route_tool_name route_type = Some t ->
       let w3 := noted w2 (ToolRun t arguments) in
       (forall e, arun X (trace w2) t arguments = Raise e ->
                  route w = (Ok (VList []), w3))
       /\ (forall payload fields,
             arun X (trace w2) t arguments = Ok payload ->
             Amap.decode_result X payload = Ok (VDict fields) ->
             assoc (u "route") fields = None ->
             route w = (Ok (VList []), w3))
       /\ (forall payload fields route_fields,
             arun X (trace w2) t arguments = Ok payload ->
             Amap.decode_result X payload = Ok (VDict fields) ->
             assoc (u "route") fields = Some (VDict route_fields) ->
             route w = (Ok (default VNone (assoc (u "paths") route_fields)), w3))).
Proof.
  intros Hs Ho Hd Hroute arguments.
  destruct (plan_route_steps _ _ _ _ _ _ _ _ _ _ _ _ _ _ _ Hs Ho Hd Hroute) as [Hs2 ->].
  fold arguments. unfold mcatch, Amap.run_route_tool.
  rewrite (tool_step _ _ _ _ _ _ Hs2). split.
  - intros ->. reflexivity.
  - intros t Ht. rewrite Ht. cbv zeta. repeat split.
    + intros e ->. reflexivity.
    + intros payload fields -> Hdec Hr. unfold bind, lift. rewrite Hdec. simpl.
      rewrite Hr. reflexivity.
    + intros payload fields route_fields -> Hdec Hr. unfold bind, lift. rewrite Hdec. simpl.
      rewrite Hr. simpl. destruct (assoc (u "paths") route_fields); reflexivity.
Qed.

(** X11.  The blocking facade's accessor hands out a service that is ready
    to use: its constructor has already loaded the provider's list and built
    the catalog from it.  When the constructor raises (the provider is out of
    reach), nothing is built and the global stays unset, so the next call
    tries again. *)
Theorem sync_service_ready w :
  sync_amap_service (mem w) = None ->
  (forall r w1,
      AmapSync.get_amap_service X w = (Ok r, w1) ->
      sync_amap_service (mem w1) = Some r
      /\ exists tools,
           sync_amap_mcp_tool (mem w1) = Some tools
           /\ serves w1 r (Amap.tools_dict tools))
  /\ (forall e w1,
        AmapSync.get_amap_service X w = (Raise e, w1) ->
        sync_amap_service (mem w1) = None /\ heap (mem w1) = heap (mem w)).
Proof.
  intros Hg.
  unfold AmapSync.get_amap_service, AmapSync.new_AmapService, AmapSync.get_amap_mcp_tool,
    bind, get_store, emit, lift, ask, alloc, modify, ret.
  rewrite Hg. simpl.
  destruct (get_settings X) as [settings|]; simpl.
  2: { split; intros ? ? [= <- <-]; simpl; auto. }
  destruct (sync_amap_mcp_tool (mem w)) as [tools|] eqn:Hc; simpl.
  - split; [|discriminate]. intros r w1 [= <- <-]. simpl. split; [reflexivity|].
    exists tools. split; [exact Hc|]. exists (Some tools). simpl.
    apply list_lookup_middle. reflexivity.
  - destruct (get_tools X (trace w ++ [Construct AmapService])) as [tools|]; simpl.
    + split; [|discriminate]. intros r w1 [= <- <-]. simpl. split; [reflexivity|].
      exists tools. split; [reflexivity|]. exists (Some tools). simpl.
      apply list_lookup_middle. reflexivity.
    + split; [discriminate|]. intros e0 w1 [= <- <-]. simpl. auto.
Qed.

End Facade.

Lemma uninitialised_service_answers_witness :
  Amap.get_weather demo 0%nat (u "北京") fresh_world
  = (Ok (VList []), noted fresh_world (Call (u "get_weather") [VStr (u "北京")]))
  /\ Amap.search_poi demo 0%nat (u "景点") (u "北京") true fresh_world
     = (Ok (VList []),
        noted fresh_world
          (Call (u "search_poi") [VStr (u "景点"); VStr (u "北京"); VBool true]))
  /\ Amap.geocode demo 0%nat (u "故宫") None fresh_world
     = (Ok None, noted fresh_world (Call (u "geocode") [VStr (u "故宫"); opt_str None]))
  /\ Amap.get_poi_detail demo 0%nat (u "B000A8UIN8") fresh_world
     = (Ok (VDict []), noted fresh_world (Call (u "get_poi_detail") [VStr (u "B000A8UIN8")]))
  /\ Amap.plan_route demo 0%nat (u "天安门") (u "北京") (u "故宫") (u "北京") (u "walking")
       fresh_world
     = (Ok (VList []),
        noted (noted fresh_world
                 (Call (u "plan_route")
                    [VStr (u "天安门"); VStr (u "北京"); VStr (u "故宫");
                     VStr (u "北京"); VStr (u "walking")]))
              (Call (u "geocode") [VStr (u "天安门"); VStr (u "北京")])).
Proof.
  apply (uninitialised_service_answers demo fresh_world 0%nat None
           (u "北京") (u "景点") (u "故宫") (u "B000A8UIN8") true None
           (u "天安门") (u "北京") (u "故宫") (u "北京") (u "walking")).
  reflexivity.
Defined.

Lemma search_poi_answers_witness :
  let w0 := noted ready_world
              (Call (u "search_poi") [VStr (u "景点"); VStr (u "北京"); VBool true]) in
  let arguments : gmap pystr pyval :=
    <[ u "keywords" := VStr (u "景点") ]>
      (<[ u "city" := VStr (u "北京") ]> {[ u "citylimit" := VStr (u "true") ]}) in
  let w1 := noted w0 (ToolRun (mk_tool (u "maps_text_search") 2) arguments) in
  Amap.search_poi demo 0%nat (u "景点") (u "北京") true ready_world = (Ok VNone, w1).
Proof.
  intros w0 arguments w1.
  assert (Hs : serves ready_world 0%nat (Amap.tools_dict demo_tools))
    by (exists (Some demo_tools); reflexivity).
  destruct (search_poi_answers demo ready_world 0%nat (Amap.tools_dict demo_tools)
              (u "景点") (u "北京") true Hs) as [_ H].
  destruct (H (mk_tool (u "maps_text_search") 2)) as (_ & _ & Hd & _);
    [vm_compute; reflexivity|].
  apply (Hd (VList [VDict [(u "text", VStr (u "{}"))]]) []); reflexivity.
Defined.

Lemma get_poi_detail_answers_witness :
  let w0 := noted ready_world (Call (u "get_poi_detail") [VStr (u "B000A8UIN8")]) in
  let arguments : gmap pystr pyval := {[ u "id" := VStr (u "B000A8UIN8") ]} in
  let w1 := noted w0 (ToolRun (mk_tool (u "maps_search_detail") 4) arguments) in
  Amap.get_poi_detail demo 0%nat (u "B000A8UIN8") ready_world = (Ok (VDict []), w1).
Proof.
  intros w0 arguments w1.
  assert (Hs : serves ready_world 0%nat (Amap.tools_dict demo_tools))
    by (exists (Some demo_tools); reflexivity).
  destruct (get_poi_detail_answers demo ready_world 0%nat (Amap.tools_dict demo_tools)
              (u "B000A8UIN8") Hs) as [_ H].
  destruct (H (mk_tool (u "maps_search_detail") 4)) as (_ & _ & Hd);
    [vm_compute; reflexivity|].
  apply (Hd (VList [VDict [(u "text", VStr (u "{}"))]]) (VDict [])); reflexivity.
Defined.

Lemma geocode_resolves_witness :
  let w0 := noted ready_world (Call (u "geocode") [VStr (u "望京"); VStr (u "北京")]) in
  let arguments : gmap pystr pyval :=
    <[ u "city" := VStr (u "北京") ]> {[ u "address" := VStr (u "望京") ]} in
  Amap.geocode demo 0%nat (u "望京") (Some (u "北京")) ready_world
  = (Ok (Some [Location.mk 116.482086%float 39.990496%float]),
     noted w0 (ToolRun (mk_tool (u "maps_geo") 3) arguments)).
Proof.
  intros w0 arguments.
  apply (geocode_resolves demo ready_world 0%nat (Amap.tools_dict demo_tools)
           (mk_tool (u "maps_geo") 3) (u "望京") (Some (u "北京"))
           (VList [VDict [(u "text", VStr (u "<geo>"))]])
           [(u "results", VList [VDict [(u "location", VStr (u "116.482086,39.990496"))]])]
           [VDict [(u "location", VStr (u "116.482086,39.990496"))]]).
  - exists (Some demo_tools). reflexivity.
  - vm_compute. reflexivity.
  - reflexivity.
  - reflexivity.
  - reflexivity.
  - constructor; [|constructor].
    exists [(u "location", VStr (u "116.482086,39.990496"))], (u "116.482086"), (u "39.990496").
    split; [reflexivity|]. split; [reflexivity|].
    split; [vm_compute; repeat (apply not_elem_of_cons; split; [discriminate|]);
            apply not_elem_of_nil|].
    split; [vm_compute; repeat (apply not_elem_of_cons; split; [discriminate|]);
            apply not_elem_of_nil|].
    reflexivity.
Defined.

Lemma geocode_fails_witness :
  Amap.geocode flaky 0%nat (u "望京") None (snd (connect flaky empty_world))
  = (Ok None,
     noted (noted (snd (connect flaky empty_world))
              (Call (u "geocode") [VStr (u "望京"); opt_str None]))
           (ToolRun (mk_tool (u "maps_geo") 3)
              (Amap.geocode_arguments (u "望京") None))).
Proof.
  assert (Hs : serves (snd (connect flaky empty_world)) 0%nat (Amap.tools_dict demo_tools))
    by (exists (Some demo_tools); reflexivity).
  destruct (geocode_fails flaky _ 0%nat _ (u "望京") None Hs) as [_ H].
  destruct (H (mk_tool (u "maps_geo") 3)) as (He & _); [vm_compute; reflexivity|].
  apply (He RemoteError). reflexivity.
Defined.

Lemma plan_route_answers_witness :
  exists w2 t arguments,
    Amap.plan_route demo 0%nat (u "天安门") (u "北京") (u "故宫") (u "北京") (u "walking")
      ready_world
    = (Ok (VList []), noted w2 (ToolRun t arguments)).
Proof.
  set (w0 := noted ready_world
               (Call (u "plan_route")
                  [VStr (u "天安门"); VStr (u "北京"); VStr (u "故宫"); VStr (u "北京");
                   VStr (u "walking")])).
  set (w1 := snd (Amap.geocode demo 0%nat (u "天安门") (Some (u "北京")) w0)).
  set (w2 := snd (Amap.geocode demo 0%nat (u "故宫") (Some (u "北京")) w1)).
  assert (Hs : serves ready_world 0%nat (Amap.tools_dict demo_tools))
    by (exists (Some demo_tools); reflexivity).
  destruct (plan_route_answers demo ready_world w1 w2 0%nat (Amap.tools_dict demo_tools)
              (u "天安门") (u "北京") (u "故宫") (u "北京") (u "walking")
              (Location.mk 116.482086%float 39.990496%float)
              (Location.mk 116.482086%float 39.990496%float) [] []
              (Amap.plan_route demo 0%nat (u "天安门") (u "北京") (u "故宫") (u "北京")
                 (u "walking")) Hs) as [_ H];
    [vm_compute; reflexivity | vm_compute; reflexivity | left; reflexivity |].
  destruct (H (mk_tool (u "maps_direction_walking") 5)) as (_ & _ & Hp);
    [vm_compute; reflexivity|].
  eexists w2, _, _.
  apply (Hp (VList [VDict [(u "text", VStr (u "<route>"))]])
            [(u "route", VDict [(u "paths", VList [])])] [(u "paths", VList [])]);
    reflexivity.
Defined.

Lemma sync_service_ready_witness :
  exists r w1,
    AmapSync.get_amap_service demo empty_world = (Ok r, w1)
    /\ sync_amap_service (mem w1) = Some r
    /\ exists tools,
         sync_amap_mcp_tool (mem w1) = Some tools
         /\ serves w1 r (Amap.tools_dict tools).
Proof.
  destruct (sync_service_ready demo empty_world eq_refl) as [H _].
  exists 0%nat, (snd (AmapSync.get_amap_service demo empty_world)).
  split; [vm_compute; reflexivity|]. apply H. vm_compute. reflexivity.
Defined.

(** * The chat-model singletons and the orchestrator singleton *)

Section Models.
Context (X : externals).
Implicit Types (w : world) (r : ref).

(** X12.  [get_llm_DouBao] exports the API key of the settings to the
    environment exactly when the environment holds no key or an empty one; a
    non-empty key that is already there is never overwritten.  Nothing else
    in the environment changes, and the export stays even when the
    constructor of the chat model then raises. *)
Theorem get_llm_DouBao_environ w (settings : Settings) :
  get_settings X = Ok settings ->
  environ (mem (snd (Planner.get_llm_DouBao X w)))
  = match environ (mem w) !! Planner.OPENAI_API_KEY with
    | Some (c :: key) => environ (mem w)
    | _ => <[Planner.OPENAI_API_KEY := openai_api_key settings]> (environ (mem w))
    end.
Proof.
  intros Hs. rewrite get_llm_DouBao_steps. unfold bind at 1, lift at 1. rewrite Hs.
  unfold ensure_api_key, Planner.new, bind, get_store, modify, ask, alloc, ret, set_environ.
  destruct (environ (mem w) !! Planner.OPENAI_API_KEY) as [[|c key]|]; simpl;
    (destruct (_llm_instance_doubao (mem w)); simpl; [reflexivity|];
     destruct (construct X (trace w) ChatOpenAI); reflexivity).
Qed.

(** X13.  After [reset_llm], [get_llm] builds a new instance: a new object
    at a new address becomes the global.  The objects built before stay as
    they are, so an orchestrator keeps the instance it was built with; the
    second chat model and the orchestrator singleton are not reset. *)
Theorem reset_llm_rebuilds w r (settings : Settings) :
  _llm_instance (mem w) = Some r ->
  (r < length (heap (mem w)))%nat ->
  get_settings X = Ok settings ->
  construct X (trace w) HelloAgentsLLM = Ok tt ->
  exists r' w2,
    (do _ <- Planner.reset_llm; Planner.get_llm X) w = (Ok r', w2)
    /\ r' <> r
    /\ _llm_instance (mem w2) = Some r'
    /\ heap (mem w2) = heap (mem w) ++ [OLlm]
    /\ _llm_instance_doubao (mem w2) = _llm_instance_doubao (mem w)
    /\ _multi_agent_planner (mem w2) = _multi_agent_planner (mem w).
Proof.
  intros Hg Hr Hs Hc.
  unfold Planner.reset_llm, Planner.get_llm, Planner.new, bind, get_store, modify, lift,
    ask, alloc, ret. simpl. rewrite Hs, Hc. simpl.
  eexists _, _. split; [reflexivity|]. simpl. repeat split. lia.
Qed.

Lemma get_llm_planner_global w :
  _multi_agent_planner (mem (snd (Planner.get_llm X w))) = _multi_agent_planner (mem w).
Proof.
  unfold Planner.get_llm, Planner.new, bind, get_store, lift, ask, alloc, modify, ret.
  destruct (_llm_instance (mem w)); simpl; [reflexivity|].
  destruct (get_settings X); simpl; [|reflexivity].
  destruct (construct X (trace w) HelloAgentsLLM); reflexivity.
Qed.

Lemma get_llm_DouBao_planner_global w :
  _multi_agent_planner (mem (snd (Planner.get_llm_DouBao X w)))
  = _multi_agent_planner (mem w).
Proof.
  rewrite get_llm_DouBao_steps.
  unfold ensure_api_key, Planner.new, bind, get_store, lift, modify, ask, alloc, ret,
    set_environ.
  destruct (get_settings X); simpl; [|reflexivity].
  destruct (truthy_str (environ (mem w) !! Planner.OPENAI_API_KEY)); simpl;
    (destruct (_llm_instance_doubao (mem w)); simpl; [reflexivity|];
     destruct (construct X (trace w) ChatOpenAI); reflexivity).
Qed.

Lemma new_planner_object w r wa :
  Planner.new_MultiAgentTripPlanner X w = (Ok r, wa) ->
  _multi_agent_planner (mem wa) = _multi_agent_planner (mem w)
  /\ exists llm llm_doubao, heap (mem wa) !! r = Some (OPlanner llm llm_doubao None).
Proof.
  unfold Planner.new_MultiAgentTripPlanner. rewrite bind_emit. intros H.
  apply bind_Ok_inv in H as (llm & w1 & Hllm & H).
  apply bind_Ok_inv in H as (llm_doubao & w2 & Hd & H).
  unfold alloc in H. injection H as <- <-. simpl. split.
  - pose proof (get_llm_planner_global (noted w (Construct MultiAgentTripPlanner))) as H1.
    pose proof (get_llm_DouBao_planner_global w1) as H2.
    rewrite Hllm in H1. rewrite Hd in H2. simpl in *. congruence.
  - exists llm, llm_doubao. apply list_lookup_middle. reflexivity.
Qed.

(** X14.  A failed initialisation is kept: [get_trip_planner_agent] binds
    the global before [initialize_agents] runs, so when the agent cannot be
    created the exception reaches the caller once, and every later call
    hands out the same orchestrator, which has no planning agent. *)
Theorem failed_initialisation_is_kept w r wa (e : exn) :
  _multi_agent_planner (mem w) = None ->
  Planner.new_MultiAgentTripPlanner X w = (Ok r, wa) ->
  (forall model, create_agent X (trace wa) model (PLANNER_AGENT_PROMPT X) = Raise e) ->
  exists w1,
    Planner.get_trip_planner_agent X w = (Raise e, w1)
    /\ Planner.get_trip_planner_agent X w1 = (Ok r, w1)
    /\ Planner.self_planner_agent r w1 = (Raise AttributeError, w1).
Proof.
  intros Hg Hnew Hfail.
  destruct (new_planner_object _ _ _ Hnew) as (_ & llm & llm_doubao & Hobj).
  exists (noted (mk_world (set_multi_agent_planner (Some r) (mem wa)) (trace wa))
            (Call (u "create_agent") [])).
  split; [|split].
  - unfold Planner.get_trip_planner_agent. unfold bind at 1, get_store at 1. rewrite Hg.
    rewrite (bind_Ok _ _ _ _ _ Hnew).
    unfold bind at 1, modify at 1.
    unfold Planner.initialize_agents, mcatch, bind, load, ask, raise. simpl.
    rewrite Hobj, Hfail. reflexivity.
  - unfold Planner.get_trip_planner_agent, bind, get_store. reflexivity.
  - unfold Planner.self_planner_agent, bind, load. simpl. rewrite Hobj. reflexivity.
Qed.

End Models.

Lemma get_llm_DouBao_environ_witness :
  environ (mem (snd (Planner.get_llm_DouBao demo empty_world)))
  = <[Planner.OPENAI_API_KEY := u "sk-key"]> ∅.
Proof. apply (get_llm_DouBao_environ demo empty_world demo_settings). reflexivity. Defined.

Lemma reset_llm_rebuilds_witness :
  exists r' w2,
    (do _ <- Planner.reset_llm; Planner.get_llm demo) (planner_world demo) = (Ok r', w2)
    /\ r' <> 0%nat
    /\ _llm_instance (mem w2) = Some r'
    /\ heap (mem w2) = heap (mem (planner_world demo)) ++ [OLlm]
    /\ _llm_instance_doubao (mem w2) = _llm_instance_doubao (mem (planner_world demo))
    /\ _multi_agent_planner (mem w2) = _multi_agent_planner (mem (planner_world demo)).
Proof.
  apply (reset_llm_rebuilds demo (planner_world demo) 0%nat demo_settings).
  - reflexivity.
  - vm_compute. lia.
  - reflexivity.
  - reflexivity.
Defined.

Lemma failed_initialisation_is_kept_witness :
  exists w1,
    Planner.get_trip_planner_agent agentless empty_world = (Raise RemoteError, w1)
    /\ Planner.get_trip_planner_agent agentless w1 = (Ok 2%nat, w1)
    /\ Planner.self_planner_agent 2%nat w1 = (Raise AttributeError, w1).
Proof.
  apply (failed_initialisation_is_kept agentless empty_world 2%nat
           (snd (Planner.new_MultiAgentTripPlanner agentless empty_world)) RemoteError).
  - reflexivity.
  - vm_compute. reflexivity.
  - reflexivity.
Defined.

(** * The orchestrator: what [plan_trip] answers *)

Section PlanTrip.
Context (X : externals).
Implicit Types (w : world) (self : ref) (request : TripRequest.t).

Ltac calm :=
  repeat first
    [ apply grows_bind; [|intros ?]
    | apply grows_mcatch; [|intros ?]
    | match goal with
      | |- grows _ (match ?x with _ => _ end) => destruct x
      | |- grows _ (if ?x then _ else _) => destruct x
      | |- grows _ (ask _ _) => apply grows_ask; exact I
      | |- grows _ (emit _) => apply grows_emit; exact I
      end
    | solve [auto with effects] ].

Lemma connect_calm : grows not_invoke (connect X).
Proof.
  unfold connect, Amap.get_amap_service, Amap.init_mcp_tools, Amap.get_amap_mcp_tool.
  calm.
Qed.

Lemma search_poi_calm self (keywords city : pystr) (citylimit : bool) :
  grows not_invoke (Amap.search_poi X self keywords city citylimit).
Proof.
  unfold Amap.search_poi, Amap.get_tool, Amap.self_mcp_tools_dict, Amap.tool_arun. calm.
Qed.

Lemma get_weather_calm self (city : pystr) :
  grows not_invoke (Amap.get_weather X self city).
Proof.
  unfold Amap.get_weather, Amap.get_tool, Amap.self_mcp_tools_dict, Amap.tool_arun. calm.
Qed.

(** [plan_trip] up to the moment the planning agent is wanted: the three
    mapping calls always answer, change no object and consult no agent. *)
Lemma plan_trip_body_gathered self request w (service : ref) w1 :
  connect X w = (Ok service, w1) ->
  exists attractions weather hotels w4 tr,
    Planner.plan_trip_body X self request w
    = after_search X self request attractions weather hotels w4
    /\ mem w4 = mem w1
    /\ trace w4 = trace w ++ tr
    /\ Forall not_invoke tr.
Proof.
  intros Hc.
  destruct (connect_calm w) as (tr0 & Htr0 & Hq0). rewrite Hc in Htr0. simpl in Htr0.
  destruct (never_raises_search_poi X service (Planner.attraction_keyword request)
              (TripRequest.city request) true w1) as (a & w2 & Ha).
  pose proof (search_poi_calm service (Planner.attraction_keyword request)
                (TripRequest.city request) true w1) as (tr1 & Htr1 & Hq1).
  pose proof (keeps_store_search_poi X service (Planner.attraction_keyword request)
                (TripRequest.city request) true w1) as Hm1.
  rewrite Ha in Htr1, Hm1. simpl in Htr1, Hm1.
  destruct (never_raises_get_weather X service (TripRequest.city request) w2)
    as (b & w3 & Hb).
  pose proof (get_weather_calm service (TripRequest.city request) w2) as (tr2 & Htr2 & Hq2).
  pose proof (keeps_store_get_weather X service (TripRequest.city request) w2) as Hm2.
  rewrite Hb in Htr2, Hm2. simpl in Htr2, Hm2.
  destruct (never_raises_search_poi X service (u "{request.accommodation}酒店")
              (TripRequest.city request) true w3) as (c & w4 & Hh).
  pose proof (search_poi_calm service (u "{request.accommodation}酒店")
                (TripRequest.city request) true w3) as (tr3 & Htr3 & Hq3).
  pose proof (keeps_store_search_poi X service (u "{request.accommodation}酒店")
                (TripRequest.city request) true w3) as Hm3.
  rewrite Hh in Htr3, Hm3. simpl in Htr3, Hm3.
  exists a, b, c, w4, (tr0 ++ tr1 ++ tr2 ++ tr3).
  split; [|split; [congruence|split]].
  - rewrite (plan_trip_body_connect _ _ _ _ _ _ Hc).
    rewrite (bind_Ok _ _ _ _ _ Ha), (bind_Ok _ _ _ _ _ Hb), (bind_Ok _ _ _ _ _ Hh).
    reflexivity.
  - rewrite Htr3, Htr2, Htr1, Htr0, <- !app_assoc. reflexivity.
  - repeat (apply Forall_app; split); assumption.
Qed.

(** When [connect] raises, so does the [try] block, in the same world. *)
Lemma plan_trip_body_unconnected self request w (e : exn) w1 :
  connect X w = (Raise e, w1) ->
  Planner.plan_trip_body X self request w = (Raise e, w1).
Proof.
  unfold connect, Planner.plan_trip_body, bind.
  destruct (Amap.get_amap_service w) as [[service|e0] wa]; [|intros [= <- <-]; reflexivity].
  destruct (Amap.init_mcp_tools X service wa) as [[[]|e0] wb]; [discriminate|].
  intros [= <- <-]. reflexivity.
Qed.

Lemma after_search_agentless self request (a b c : pyval) w :
  (forall llm llm_doubao agent,
      heap (mem w) !! self <> Some (OPlanner llm llm_doubao (Some agent))) ->
  after_search X self request a b c w = (Raise AttributeError, w).
Proof.
  intros H. unfold after_search, Planner.self_planner_agent, bind, load.
  destruct (heap (mem w) !! self) as [[| | |llm llm_doubao [agent|]]|] eqn:Ho;
    try reflexivity.
  destruct (H llm llm_doubao agent). reflexivity.
Qed.

Lemma after_search_invoked self request (a b c : pyval) w
    (llm llm_doubao : ref) (agent : agent) :
  heap (mem w) !! self = Some (OPlanner llm llm_doubao (Some agent)) ->
  let planner_query := Planner._build_planner_query X request a b c in
  after_search X self request a b c w
  = (rbind (invoke X (trace w) agent planner_query) (fun planner_response =>
     rbind (py_get planner_response (u "messages") (VList [])) (fun messages =>
     rbind (py_index messages (-1)) (fun last_message =>
     rbind (py_attr last_message (u "content")) (fun content =>
     _parse_response (json_loads X) (TripPlan_of X) (pad_year X) content request)))),
     noted w (AgentInvoke agent planner_query)).
Proof.
  intros H planner_query. unfold after_search, Planner.self_planner_agent, bind, load, ask, lift.
  rewrite H. simpl. fold planner_query.
  destruct (invoke X (trace w) agent planner_query) as [planner_response|]; [|reflexivity].
  simpl.
  destruct (py_get planner_response (u "messages") (VList [])) as [messages|]; [|reflexivity].
  simpl. destruct (py_index messages (-1)) as [last_message|]; [|reflexivity].
  simpl. destruct (py_attr last_message (u "content")); reflexivity.
Qed.

Lemma get_amap_service_heap w (service : ref) wa :
  Amap.get_amap_service w = (Ok service, wa) ->
  (service < length (heap (mem wa)))%nat \/ heap (mem wa) = heap (mem w).
Proof.
  unfold Amap.get_amap_service, bind, get_store, emit, alloc, modify, ret.
  destruct (_amap_service (mem w)); intros [= <- <-]; simpl; [auto|].
  left. rewrite length_app. simpl. lia.
Qed.

(** [connect] builds no agent: an object that holds none before holds none
    after. *)
Lemma connect_builds_no_agent self w (service : ref) w1 :
  connect X w = (Ok service, w1) ->
  (forall llm llm_doubao agent,
      heap (mem w) !! self <> Some (OPlanner llm llm_doubao (Some agent))) ->
  forall llm llm_doubao agent,
    heap (mem w1) !! self <> Some (OPlanner llm llm_doubao (Some agent)).
Proof.
  unfold connect. intros H Hno.
  apply bind_Ok_inv in H as (s & wa & Hget & H).
  apply bind_Ok_inv in H as ([] & wb & Hinit & H).
  injection H as <- <-.
  assert (Hwa : forall llm llm_doubao agent,
             heap (mem wa) !! self <> Some (OPlanner llm llm_doubao (Some agent))).
  { revert Hget. unfold Amap.get_amap_service, bind, get_store, emit, alloc, modify, ret.
    destruct (_amap_service (mem w)); intros [= <- <-]; simpl; [exact Hno|].
    intros llm llm_doubao agent Hl.
    apply lookup_app_Some in Hl as [Hl|[_ Hl]]; [exact (Hno _ _ _ Hl)|].
    destruct (self - length (heap (mem w)))%nat; simpl in Hl; [discriminate|].
    discriminate. }
  unfold Amap.init_mcp_tools in Hinit.
  apply bind_Ok_inv in Hinit as (tools & wc & Htools & Hst).
  destruct (get_amap_mcp_tool_Ok _ _ _ _ Htools) as (_ & _ & Hh).
  unfold store_at, modify in Hst. injection Hst as <-. simpl. rewrite Hh.
  intros llm llm_doubao agent Hl.
  destruct (decide (s = self)) as [->|Hne].
  - apply list_lookup_insert_Some in Hl as [(_ & Hl & _)|(Hne & _)];
      [discriminate|congruence].
  - rewrite list_lookup_insert_ne in Hl by exact Hne. exact (Hwa _ _ _ Hl).
Qed.

(** X15.  An orchestrator that holds no planning agent (its
    [initialize_agents] never ran, or failed) answers every request with
    what the fallback generator gives, and no agent is ever invoked: the
    missing attribute is one more exception for the handler of
    [plan_trip]. *)
Theorem plan_trip_without_agent self request w (llm llm_doubao : ref) :
  heap (mem w) !! self = Some (OPlanner llm llm_doubao None) ->
  exists w' tr,
    Planner.plan_trip X self request w
    = (_create_fallback_plan (pad_year X) request, w')
    /\ trace w' = trace w ++ tr
    /\ Forall not_invoke tr.
Proof.
  intros Hself.
  assert (Hno : forall l ld agent,
             heap (mem w) !! self <> Some (OPlanner l ld (Some agent)))
    by (intros l ld agent; rewrite Hself; discriminate).
  unfold Planner.plan_trip.
  destruct (connect X w) as [[service|e] w1] eqn:Hc.
  - destruct (plan_trip_body_gathered self request w service w1 Hc)
      as (a & b & c & w4 & tr & Hbody & Hmem & Htr & Hq).
    rewrite after_search_agentless in Hbody.
    + exists w4, tr. rewrite (mcatch_Raise _ _ _ _ _ Hbody). auto.
    + rewrite Hmem. apply (connect_builds_no_agent self w service w1 Hc Hno).
  - destruct (connect_calm w) as (tr & Htr & Hq). rewrite Hc in Htr. simpl in Htr.
    exists w1, tr.
    rewrite (mcatch_Raise _ _ _ _ _ (plan_trip_body_unconnected self request w e w1 Hc)).
    auto.
Qed.

(** X16.  When the agent's answer holds no message (no [messages] entry, or
    an empty list), indexing the last message raises, and [plan_trip]
    answers with what the fallback generator gives. *)
Theorem plan_trip_without_messages self request w (service : ref) w1
    (llm llm_doubao : ref) (agent : agent) (fields : list (pystr * pyval)) :
  connect X w = (Ok service, w1) ->
  heap (mem w1) !! self = Some (OPlanner llm llm_doubao (Some agent)) ->
  (forall h query, invoke X h agent query = Ok (VDict fields)) ->
  assoc (u "messages") fields = None \/ assoc (u "messages") fields = Some (VList []) ->
  exists w',
    Planner.plan_trip X self request w
    = (_create_fallback_plan (pad_year X) request, w').
Proof.
  intros Hc Hself Hinvoke Hmessages.
  destruct (plan_trip_body_gathered self request w service w1 Hc)
    as (a & b & c & w4 & tr & Hbody & Hmem & _ & _).
  rewrite (after_search_invoked self request a b c w4 llm llm_doubao agent) in Hbody
    by (rewrite Hmem; exact Hself).
  rewrite Hinvoke in Hbody. simpl in Hbody.
  assert (Hraise : exists e w', Planner.plan_trip_body X self request w = (Raise e, w')).
  { rewrite Hbody. destruct Hmessages as [-> | ->]; simpl; eauto. }
  destruct Hraise as (e & w' & Hr).
  exists w'. unfold Planner.plan_trip. rewrite (mcatch_Raise _ _ _ _ _ Hr). reflexivity.
Qed.

Lemma list_index_last {A} (l : list A) (x : A) : list_index (l ++ [x]) (-1) = Ok x.
Proof.
  unfold list_index. rewrite length_app. simpl.
  replace (-1 + Z.of_nat (length l + 1)) with (Z.of_nat (length l)) by lia.
  replace (Z.of_nat (length l) <? 0) with false by (symmetry; apply Z.ltb_ge; lia).
  rewrite Nat2Z.id, list_lookup_middle by reflexivity. reflexivity.
Qed.

(** X17.  Of the agent's answer, [plan_trip] reads the last message only:
    when its content holds an extractable JSON text that decodes and that the
    data model accepts, that plan is the answer, whatever the earlier
    messages hold.  The agent is invoked exactly once, as the last step. *)
Theorem plan_trip_reads_last_message self request w (service : ref) w1
    (llm llm_doubao : ref) (agent : agent) (fields attrs : list (pystr * pyval))
    (earlier : list pyval) (response json_str : pystr) (data : pyval) (plan : TripPlan.t) :
  connect X w = (Ok service, w1) ->
  heap (mem w1) !! self = Some (OPlanner llm llm_doubao (Some agent)) ->
  (forall h query, invoke X h agent query = Ok (VDict fields)) ->
  assoc (u "messages") fields = Some (VList (earlier ++ [VObj attrs])) ->
  assoc (u "content") attrs = Some (VStr response) ->
  extract_json response = Ok json_str ->
  json_loads X json_str = Ok data ->
  TripPlan_of X data = Ok plan ->
  exists w' tr query,
    Planner.plan_trip X self request w = (Ok plan, w')
    /\ trace w' = trace w ++ tr ++ [AgentInvoke agent query]
    /\ Forall not_invoke tr.
Proof.
  intros Hc Hself Hinvoke Hmessages Hcontent Hextract Hjson Hplan.
  destruct (plan_trip_body_gathered self request w service w1 Hc)
    as (a & b & c & w4 & tr & Hbody & Hmem & Htr & Hq).
  rewrite (after_search_invoked self request a b c w4 llm llm_doubao agent) in Hbody
    by (rewrite Hmem; exact Hself).
  rewrite Hinvoke in Hbody. cbn [rbind py_get] in Hbody. rewrite Hmessages in Hbody.
  cbn [rbind py_index] in Hbody. rewrite list_index_last in Hbody.
  cbn [rbind py_attr] in Hbody. rewrite Hcontent in Hbody.
  cbn [rbind] in Hbody. unfold _parse_response, parse_body in Hbody.
  rewrite Hextract in Hbody.
  cbn [rbind] in Hbody. rewrite Hjson in Hbody. cbn [rbind] in Hbody.
  rewrite Hplan in Hbody. cbn [rcatch] in Hbody.
  eexists _, tr, _. unfold Planner.plan_trip. rewrite (mcatch_Ok _ _ _ _ _ Hbody).
  split; [reflexivity|]. split; [|exact Hq].
  simpl. rewrite Htr, <- app_assoc. reflexivity.
Qed.

(** X18.  When the provider's list cannot be loaded, [plan_trip] gives up
    before any search: it answers with what the fallback generator gives, and
    the only things it did were to build the service (if there was none) and
    to ask for the list.  No tool is run and the agent is not consulted. *)
Theorem plan_trip_without_catalog self request w (settings : Settings) (e : exn) :
  get_settings X = Ok settings ->
  _amap_mcp_tool (mem w) = None ->
  (forall h, get_tools X h = Raise e) ->
  exists w',
    Planner.plan_trip X self request w
    = (_create_fallback_plan (pad_year X) request, w')
    /\ trace w'
       = trace w
         ++ match _amap_service (mem w) with
            | None => [Construct AmapService]
            | Some _ => []
            end
         ++ [GetTools].
Proof.
  intros Hs Hcache Hfail.
  assert (Hc : exists w1,
             connect X w = (Raise e, w1)
             /\ trace w1
                = trace w
                  ++ match _amap_service (mem w) with
                     | None => [Construct AmapService]
                     | Some _ => []
                     end
                  ++ [GetTools]).
  { unfold connect, Amap.get_amap_service, Amap.init_mcp_tools, Amap.get_amap_mcp_tool,
      bind, get_store, emit, alloc, modify, lift, ask, ret.
    rewrite Hs. destruct (_amap_service (mem w)); simpl; rewrite Hcache, Hfail;
      eexists; (split; [reflexivity|]); simpl; rewrite <- ?app_assoc; reflexivity. }
  destruct Hc as (w1 & Hc & Htr).
  exists w1. unfold Planner.plan_trip.
  rewrite (mcatch_Raise _ _ _ _ _ (plan_trip_body_unconnected self request w e w1 Hc)).
  auto.
Qed.

End PlanTrip.

Lemma plan_trip_without_agent_witness :
  exists w' tr,
    Planner.plan_trip agentless 2%nat (beijing_request "2024-05-01" 2)
      (snd (Planner.get_trip_planner_agent agentless empty_world))
    = (_create_fallback_plan (pad_year agentless) (beijing_request "2024-05-01" 2), w')
    /\ trace w' = trace (snd (Planner.get_trip_planner_agent agentless empty_world)) ++ tr
    /\ Forall not_invoke tr.
Proof.
  apply (plan_trip_without_agent agentless 2%nat (beijing_request "2024-05-01" 2)
           (snd (Planner.get_trip_planner_agent agentless empty_world)) 0%nat 1%nat).
  vm_compute. reflexivity.
Defined.

Lemma plan_trip_without_messages_witness :
  exists w',
    Planner.plan_trip mute 2%nat (beijing_request "2024-05-01" 2) (planner_world mute)
    = (_create_fallback_plan (pad_year mute) (beijing_request "2024-05-01" 2), w').
Proof.
  apply (plan_trip_without_messages mute 2%nat (beijing_request "2024-05-01" 2)
           (planner_world mute) 3%nat (snd (connect mute (planner_world mute)))
           0%nat 1%nat (mk_agent 1%nat (u "planner prompt")) []).
  - vm_compute. reflexivity.
  - vm_compute. reflexivity.
  - reflexivity.
  - left. reflexivity.
Defined.

Lemma plan_trip_reads_last_message_witness :
  exists w' tr query,
    Planner.plan_trip helpful 2%nat (beijing_request "2024-05-01" 2) (planner_world helpful)
    = (Ok sample_plan, w')
    /\ trace w'
       = trace (planner_world helpful)
         ++ tr ++ [AgentInvoke (mk_agent 1%nat (u "planner prompt")) query]
    /\ Forall not_invoke tr.
Proof.
  apply (plan_trip_reads_last_message helpful 2%nat (beijing_request "2024-05-01" 2)
           (planner_world helpful) 3%nat (snd (connect helpful (planner_world helpful)))
           0%nat 1%nat (mk_agent 1%nat (u "planner prompt"))
           [(u "messages",
             VList ([VObj [(u "content", VStr (u "{ignored}"))]]
                    ++ [VObj [(u "content",
                               VStr (u "plan:" ++ u "```json" ++ u "{}" ++ u "```"))]]))]
           [(u "content", VStr (u "plan:" ++ u "```json" ++ u "{}" ++ u "```"))]
           [VObj [(u "content", VStr (u "{ignored}"))]]
           (u "plan:" ++ u "```json" ++ u "{}" ++ u "```") (u "{}") (VDict [])).
  - vm_compute. reflexivity.
  - vm_compute. reflexivity.
  - reflexivity.
  - reflexivity.
  - reflexivity.
  - vm_compute. reflexivity.
  - reflexivity.
  - reflexivity.
Defined.

Lemma plan_trip_without_catalog_witness :
  exists w',
    Planner.plan_trip offline 2%nat (beijing_request "2024-05-01" 2) (planner_world offline)
    = (_create_fallback_plan (pad_year offline) (beijing_request "2024-05-01" 2), w')
    /\ trace w'
       = trace (planner_world offline)
         ++ match _amap_service (mem (planner_world offline)) with
            | None => [Construct AmapService]
            | Some _ => []
            end
         ++ [GetTools].
Proof.
  apply (plan_trip_without_catalog offline 2%nat (beijing_request "2024-05-01" 2)
           (planner_world offline) demo_settings RemoteError); reflexivity.
Defined.

(** * Dates: ordinals and texts *)

Module DateFacts.
Import Datetime Calendar DatetimeFacts.

Lemma forallb_range (P : Z -> bool) (n i : Z) :
  forallb P (range n) = true -> 0 <= i < n -> P i = true.
Proof.
  intros H Hi. rewrite forallb_forall in H. apply H, range_In, Hi.
Qed.

Lemma all_from_sound (fuel : nat) (i j : Z) (P : Z -> bool) :
  all_from fuel i P = true -> i <= j < i + Z.of_nat fuel -> P j = true.
Proof.
  revert i. induction fuel as [|fuel IH]; intros i H Hj; [lia|].
  simpl in H. apply andb_prop in H as [H0 H1].
  destruct (Z.eq_dec j i) as [->|Hne]; [exact H0|].
  apply (IH (i + 1)); [exact H1|lia].
Qed.

(** Month and day of a day of the year are a date of that year. *)
Lemma md_of_doy_valid (leap : bool) (doy : Z) :
  0 <= doy < year_len leap ->
  1 <= fst (md_of_doy leap doy) <= 12
  /\ 1 <= snd (md_of_doy leap doy)
     <= (if (fst (md_of_doy leap doy) =? 2) && leap then 29
         else tbl DAYS_IN_MONTH (fst (md_of_doy leap doy))).
Proof.
  intros Hdoy.
  assert (Hall : forallb (fun n =>
                   forallb (fun l =>
                     let md := md_of_doy l n in
                     implb (n <? year_len l)
                       ((1 <=? fst md) && (fst md <=? 12) && (1 <=? snd md)
                        && (snd md <=? (if (fst md =? 2) && l then 29
                                        else tbl DAYS_IN_MONTH (fst md)))))
                     [true; false]) (range 366) = true)
    by (vm_compute; reflexivity).
  assert (Hd : 0 <= doy < 366) by (destruct leap; simpl in Hdoy; lia).
  pose proof (forallb_range _ _ _ Hall Hd) as H. cbv beta in H.
  rewrite forallb_forall in H.
  assert (Hin : In leap [true; false]) by (destruct leap; simpl; auto).
  specialize (H leap Hin). cbv zeta in H.
  replace (doy <? year_len leap) with true in H by (symmetry; apply Z.ltb_lt; lia).
  simpl in H. repeat (apply andb_prop in H as [H ?]).
  repeat match goal with
         | H : (_ <=? _) = true |- _ => apply Z.leb_le in H
         end.
  lia.
Qed.

(** The day of the year of a date gives the date back. *)
Lemma md_of_doy_inv (leap : bool) (m d : Z) :
  1 <= m <= 12 ->
  1 <= d <= (if (m =? 2) && leap then 29 else tbl DAYS_IN_MONTH m) ->
  let doy := tbl DAYS_BEFORE_MONTH m + (if (2 <? m) && leap then 1 else 0) + d - 1 in
  0 <= doy < year_len leap /\ md_of_doy leap doy = (m, d).
Proof.
  intros Hm Hd.
  assert (Hall : forallb (fun m =>
                   forallb (fun d =>
                     forallb (fun l =>
                       let doy := tbl DAYS_BEFORE_MONTH m
                                  + (if (2 <? m) && l then 1 else 0) + d - 1 in
                       implb ((1 <=? m) && (1 <=? d)
                              && (d <=? (if (m =? 2) && l then 29
                                         else tbl DAYS_IN_MONTH m)))
                         ((0 <=? doy) && (doy <? year_len l)
                          && bool_decide (md_of_doy l doy = (m, d))))
                       [true; false]) (range 32)) (range 13) = true)
    by (vm_compute; reflexivity).
  assert (Hd31 : 0 <= d < 32).
  { assert (tbl DAYS_IN_MONTH m <= 31).
    { assert (Hc : m = 1 \/ m = 2 \/ m = 3 \/ m = 4 \/ m = 5 \/ m = 6 \/ m = 7 \/ m = 8
                   \/ m = 9 \/ m = 10 \/ m = 11 \/ m = 12) by lia.
      repeat (destruct Hc as [->|Hc]; [vm_compute; discriminate|]).
      rewrite Hc. vm_compute. discriminate. }
    destruct ((m =? 2) && leap); lia. }
  assert (Hm13 : 0 <= m < 13) by lia.
  pose proof (forallb_range _ _ _ Hall Hm13) as H. cbv beta in H.
  pose proof (forallb_range _ _ _ H Hd31) as H'. cbv beta in H'.
  rewrite forallb_forall in H'.
  assert (Hin : In leap [true; false]) by (destruct leap; simpl; auto).
  specialize (H' leap Hin). cbv zeta in H'.
  replace (1 <=? m) with true in H' by (symmetry; apply Z.leb_le; lia).
  replace (1 <=? d) with true in H' by (symmetry; apply Z.leb_le; lia).
  replace (d <=? (if (m =? 2) && leap then 29 else tbl DAYS_IN_MONTH m)) with true in H'
    by (symmetry; apply Z.leb_le; lia).
  simpl in H'. apply andb_prop in H' as [H1 H2]. apply andb_prop in H1 as [H0 H1].
  apply Z.leb_le in H0. apply Z.ltb_lt in H1. apply bool_decide_eq_true in H2.
  cbv zeta. split; [lia|exact H2].
Qed.

(** The year of a date, split as [ord2ymd] splits ordinals. *)
Lemma year_decomp (y : Z) :
  1 <= y ->
  exists a b c e,
    0 <= a /\ 0 <= b < 4 /\ 0 <= c < 25 /\ 0 <= e < 4
    /\ y = 400 * a + 100 * b + 4 * c + e + 1.
Proof.
  intros Hy.
  exists ((y - 1) / 400), ((y - 1) mod 400 / 100), ((y - 1) mod 100 / 4), ((y - 1) mod 4).
  Z.div_mod_to_equations. lia.
Qed.

(** Round trip: a date of the calendar is the date of its ordinal. *)
Lemma ord2ymd_ymd2ord (d : date) :
  1 <= year d -> 1 <= month d <= 12 ->
  1 <= day d <= days_in_month (year d) (month d) ->
  ord2ymd (ymd2ord d) = d.
Proof.
  intros Hy Hm Hd. destruct d as [y m dd]. simpl in *.
  destruct (year_decomp y Hy) as (a & b & c & e & Ha & Hb & Hc & He & ->).
  unfold ymd2ord, days_before_month, days_in_month in *. simpl.
  rewrite days_before_year_decomp by assumption.
  rewrite is_leap_decomp in * by assumption. fold (leap_of b c e) in *.
  destruct (md_of_doy_inv (leap_of b c e) m dd Hm Hd) as [Hdoy Hmd]. cbv zeta in *.
  set (doy := tbl DAYS_BEFORE_MONTH m + (if (2 <? m) && leap_of b c e then 1 else 0)
              + dd - 1) in *.
  replace (DI400Y * a + DI100Y * b + DI4Y * c + 365 * e
           + (tbl DAYS_BEFORE_MONTH m + (if (2 <? m) && leap_of b c e then 1 else 0)) + dd)
    with (DI400Y * a + DI100Y * b + DI4Y * c + 365 * e + doy + 1) by (unfold doy; lia).
  rewrite ord2ymd_spec by assumption. rewrite Hmd. reflexivity.
Qed.

(** The ordinal of a date of the calendar up to year 9999 is in range. *)
Lemma ymd2ord_range (d : date) :
  1 <= year d <= MAXYEAR -> 1 <= month d <= 12 ->
  1 <= day d <= days_in_month (year d) (month d) ->
  1 <= ymd2ord d <= MAXORDINAL.
Proof.
  intros Hy Hm Hd. destruct d as [y m dd]. simpl in *.
  destruct (year_decomp y (proj1 Hy)) as (a & b & c & e & Ha & Hb & Hc & He & ->).
  unfold ymd2ord, days_before_month, days_in_month, MAXYEAR, MAXORDINAL in *. simpl.
  rewrite days_before_year_decomp by assumption.
  rewrite is_leap_decomp in * by assumption. fold (leap_of b c e) in *.
  destruct (md_of_doy_inv (leap_of b c e) m dd Hm Hd) as [Hdoy _]. cbv zeta in *.
  destruct (leap_of_cases b c e Hb Hc He) as [(Hl & H3 & H4)|(Hl & H4)];
    rewrite Hl in *; unfold year_len, DI400Y, DI100Y, DI4Y in *; lia.
Qed.

(** The date of an ordinal in range is a date of the calendar. *)
Lemma ord2ymd_valid (n : Z) :
  1 <= n <= MAXORDINAL ->
  1 <= year (ord2ymd n) <= MAXYEAR
  /\ 1 <= month (ord2ymd n) <= 12
  /\ 1 <= day (ord2ymd n) <= days_in_month (year (ord2ymd n)) (month (ord2ymd n)).
Proof.
  intros Hn. destruct (decomp_all n (proj1 Hn)) as [a b c e doy Ha Hb Hc He Hdoy ->].
  rewrite ord2ymd_spec by assumption. simpl.
  destruct (md_of_doy_valid (leap_of b c e) doy Hdoy) as [Hm Hd].
  unfold days_in_month. rewrite is_leap_decomp by assumption. fold (leap_of b c e).
  split; [|split; assumption].
  unfold MAXYEAR, MAXORDINAL, DI400Y, DI100Y, DI4Y in *.
  destruct (leap_of b c e); unfold year_len in Hdoy; lia.
Qed.

Lemma days_in_month_max (y m : Z) : 1 <= m <= 12 -> days_in_month y m <= 31.
Proof.
  intros Hm. unfold days_in_month.
  assert (Hc : m = 1 \/ m = 2 \/ m = 3 \/ m = 4 \/ m = 5 \/ m = 6 \/ m = 7 \/ m = 8
               \/ m = 9 \/ m = 10 \/ m = 11 \/ m = 12) by lia.
  repeat (destruct Hc as [->|Hc]; [destruct (is_leap y); vm_compute; discriminate|]).
  rewrite Hc. destruct (is_leap y); vm_compute; discriminate.
Qed.

Lemma digit_in_range (zs : list N) (c : N) (v : Z) : digit_in zs c = Some v -> 0 <= v <= 9.
Proof.
  induction zs as [|z zs IH]; simpl; [discriminate|].
  destruct ((z <=? c)%N && (c <? z + 10)%N) eqn:Hz; [|exact IH].
  apply andb_prop in Hz as [H1 H2]. apply N.leb_le in H1. apply N.ltb_lt in H2.
  intros [= <-]. lia.
Qed.

(** A date that [strptime] accepts is a date of the calendar. *)
Lemma strptime_ok_valid (s : pystr) (d : date) :
  strptime s = Ok d ->
  1 <= year d <= MAXYEAR /\ 1 <= month d <= 12
  /\ 1 <= day d <= days_in_month (year d) (month d).
Proof.
  unfold strptime. intros H.
  repeat match type of H with
         | match ?x with _ => _ end = _ => destruct x eqn:?
         | (if ?b then _ else _) = _ => destruct b eqn:?
         | Raise _ = Ok _ => discriminate H
         end.
  injection H as <-. simpl.
  match goal with Hm : match_month_day _ = Some _ |- _ =>
    apply StrptimeFacts.match_month_day_range in Hm as [Hm Hd] end.
  match goal with Hy : (MINYEAR <=? _) && _ = true |- _ =>
    apply andb_prop in Hy as [Hy Hdim]; apply Z.leb_le in Hy; apply Z.leb_le in Hdim;
    unfold MINYEAR in Hy end.
  repeat match goal with
         | Hdig : digit _ = Some _ |- _ => apply digit_in_range in Hdig
         end.
  unfold MAXYEAR. lia.
Qed.

Lemma zpad_year (y : Z) :
  0 <= y <= 9999 ->
  zpad 4 y = year_digits y /\ (1000 <= y -> of_int y = year_digits y).
Proof.
  intros Hy.
  assert (Hall : all_from (Z.to_nat 10000) 0
                   (fun y => let s := of_int y in
                             let digits := year_digits y in
                             bool_decide (replicate (4 - length s) 48%N ++ s = digits)
                             && implb (1000 <=? y) (bool_decide (s = digits))) = true)
    by (vm_compute; reflexivity).
  assert (Hr : 0 <= y < 0 + Z.of_nat (Z.to_nat 10000)) by lia.
  pose proof (all_from_sound _ _ _ _ Hall Hr) as H. cbv beta zeta in H.
  apply andb_prop in H as [H1 H2]. apply bool_decide_eq_true in H1. split; [exact H1|].
  intros H1000. replace (1000 <=? y) with true in H2 by (symmetry; apply Z.leb_le; lia).
  apply bool_decide_eq_true in H2. exact H2.
Qed.

Lemma digit_of (a : Z) : 0 <= a <= 9 -> digit (Z.to_N (48 + a)) = Some a.
Proof.
  intros Ha.
  assert (Hall : forallb (fun a => bool_decide (digit (Z.to_N (48 + a)) = Some a))
                   (range 10) = true) by (vm_compute; reflexivity).
  assert (Hr : 0 <= a < 10) by lia.
  pose proof (forallb_range _ _ _ Hall Hr) as H. cbv beta in H.
  apply bool_decide_eq_true in H. exact H.
Qed.

Lemma match_month_day_text (m d : Z) :
  1 <= m <= 12 -> 1 <= d <= 31 ->
  match_month_day (zpad 2 m ++ u "-" ++ zpad 2 d) = Some (m, d, []).
Proof.
  intros Hm Hd.
  assert (Hall : forallb (fun m =>
                   forallb (fun d =>
                     implb ((1 <=? m) && (1 <=? d))
                       (bool_decide (match_month_day (zpad 2 m ++ u "-" ++ zpad 2 d)
                                     = Some (m, d, []))))
                     (range 32)) (range 13) = true) by (vm_compute; reflexivity).
  assert (Hm13 : 0 <= m < 13) by lia. assert (Hd32 : 0 <= d < 32) by lia.
  pose proof (forallb_range _ _ _ Hall Hm13) as H. cbv beta in H.
  pose proof (forallb_range _ _ _ H Hd32) as H'. cbv beta in H'.
  replace (1 <=? m) with true in H' by (symmetry; apply Z.leb_le; lia).
  replace (1 <=? d) with true in H' by (symmetry; apply Z.leb_le; lia).
  apply bool_decide_eq_true in H'. exact H'.
Qed.

(** Round trip: the text [strftime] writes for a date of the calendar is
    read back by [strptime] as that date, provided the year is written with
    four digits. *)
Lemma strptime_strftime (pad : bool) (d : date) :
  1 <= year d <= MAXYEAR -> 1 <= month d <= 12 ->
  1 <= day d <= days_in_month (year d) (month d) ->
  pad = true \/ 1000 <= year d ->
  strptime (strftime pad d) = Ok d.
Proof.
  intros Hy Hm Hd Hpad. destruct d as [y m dd]. simpl in *. unfold MAXYEAR in Hy.
  pose proof (days_in_month_max y m Hm) as H31.
  destruct (zpad_year y ltac:(lia)) as [Hz Ho].
  assert (Hyear : (if pad then zpad 4 y else of_int y) = year_digits y).
  { destruct pad; [exact Hz|]. apply Ho. destruct Hpad; [discriminate|lia]. }
  unfold strftime. simpl year. simpl month. simpl day. rewrite Hyear.
  unfold year_digits. change (u "-") with [45%N]. cbn [app]. unfold strptime.
  assert (H1 : 0 <= y / 1000 <= 9) by (Z.div_mod_to_equations; lia).
  assert (H2 : 0 <= y / 100 mod 10 <= 9) by (Z.div_mod_to_equations; lia).
  assert (H3 : 0 <= y / 10 mod 10 <= 9) by (Z.div_mod_to_equations; lia).
  assert (H4 : 0 <= y mod 10 <= 9) by (Z.div_mod_to_equations; lia).
  rewrite !digit_of by assumption. rewrite N.eqb_refl.
  change (zpad 2 m ++ 45%N :: zpad 2 dd) with (zpad 2 m ++ u "-" ++ zpad 2 dd).
  rewrite match_month_day_text by lia.
  replace (1000 * (y / 1000) + 100 * (y / 100 mod 10) + 10 * (y / 10 mod 10) + y mod 10)
    with y by (Z.div_mod_to_equations; lia).
  replace ((MINYEAR <=? y) && (dd <=? days_in_month y m)) with true; [reflexivity|].
  symmetry. apply andb_true_intro. split; [apply Z.leb_le; unfold MINYEAR|apply Z.leb_le]; lia.
Qed.

End DateFacts.

(** * The fallback plan, for any request *)

Section FallbackPlan.
Import Datetime Calendar DatetimeFacts DateFacts.
Variable pad_year : bool.
Variable request : TripRequest.t.

(** With the start date parsed and the last day in the calendar, the plan
    holds one day per index, on consecutive dates from the start date. *)
Lemma fallback_days_from (start : date) :
  strptime (TripRequest.start_date request) = Ok start ->
  ymd2ord start + TripRequest.travel_days request - 1 <= MAXORDINAL ->
  exists plan,
    _create_fallback_plan pad_year request = Ok plan
    /\ length (TripPlan.days plan) = Z.to_nat (TripRequest.travel_days request)
    /\ forall (k : nat) (day : DayPlan.t),
         TripPlan.days plan !! k = Some day ->
         DayPlan.day_index day = Z.of_nat k
         /\ DayPlan.date day = strftime pad_year (Nat.iter k next_day start)
         /\ ymd2ord start + Z.of_nat k <= MAXORDINAL.
Proof.
  intros Hstart Hlast.
  pose proof (StrptimeFacts.strptime_ok_ordinal _ _ Hstart) as Hord.
  destruct (strptime_ok_valid _ _ Hstart) as (Hy & Hm & Hd).
  destruct (fallback_plan_ok pad_year request start Hstart Hord Hlast)
    as (days & Hall & Hplan).
  eexists. split; [exact Hplan|]. simpl. split.
  - rewrite <- (Forall2_length _ _ _ Hall), range_length. reflexivity.
  - intros k day Hday.
    destruct (Forall2_lookup_r _ _ _ _ _ Hall Hday) as (i & Hi & Hfi).
    apply range_lookup in Hi as [-> Hlt].
    rewrite fallback_day_ok in Hfi by lia.
    injection Hfi as <-. simpl. split; [reflexivity|]. split; [|lia].
    rewrite ord2ymd_iter by lia. rewrite ord2ymd_ymd2ord by lia. reflexivity.
Qed.

(** A plan is returned only when the last day is in the calendar. *)
Lemma fallback_in_range (start : date) (plan : TripPlan.t) :
  strptime (TripRequest.start_date request) = Ok start ->
  _create_fallback_plan pad_year request = Ok plan ->
  ymd2ord start + TripRequest.travel_days request - 1 <= MAXORDINAL.
Proof.
  intros Hstart Hplan.
  destruct (strptime_ok_valid _ _ Hstart) as (Hy & Hm & Hd).
  pose proof (ymd2ord_range start Hy Hm Hd) as Hord.
  destruct (Z_le_gt_dec (ymd2ord start + TripRequest.travel_days request - 1) MAXORDINAL)
    as [Hle|Hgt]; [exact Hle|].
  rewrite (fallback_plan_overflow pad_year request start Hstart) in Hplan by lia.
  discriminate.
Qed.

(** X19.  Whatever the start date, the days of a fallback plan are
    consecutive calendar days: there is one day for each index below
    [travel_days] (none when [travel_days] is zero or negative), the day at
    position [k] has [day_index = k], and its date is the parsed start date
    advanced by [k] days, written as [%Y-%m-%d]. *)
Theorem fallback_plan_consecutive_days (start : date) (plan : TripPlan.t) :
  strptime (TripRequest.start_date request) = Ok start ->
  _create_fallback_plan pad_year request = Ok plan ->
  length (TripPlan.days plan) = Z.to_nat (TripRequest.travel_days request)
  /\ forall (k : nat) (day : DayPlan.t),
       TripPlan.days plan !! k = Some day ->
       DayPlan.day_index day = Z.of_nat k
       /\ DayPlan.date day = strftime pad_year (Nat.iter k next_day start).
Proof.
  intros Hstart Hplan.
  destruct (fallback_days_from start Hstart (fallback_in_range start plan Hstart Hplan))
    as (plan' & Hplan' & Hlen & Hdays).
  assert (plan' = plan) by congruence. subst plan'.
  split; [exact Hlen|]. intros k day Hday.
  destruct (Hdays k day Hday) as (Hi & Hdate & _). auto.
Qed.

Lemma year_next_day (d : date) : year d <= year (next_day d).
Proof.
  unfold next_day.
  destruct (day d <? days_in_month (year d) (month d)); [simpl; lia|].
  destruct (month d <? 12); simpl; lia.
Qed.

Lemma year_iter_next_day (k : nat) (d : date) : year d <= year (Nat.iter k next_day d).
Proof.
  induction k as [|k IH]; simpl; [lia|].
  etransitivity; [exact IH|apply year_next_day].
Qed.

(** X20.  The date of every day of a fallback plan reads back: handed to
    [strptime] with the same format, it parses to the start date advanced by
    the day's position.  This needs the year written with four digits, which
    is the case from year 1000 on, and on platforms that pad [%Y]. *)
Theorem fallback_plan_dates_parse (start : date) (plan : TripPlan.t) :
  strptime (TripRequest.start_date request) = Ok start ->
  _create_fallback_plan pad_year request = Ok plan ->
  pad_year = true \/ 1000 <= year start ->
  forall (k : nat) (day : DayPlan.t),
    TripPlan.days plan !! k = Some day ->
    strptime (DayPlan.date day) = Ok (Nat.iter k next_day start).
Proof.
  intros Hstart Hplan Hpad k day Hday.
  pose proof (StrptimeFacts.strptime_ok_ordinal _ _ Hstart) as Hord.
  destruct (strptime_ok_valid _ _ Hstart) as (Hy & Hm & Hd).
  destruct (fallback_days_from start Hstart (fallback_in_range start plan Hstart Hplan))
    as (plan' & Hplan' & _ & Hdays).
  assert (plan' = plan) by congruence. subst plan'.
  destruct (Hdays k day Hday) as (_ & -> & Hmax).
  assert (Hiter : Nat.iter k next_day start = ord2ymd (ymd2ord start + Z.of_nat k))
    by (rewrite ord2ymd_iter by lia; rewrite ord2ymd_ymd2ord by lia; reflexivity).
  destruct (ord2ymd_valid (ymd2ord start + Z.of_nat k)) as (Hy' & Hm' & Hd'); [lia|].
  rewrite <- Hiter in Hy', Hm', Hd'.
  apply strptime_strftime; try assumption.
  destruct Hpad as [->|Hpad]; [left; reflexivity|right].
  pose proof (year_iter_next_day k start). lia.
Qed.

(** X21.  What a fallback plan carries besides its dates: the city, the
    start date and the end date are the request's own texts (the end date is
    not computed from the number of days); there is no weather and no budget;
    each day repeats the request's transportation and accommodation, proposes
    no hotel, and holds exactly two attractions, named after the city and
    numbered 1 and 2, lasting 120 minutes each with no ticket price, and
    exactly three meals: breakfast, lunch, dinner. *)
Theorem fallback_plan_shape (plan : TripPlan.t) :
  _create_fallback_plan pad_year request = Ok plan ->
  TripPlan.city plan = TripRequest.city request
  /\ TripPlan.start_date plan = TripRequest.start_date request
  /\ TripPlan.end_date plan = TripRequest.end_date request
  /\ TripPlan.weather_info plan = []
  /\ TripPlan.budget plan = None
  /\ Forall (fun day =>
              DayPlan.transportation day = TripRequest.transportation request
              /\ DayPlan.accommodation day = TripRequest.accommodation request
              /\ DayPlan.hotel day = None
              /\ List.map Attraction.name (DayPlan.attractions day)
                 = [TripRequest.city request ++ u "景点1";
                    TripRequest.city request ++ u "景点2"]
              /\ Forall (fun a => Attraction.visit_duration a = 120
                                  /\ Attraction.ticket_price a = None)
                        (DayPlan.attractions day)
              /\ List.map Meal.type (DayPlan.meals day)
                 = [Meal.breakfast; Meal.lunch; Meal.dinner])
            (TripPlan.days plan).
Proof.
  unfold _create_fallback_plan.
  destruct (strptime (TripRequest.start_date request)) as [start|]; [|discriminate].
  simpl. destruct (rmapM _ _) as [days|] eqn:Hdays; [|discriminate].
  simpl. intros [= <-]. simpl. repeat (split; [reflexivity|]).
  apply rmapM_Ok_Forall2 in Hdays.
  apply Forall_lookup. intros k day Hk.
  destruct (Forall2_lookup_r _ _ _ _ _ Hdays Hk) as (i & _ & Hfi).
  unfold fallback_day in Hfi.
  destruct (add_days start i); [|discriminate].
  simpl in Hfi. injection Hfi as <-. simpl.
  repeat (split; [reflexivity|]). split; [|reflexivity].
  repeat constructor.
Qed.

Lemma fallback_plan_raise_cases (e : exn) :
  _create_fallback_plan pad_year request = Raise e ->
  (e = ValueError /\ is_ok (strptime (TripRequest.start_date request)) = false)
  \/ (e = OverflowError
      /\ exists start,
           strptime (TripRequest.start_date request) = Ok start
           /\ 1 <= TripRequest.travel_days request
           /\ MAXORDINAL < ymd2ord start + TripRequest.travel_days request - 1).
Proof.
  intros H.
  destruct (strptime (TripRequest.start_date request)) as [start|e'] eqn:Hstart.
  - right.
    destruct (strptime_ok_valid _ _ Hstart) as (Hy & Hm & Hd).
    pose proof (ymd2ord_range start Hy Hm Hd) as Hord.
    destruct (Z_le_gt_dec (ymd2ord start + TripRequest.travel_days request - 1)
                MAXORDINAL) as [Hle|Hgt].
    + destruct (fallback_days_from start Hstart Hle) as (plan & Hplan & _). congruence.
    + rewrite (fallback_plan_overflow pad_year request start Hstart) in H by lia.
      injection H as <-. split; [reflexivity|]. exists start. repeat split; lia.
  - left. rewrite (strptime_raises_ValueError _ _ Hstart) in Hstart.
    rewrite (fallback_plan_bad_date pad_year request Hstart) in H.
    injection H as <-. auto.
Qed.

(** X22.  The fallback generator raises in exactly two cases: [ValueError]
    when the start date is not accepted by [strptime], and [OverflowError]
    when the start date is accepted and the stay, of at least one day, ends
    after 9999-12-31. *)
Theorem fallback_plan_raises (e : exn) :
  _create_fallback_plan pad_year request = Raise e
  <-> (e = ValueError /\ is_ok (strptime (TripRequest.start_date request)) = false)
      \/ (e = OverflowError
          /\ exists start,
               strptime (TripRequest.start_date request) = Ok start
               /\ 1 <= TripRequest.travel_days request
               /\ MAXORDINAL < ymd2ord start + TripRequest.travel_days request - 1).
Proof.
  split; [apply fallback_plan_raise_cases|].
  intros [[-> Hbad]|[-> (start & Hstart & Hn & Hgt)]].
  - apply fallback_plan_bad_date.
    destruct (strptime (TripRequest.start_date request)) as [d|e'] eqn:Hs;
      [discriminate|].
    rewrite (strptime_raises_ValueError _ _ Hs). reflexivity.
  - apply (fallback_plan_overflow pad_year request start Hstart); lia.
Qed.

End FallbackPlan.

Lemma fallback_plan_consecutive_days_witness :
  exists plan,
    _create_fallback_plan false (beijing_request "2023-12-31" 2) = Ok plan
    /\ length (TripPlan.days plan) = 2%nat
    /\ List.map DayPlan.date (TripPlan.days plan) = [u "2023-12-31"; u "2024-01-01"].
Proof.
  destruct (_create_fallback_plan false (beijing_request "2023-12-31" 2)) as [plan|] eqn:Hplan;
    [|vm_compute in Hplan; discriminate].
  exists plan. split; [reflexivity|].
  destruct (fallback_plan_consecutive_days false (beijing_request "2023-12-31" 2)
              (Datetime.mkdate 2023 12 31) plan eq_refl Hplan) as [Hlen Hdays].
  split; [exact Hlen|].
  destruct (TripPlan.days plan) as [|d0 [|d1 [|d2 rest]]]; try discriminate Hlen.
  destruct (Hdays 0%nat d0 eq_refl) as [_ H0].
  destruct (Hdays 1%nat d1 eq_refl) as [_ H1].
  simpl. rewrite H0, H1. reflexivity.
Defined.

Lemma fallback_plan_dates_parse_witness :
  exists plan day,
    _create_fallback_plan false (beijing_request "2023-12-31" 2) = Ok plan
    /\ TripPlan.days plan !! 1%nat = Some day
    /\ Datetime.strptime (DayPlan.date day) = Ok (Datetime.mkdate 2024 1 1).
Proof.
  destruct (_create_fallback_plan false (beijing_request "2023-12-31" 2)) as [plan|] eqn:Hplan;
    [|vm_compute in Hplan; discriminate].
  destruct (TripPlan.days plan !! 1%nat) as [day|] eqn:Hday.
  2: { exfalso. revert Hday. vm_compute in Hplan. injection Hplan as <-. discriminate. }
  exists plan, day. split; [reflexivity|]. split; [exact Hday|].
  assert (H1000 : 1000 <= Datetime.year (Datetime.mkdate 2023 12 31))
    by (vm_compute; discriminate).
  exact (fallback_plan_dates_parse false (beijing_request "2023-12-31" 2)
           (Datetime.mkdate 2023 12 31) plan eq_refl Hplan (or_intror H1000) 1%nat day Hday).
Defined.

Lemma fallback_plan_shape_witness :
  exists plan,
    _create_fallback_plan false (beijing_request "2024-05-01" 2) = Ok plan
    /\ TripPlan.end_date plan = u "2024-05-01"
    /\ length (TripPlan.days plan) = 2%nat.
Proof.
  destruct (_create_fallback_plan false (beijing_request "2024-05-01" 2)) as [plan|] eqn:Hplan;
    [|vm_compute in Hplan; discriminate].
  exists plan. split; [reflexivity|].
  destruct (fallback_plan_shape false (beijing_request "2024-05-01" 2) plan Hplan)
    as (_ & _ & Hend & _).
  split; [exact Hend|].
  vm_compute in Hplan. injection Hplan as <-. reflexivity.
Defined.

Section PlanTripRaises.
Context (X : externals).

(** X23.  The only exceptions that leave [plan_trip] are those of the
    fallback generator, run by the handler: [ValueError] when the request's
    start date is not accepted by [strptime], [OverflowError] when the stay
    ends after 9999-12-31.  Nothing that the mapping provider, the agent, the
    JSON decoder or the data model raises reaches the caller. *)
Theorem plan_trip_raises_only (self : ref) (request : TripRequest.t) (w w' : world)
    (e : exn) :
  Planner.plan_trip X self request w = (Raise e, w') ->
  _create_fallback_plan (pad_year X) request = Raise e
  /\ ((e = ValueError
       /\ is_ok (Datetime.strptime (TripRequest.start_date request)) = false)
      \/ (e = OverflowError
          /\ exists start,
               Datetime.strptime (TripRequest.start_date request) = Ok start
               /\ 1 <= TripRequest.travel_days request
               /\ Datetime.MAXORDINAL
                  < Datetime.ymd2ord start + TripRequest.travel_days request - 1)).
Proof.
  unfold Planner.plan_trip, mcatch, lift.
  destruct (Planner.plan_trip_body X self request w) as [[plan|e0] w1]; [discriminate|].
  intros [= H _]. split; [exact H|].
  apply (fallback_plan_raise_cases (pad_year X) request e H).
Qed.

End PlanTripRaises.

Lemma plan_trip_raises_only_witness :
  _create_fallback_plan (pad_year offline) (beijing_request "9999-12-31" 2)
  = Raise OverflowError
  /\ ((OverflowError = ValueError
       /\ is_ok (Datetime.strptime (TripRequest.start_date (beijing_request "9999-12-31" 2)))
          = false)
      \/ (OverflowError = OverflowError
          /\ exists start,
               Datetime.strptime (TripRequest.start_date (beijing_request "9999-12-31" 2))
               = Ok start
               /\ 1 <= TripRequest.travel_days (beijing_request "9999-12-31" 2)
               /\ Datetime.MAXORDINAL
                  < Datetime.ymd2ord start
                    + TripRequest.travel_days (beijing_request "9999-12-31" 2) - 1)).
Proof.
  apply (plan_trip_raises_only offline 2%nat (beijing_request "9999-12-31" 2)
           (planner_world offline)
           (snd (Planner.plan_trip offline 2%nat (beijing_request "9999-12-31" 2)
                   (planner_world offline)))).
  vm_compute. reflexivity.
Defined.

(** * Extraction of the JSON text: the edges *)

Section ExtractEdges.
Implicit Types pre body response mark : pystr.

Lemma slice_nat response (a b : nat) :
  (a <= length response)%nat -> (b <= length response)%nat ->
  slice response (Z.of_nat a) (Z.of_nat b) = take (b - a) (drop a response).
Proof.
  intros Ha Hb. unfold slice, clamp, len.
  replace (Z.of_nat a <? 0) with false by (symmetry; apply Z.ltb_ge; lia).
  replace (Z.of_nat b <? 0) with false by (symmetry; apply Z.ltb_ge; lia).
  f_equal; [|f_equal]; lia.
Qed.

(** [s[a:-1]]: everything from [a] on, but for the last character. *)
Lemma slice_minus_one pre body :
  slice (pre ++ body) (Z.of_nat (length pre)) (-1) = removelast body.
Proof.
  unfold slice, clamp, len. rewrite length_app.
  replace (Z.of_nat (length pre) <? 0) with false by (symmetry; apply Z.ltb_ge; lia).
  change (-1 <? 0) with true. cbv iota.
  replace (Z.to_nat (Z.max 0 (Z.min (Z.of_nat (length pre))
                                 (Z.of_nat (length pre + length body)))))
    with (length pre) by lia.
  rewrite drop_app_length.
  replace (Z.to_nat (Z.max 0 (Z.min (-1 + Z.of_nat (length pre + length body))
                                 (Z.of_nat (length pre + length body)))
                     - Z.max 0 (Z.min (Z.of_nat (length pre))
                                  (Z.of_nat (length pre + length body)))))
    with (pred (length body)) by lia.
  symmetry. apply removelast_firstn_len.
Qed.

Lemma find_from_absent mark response (k : nat) :
  (k <= length response)%nat ->
  (forall j, ~ occurs_at mark (drop k response) j) ->
  find_from mark response (Z.of_nat k) = -1.
Proof.
  intros Hk Hno. rewrite find_from_drop by exact Hk. rewrite find_aux_first_index.
  pose proof (first_index_spec mark (drop k response)) as Hs.
  destruct (first_index mark (drop k response)) as [i|]; [|reflexivity].
  destruct (Hno i (proj1 Hs)).
Qed.

(** What the two fenced branches compute when the fence is never closed. *)
Lemma unclosed_slice mark pre body :
  first_at mark (pre ++ mark ++ body) (length pre) ->
  (forall j, ~ occurs_at (u "```") body j) ->
  contains mark (pre ++ mark ++ body) = true
  /\ slice (pre ++ mark ++ body)
        (find mark (pre ++ mark ++ body) + Z.of_nat (length mark))
        (find_from (u "```") (pre ++ mark ++ body)
           (find mark (pre ++ mark ++ body) + Z.of_nat (length mark)))
     = removelast body.
Proof.
  intros Hopen Hno. split.
  - apply contains_true. exists (length pre). apply Hopen.
  - rewrite (find_first_at _ _ _ Hopen), <- Nat2Z.inj_add, <- length_app.
    rewrite (app_assoc pre mark body).
    rewrite find_from_absent.
    + apply slice_minus_one.
    + rewrite !length_app. lia.
    + rewrite drop_app_length. exact Hno.
Qed.

(** X24.  A fence that is opened and never closed costs the text its last
    character: the search for the closing fence answers -1, which the slice
    reads as "up to the last character, excluded".  So the extracted text is
    what follows the opening marker, less its last character, stripped. *)
Theorem extract_json_unclosed_fence_drops_last pre body :
  (first_at (u "```json") (pre ++ u "```json" ++ body) (length pre) ->
   (forall j, ~ occurs_at (u "```") body j) ->
   extract_json (pre ++ u "```json" ++ body) = Ok (strip (removelast body)))
  /\ (contains (u "```json") (pre ++ u "```" ++ body) = false ->
      first_at (u "```") (pre ++ u "```" ++ body) (length pre) ->
      (forall j, ~ occurs_at (u "```") body j) ->
      extract_json (pre ++ u "```" ++ body) = Ok (strip (removelast body))).
Proof.
  split.
  - intros Hopen Hno. destruct (unclosed_slice _ _ _ Hopen Hno) as [Hin Hslice].
    unfold extract_json. rewrite Hin. cbv zeta.
    change 7 with (Z.of_nat (length (u "```json"))). rewrite Hslice. reflexivity.
  - intros Hnj Hopen Hno. destruct (unclosed_slice _ _ _ Hopen Hno) as [Hin Hslice].
    unfold extract_json. rewrite Hnj, Hin. cbv zeta.
    change 3 with (Z.of_nat (length (u "```"))). rewrite Hslice. reflexivity.
Qed.

(** X25.  Without any fence, the extracted text runs from the first [{] to
    the last [}], both included; when the last [}] stands before the first
    [{], it is the empty text, which is then handed to the JSON decoder. *)
Theorem extract_json_brace_span response (i j : nat) :
  contains (u "```") response = false ->
  first_at (u "{") response i ->
  last_at (u "}") response j ->
  extract_json response = Ok (take (S j - i) (drop i response))
  /\ ((j < i)%nat -> extract_json response = Ok []).
Proof.
  intros Hno Hfirst Hlast.
  assert (Hi : (i <= length response)%nat) by apply Hfirst.
  assert (Hj : (S j <= length response)%nat).
  { destruct Hlast as [Hocc _]. change (u "}") with [125%N] in Hocc.
    apply occurs_at_char in Hocc. apply lookup_lt_Some in Hocc. lia. }
  assert (Hrun : extract_json response = Ok (take (S j - i) (drop i response))).
  { unfold extract_json.
    rewrite (no_fence_no_json_fence response Hno), Hno.
    replace (contains (u "{") response) with true
      by (symmetry; apply contains_true; exists i; apply Hfirst).
    replace (contains (u "}") response) with true
      by (symmetry; apply contains_true; exists j; apply Hlast).
    cbv zeta. simpl andb. cbv iota.
    rewrite (find_first_at _ _ _ Hfirst), (rfind_last_at _ _ _ Hlast).
    replace (Z.of_nat j + 1) with (Z.of_nat (S j)) by lia.
    rewrite slice_nat by assumption. reflexivity. }
  split; [exact Hrun|].
  intros Hlt. rewrite Hrun. replace (S j - i)%nat with 0%nat by lia. reflexivity.
Qed.

End ExtractEdges.

Lemma extract_json_unclosed_fence_drops_last_witness :
  extract_json (u "plan: " ++ u "```json" ++ u "{}") = Ok (u "{").
Proof.
  apply (proj1 (extract_json_unclosed_fence_drops_last (u "plan: ") (u "{}"))).
  - apply first_at_find. vm_compute. reflexivity.
  - apply contains_false. vm_compute. reflexivity.
Defined.

Lemma extract_json_brace_span_witness :
  extract_json (u "} or {") = Ok [].
Proof.
  assert (Hfirst : first_at (u "{") (u "} or {") 5)
    by (apply first_at_find; vm_compute; reflexivity).
  assert (Hlast : last_at (u "}") (u "} or {") 0).
  { change (u "}") with [125%N]. split.
    - apply occurs_at_char. reflexivity.
    - intros k Hk Hocc. apply occurs_at_char in Hocc.
      do 6 (destruct k as [|k]; [try lia; discriminate Hocc|]). discriminate Hocc. }
  apply (proj2 (extract_json_brace_span (u "} or {") 5 0 eq_refl Hfirst Hlast)). lia.
Defined.

(** * The POI routes *)

Section Routes.
Context (X : externals) (W : web).
Implicit Types (w : world) (self service : ref) (d : gmap pystr tool).

Lemma bind_connect {A : Type} (k : ref -> M A) w :
  (do amap_service <- Amap.get_amap_service;
   do _ <- Amap.init_mcp_tools X amap_service;
   k amap_service) w
  = match connect X w with
    | (Ok service, w1) => k service w1
    | (Raise e, w1) => (Raise e, w1)
    end.
Proof.
  unfold connect, bind.
  destruct (Amap.get_amap_service w) as [[service|e] wa]; [|reflexivity].
  destruct (Amap.init_mcp_tools X service wa) as [[[]|e] wb]; reflexivity.
Qed.

Lemma failing_tool_step {A : Type} w self d (name : pystr) (arguments : gmap pystr pyval)
    (k : pyval -> M A) :
  serves w self d ->
  d !! name = None
  \/ (exists t e, d !! name = Some t /\ arun X (trace w) t arguments = Raise e) ->
  exists e w',
    (do tool <- Amap.get_tool self name;
     do result <- Amap.tool_arun X tool arguments;
     k result) w = (Raise e, w').
Proof.
  intros Hs Hfail. rewrite (tool_step X _ _ _ _ _ _ Hs).
  destruct Hfail as [-> | (t & e & -> & ->)]; eauto.
Qed.

Lemma search_poi_failing w self d (keywords city : pystr) (citylimit : bool) :
  serves w self d ->
  (forall name, d !! name = None
                \/ exists t, d !! name = Some t
                             /\ forall h arguments, exists e, arun X h t arguments = Raise e) ->
  exists w', Amap.search_poi X self keywords city citylimit w = (Ok (VList []), w').
Proof.
  intros Hs Hfail. unfold Amap.search_poi. rewrite bind_emit. unfold mcatch.
  match goal with |- context [Amap.tool_arun X _ ?args] =>
    destruct (failing_tool_step
                (noted w (Call (u "search_poi") [VStr keywords; VStr city; VBool citylimit]))
                self d (u "maps_text_search") args
                (fun result =>
                   do poi_json <- lift (Amap.decode_result X result);
                   do pois <- lift (py_get poi_json (u "pois") VNone);
                   ret pois)) as (e & w' & Hr)
  end.
  - apply serves_noted, Hs.
  - destruct (Hfail (u "maps_text_search")) as [Hn|(t & Ht & Hr)]; [left; exact Hn|right].
    match goal with |- context [arun X ?h _ ?args] =>
      destruct (Hr h args) as [e He] end.
    eauto.
  - rewrite Hr. eauto.
Qed.

Lemma get_poi_detail_failing w self d (poi_id : pystr) :
  serves w self d ->
  (forall name, d !! name = None
                \/ exists t, d !! name = Some t
                             /\ forall h arguments, exists e, arun X h t arguments = Raise e) ->
  exists w', Amap.get_poi_detail X self poi_id w = (Ok (VDict []), w').
Proof.
  intros Hs Hfail. unfold Amap.get_poi_detail. rewrite bind_emit. unfold mcatch.
  destruct (failing_tool_step
              (noted w (Call (u "get_poi_detail") [VStr poi_id]))
              self d (u "maps_search_detail") {[ u "id" := VStr poi_id ]}
              (fun result =>
                 do poi_detail_info <- lift (Amap.decode_result X result);
                 ret poi_detail_info)) as (e & w' & Hr).
  - apply serves_noted, Hs.
  - destruct (Hfail (u "maps_search_detail")) as [Hn|(t & Ht & Hr)]; [left; exact Hn|right].
    match goal with |- context [arun X ?h _ ?args] =>
      destruct (Hr h args) as [e He] end.
    eauto.
  - rewrite Hr. eauto.
Qed.

(** X26.  The two routes report a failure of the mapping tool as a
    success: once the service is connected, a search or detail tool that is
    missing from the catalog, or whose run raises, makes the facade answer
    its empty value, and the route wraps that value in an envelope with
    [success = True] (provided the response model accepts it); no HTTP error
    is raised. *)
Theorem routes_mask_tool_failures w service w1 d
    (keywords poi_id : pystr) (city : option pystr) (found detail : pyval) :
  connect X w = (Ok service, w1) ->
  serves w1 service d ->
  (forall name, d !! name = None
                \/ exists t, d !! name = Some t
                             /\ forall h arguments, exists e, arun X h t arguments = Raise e) ->
  POISearchResponse_data W (VList []) = Ok found ->
  POIDetailResponse_data W (VDict []) = Ok detail ->
  (exists w',
      Poi.search_poi X W keywords city w
      = (Answer (mk_envelope true (u "搜索成功") found), w'))
  /\ (exists w',
        Poi.get_poi_detail X W poi_id w
        = (Answer (mk_envelope true (u "获取POI详情成功") detail), w')).
Proof.
  intros Hc Hs Hfail Hfound Hdetail. split.
  - unfold Poi.search_poi, Poi.handle. rewrite bind_connect, Hc.
    destruct (search_poi_failing w1 service d keywords
                (match city with Some c => c | None => u "北京" end) true Hs Hfail)
      as [w' Hr].
    rewrite (bind_Ok _ _ _ _ _ Hr). unfold bind, lift, ret. rewrite Hfound. eauto.
  - unfold Poi.get_poi_detail, Poi.handle. rewrite bind_connect, Hc.
    destruct (get_poi_detail_failing w1 service d poi_id Hs Hfail) as [w' Hr].
    rewrite (bind_Ok _ _ _ _ _ Hr). unfold bind, lift, ret. rewrite Hdetail. eauto.
Qed.

(** X27.  The routes answer HTTP 500 when the provider's list cannot be
    loaded: [init_mcp_tools] is outside the facade's own [try] blocks, so its
    exception reaches the handler of the route, whose detail text is the
    route's label followed by the text of the exception.  No tool is run. *)
Theorem routes_fail_without_catalog w (settings : Settings) (e : exn)
    (keywords poi_id : pystr) (city : option pystr) :
  get_settings X = Ok settings ->
  _amap_mcp_tool (mem w) = None ->
  get_tools X (trace (snd (Amap.get_amap_service w))) = Raise e ->
  let w1 := noted (snd (Amap.get_amap_service w)) GetTools in
  Poi.search_poi X W keywords city w
  = (HTTPException 500 (u "搜索POI失败: " ++ str_of_exn W e), w1)
  /\ Poi.get_poi_detail X W poi_id w
     = (HTTPException 500 (u "获取POI详情失败: " ++ str_of_exn W e), w1).
Proof.
  intros Hs Hcache Hfail w1.
  assert (Hc : connect X w = (Raise e, w1)).
  { revert Hfail. unfold w1.
    unfold connect, Amap.get_amap_service, Amap.init_mcp_tools, Amap.get_amap_mcp_tool,
      bind, get_store, emit, alloc, modify, lift, ask, ret.
    rewrite Hs. destruct (_amap_service (mem w)); simpl; rewrite Hcache; simpl;
      intros ->; reflexivity. }
  split.
  - unfold Poi.search_poi, Poi.handle. rewrite bind_connect, Hc. reflexivity.
  - unfold Poi.get_poi_detail, Poi.handle. rewrite bind_connect, Hc. reflexivity.
Qed.

End Routes.

Lemma routes_mask_tool_failures_witness :
  (exists w',
      Poi.search_poi flaky demo_web (u "故宫") None empty_world
      = (Answer (mk_envelope true (u "搜索成功") (VList [])), w'))
  /\ (exists w',
        Poi.get_poi_detail flaky demo_web (u "B000A8UIN8") empty_world
        = (Answer (mk_envelope true (u "获取POI详情成功") (VDict [])), w')).
Proof.
  apply (routes_mask_tool_failures flaky demo_web empty_world 0%nat
           (snd (connect flaky empty_world)) (Amap.tools_dict demo_tools)
           (u "故宫") (u "B000A8UIN8") None (VList []) (VDict [])).
  - vm_compute. reflexivity.
  - exists (Some demo_tools). reflexivity.
  - intros name. destruct (Amap.tools_dict demo_tools !! name) as [t|]; [right|left; reflexivity].
    exists t. split; [reflexivity|]. intros h arguments. exists RemoteError. reflexivity.
  - reflexivity.
  - reflexivity.
Defined.

Lemma routes_fail_without_catalog_witness :
  Poi.search_poi offline demo_web (u "故宫") None empty_world
  = (HTTPException 500 (u "搜索POI失败: " ++ u "RemoteError"),
     noted (snd (Amap.get_amap_service empty_world)) GetTools)
  /\ Poi.get_poi_detail offline demo_web (u "B000A8UIN8") empty_world
     = (HTTPException 500 (u "获取POI详情失败: " ++ u "RemoteError"),
        noted (snd (Amap.get_amap_service empty_world)) GetTools).
Proof.
  apply (routes_fail_without_catalog offline demo_web empty_world demo_settings RemoteError
           (u "故宫") (u "B000A8UIN8") None); reflexivity.
Defined.

(** * The parser, on every reply *)

Section ParseResponse.
Import Datetime.
Variable json_loads : pystr -> outcome pyval.
Variable TripPlan_of : pyval -> outcome TripPlan.t.
Variable pad_year : bool.
Implicit Types response mark rest text : pystr.






End ParseResponse.



(** * The orchestrator: [plan_trip] never raises *)

Section PlanTripStages.
Context (X : externals).
Implicit Types (w : world) (self : ref) (request : TripRequest.t).

(** The three mapping calls of [plan_trip] always answer, and change no
    object. *)
Lemma plan_trip_body_stages self request w (service : ref) w1 :
  connect X w = (Ok service, w1) ->
  exists attractions weather hotels w2 w3 w4,
    Amap.search_poi X service (Planner.attraction_keyword request)
      (TripRequest.city request) true w1 = (Ok attractions, w2)
    /\ Amap.get_weather X service (TripRequest.city request) w2 = (Ok weather, w3)
    /\ Amap.search_poi X service (u "{request.accommodation}酒店")
         (TripRequest.city request) true w3 = (Ok hotels, w4)
    /\ mem w4 = mem w1
    /\ Planner.plan_trip_body X self request w
       = after_search X self request attractions weather hotels w4.
Proof.
  intros Hc.
  destruct (never_raises_search_poi X service (Planner.attraction_keyword request)
              (TripRequest.city request) true w1) as (a & w2 & Ha).
  pose proof (keeps_store_search_poi X service (Planner.attraction_keyword request)
                (TripRequest.city request) true w1) as Hm1.
  rewrite Ha in Hm1. simpl in Hm1.
  destruct (never_raises_get_weather X service (TripRequest.city request) w2)
    as (b & w3 & Hb).
  pose proof (keeps_store_get_weather X service (TripRequest.city request) w2) as Hm2.
  rewrite Hb in Hm2. simpl in Hm2.
  destruct (never_raises_search_poi X service (u "{request.accommodation}酒店")
              (TripRequest.city request) true w3) as (c & w4 & Hh).
  pose proof (keeps_store_search_poi X service (u "{request.accommodation}酒店")
                (TripRequest.city request) true w3) as Hm3.
  rewrite Hh in Hm3. simpl in Hm3.
  exists a, b, c, w2, w3, w4.
  split; [exact Ha|]. split; [exact Hb|]. split; [exact Hh|]. split; [congruence|].
  rewrite (plan_trip_body_connect _ _ _ _ _ _ Hc).
  rewrite (bind_Ok _ _ _ _ _ Ha), (bind_Ok _ _ _ _ _ Hb), (bind_Ok _ _ _ _ _ Hh).
  reflexivity.
Qed.

(** With an agent, what follows the searches: the invocation, the reading
    of the last message, the parser. *)
Lemma after_search_read self request (a b c : pyval) w
    (llm llm_doubao : ref) (agent : agent) :
  heap (mem w) !! self = Some (OPlanner llm llm_doubao (Some agent)) ->
  after_search X self request a b c w
  = (rbind (invoke X (trace w) agent (Planner._build_planner_query X request a b c))
       (fun planner_response =>
          rbind (last_content planner_response) (fun content =>
          _parse_response (json_loads X) (TripPlan_of X) (pad_year X) content request)),
     noted w (AgentInvoke agent (Planner._build_planner_query X request a b c))).
Proof.
  intros H. rewrite (after_search_invoked X self request a b c w llm llm_doubao agent H).
  cbv zeta. f_equal.
  destruct (invoke X (trace w) agent _) as [planner_response|]; [|reflexivity].
  unfold last_content. cbn [rbind].
  destruct (py_get planner_response (u "messages") (VList [])) as [messages|];
    [|reflexivity].
  cbn [rbind]. destruct (py_index messages (-1)) as [last_message|]; reflexivity.
Qed.

(** C1 (amended).  When the start date parses and the last day of the stay
    is not after 9999-12-31, the fallback generator returns a plan and
    [plan_trip] always returns a plan.  Whatever raises inside its [try]
    block is answered with the fallback plan: a failure to obtain the service
    or to load the provider's list, a planning agent that is missing or whose
    invocation raises, a reply whose last message cannot be read.  A reply
    whose text cannot be extracted, decoded or validated is answered with the
    fallback plan by the parser.  Otherwise the answer is the validated plan
    of the reply.  The three mapping calls themselves always answer: a tool
    that fails gives an empty answer, not the fallback plan. *)
Theorem plan_trip_never_raises self request w (start : Datetime.date) :
  Datetime.strptime (TripRequest.start_date request) = Ok start ->
  Datetime.ymd2ord start + TripRequest.travel_days request - 1 <= Datetime.MAXORDINAL ->
  exists fallback_plan,
    _create_fallback_plan (pad_year X) request = Ok fallback_plan
    /\ (exists plan w', Planner.plan_trip X self request w = (Ok plan, w'))
    /\ (forall e w1,
          Planner.plan_trip_body X self request w = (Raise e, w1) ->
          Planner.plan_trip X self request w = (Ok fallback_plan, w1))
    /\ (forall e w1,
          connect X w = (Raise e, w1) ->
          Planner.plan_trip X self request w = (Ok fallback_plan, w1))
    /\ (forall service w1,
          connect X w = (Ok service, w1) ->
          exists attractions weather hotels w2 w3 w4,
            Amap.search_poi X service (Planner.attraction_keyword request)
              (TripRequest.city request) true w1 = (Ok attractions, w2)
            /\ Amap.get_weather X service (TripRequest.city request) w2 = (Ok weather, w3)
            /\ Amap.search_poi X service (u "{request.accommodation}酒店")
                 (TripRequest.city request) true w3 = (Ok hotels, w4)
            /\ ((forall llm llm_doubao agent,
                    heap (mem w1) !! self <> Some (OPlanner llm llm_doubao (Some agent))) ->
                Planner.plan_trip X self request w = (Ok fallback_plan, w4))
            /\ (forall llm llm_doubao agent,
                  heap (mem w1) !! self = Some (OPlanner llm llm_doubao (Some agent)) ->
                  let query :=
                    Planner._build_planner_query X request attractions weather hotels in
                  let w5 := noted w4 (AgentInvoke agent query) in
                  (forall e,
                      invoke X (trace w4) agent query = Raise e ->
                      Planner.plan_trip X self request w = (Ok fallback_plan, w5))
                  /\ (forall planner_response,
                        invoke X (trace w4) agent query = Ok planner_response ->
                        (forall e,
                            last_content planner_response = Raise e ->
                            Planner.plan_trip X self request w = (Ok fallback_plan, w5))
                        /\ (forall content,
                              last_content planner_response = Ok content ->
                              (forall e,
                                  parse_body (json_loads X) (TripPlan_of X) content
                                  = Raise e ->
                                  Planner.plan_trip X self request w
                                  = (Ok fallback_plan, w5))
                              /\ (forall plan,
                                    parse_body (json_loads X) (TripPlan_of X) content
                                    = Ok plan ->
                                    Planner.plan_trip X self request w = (Ok plan, w5)))))).
Proof.
  intros Hstart Hlast.
  destruct (fallback_plan_ok (pad_year X) request start Hstart
              (StrptimeFacts.strptime_ok_ordinal _ _ Hstart) Hlast)
    as (days & _ & Hfallback).
  match type of Hfallback with _ = Ok ?p => set (fallback_plan := p) in * end.
  exists fallback_plan. split; [exact Hfallback|].
  assert (Hcaught : forall e w1,
             Planner.plan_trip_body X self request w = (Raise e, w1) ->
             Planner.plan_trip X self request w = (Ok fallback_plan, w1)).
  { intros e w1 Hbody. unfold Planner.plan_trip.
    rewrite (mcatch_Raise _ _ _ _ _ Hbody). unfold lift. rewrite Hfallback. reflexivity. }
  assert (Hreturned : forall plan w1,
             Planner.plan_trip_body X self request w = (Ok plan, w1) ->
             Planner.plan_trip X self request w = (Ok plan, w1)).
  { intros plan w1 Hbody. unfold Planner.plan_trip.
    apply (mcatch_Ok _ _ _ _ _ Hbody). }
  split; [|split; [exact Hcaught|split]].
  - destruct (Planner.plan_trip_body X self request w) as [[plan|e] w1] eqn:Hbody; eauto.
  - intros e w1 Hc. apply (Hcaught e).
    apply (plan_trip_body_unconnected X self request w e w1 Hc).
  - intros service w1 Hc.
    destruct (plan_trip_body_stages self request w service w1 Hc)
      as (a & b & c & w2 & w3 & w4 & Ha & Hb & Hh & Hmem & Hbody).
    exists a, b, c, w2, w3, w4.
    split; [exact Ha|]. split; [exact Hb|]. split; [exact Hh|]. split.
    + intros Hno. apply (Hcaught AttributeError). rewrite Hbody.
      apply after_search_agentless. rewrite Hmem. exact Hno.
    + intros llm llm_doubao agent Hself query w5.
      rewrite (after_search_read self request a b c w4 llm llm_doubao agent) in Hbody
        by (rewrite Hmem; exact Hself).
      fold query in Hbody. fold w5 in Hbody. split.
      * intros e He. apply (Hcaught e). rewrite Hbody, He. reflexivity.
      * intros planner_response Hr. rewrite Hr in Hbody. cbn [rbind] in Hbody. split.
        -- intros e He. apply (Hcaught e). rewrite Hbody, He. reflexivity.
        -- intros content Hcontent. rewrite Hcontent in Hbody. cbn [rbind] in Hbody.
           unfold _parse_response in Hbody. split.
           ++ intros e He. apply Hreturned. rewrite Hbody, He. simpl.
              rewrite Hfallback. reflexivity.
           ++ intros plan Hp. apply Hreturned. rewrite Hbody, Hp. reflexivity.
Qed.

End PlanTripStages.

Lemma plan_trip_never_raises_witness :
  exists plan w',
    Planner.plan_trip demo 2%nat (beijing_request "2024-05-01" 2) (planner_world demo)
    = (Ok plan, w').
Proof.
  assert (Hlast : Datetime.ymd2ord (Datetime.mkdate 2024 5 1)
                  + TripRequest.travel_days (beijing_request "2024-05-01" 2) - 1
                  <= Datetime.MAXORDINAL) by (vm_compute; discriminate).
  destruct (plan_trip_never_raises demo 2%nat (beijing_request "2024-05-01" 2)
              (planner_world demo) (Datetime.mkdate 2024 5 1) eq_refl Hlast)
    as (fallback_plan & _ & Hok & _).
  exact Hok.
Defined.

(** C1, as stated, fails in two ways.  At the end of the calendar:
    "9999-12-31" is a well-formed start date, the mapping provider is out of
    reach, and for a two-day stay the fallback generator, run by the handler,
    raises [OverflowError] out of [plan_trip].  And a failure while gathering
    the mapping data need not give the fallback plan: here every tool of the
    provider fails, the three mapping calls answer the empty list, the agent
    is consulted all the same, and [plan_trip] returns the agent's plan, which
    has no day, while the fallback plan has two. *)
Lemma plan_trip_counterexample :
  (Datetime.strptime (TripRequest.start_date (beijing_request "9999-12-31" 2))
   = Ok (Datetime.mkdate 9999 12 31)
   /\ fst (Planner.plan_trip offline 2%nat (beijing_request "9999-12-31" 2)
             (planner_world offline))
      = Raise OverflowError)
  /\ (fst (Amap.search_poi flaky_helpful 3%nat (u "景点") (u "北京") true
             (snd (connect flaky_helpful (planner_world flaky_helpful))))
      = Ok (VList [])
      /\ fst (Planner.plan_trip flaky_helpful 2%nat (beijing_request "2024-05-01" 2)
                (planner_world flaky_helpful))
         = Ok sample_plan
      /\ length (TripPlan.days sample_plan) = 0%nat
      /\ exists fallback_plan,
           _create_fallback_plan (pad_year flaky_helpful) (beijing_request "2024-05-01" 2)
           = Ok fallback_plan
           /\ length (TripPlan.days fallback_plan) = 2%nat).
Proof.
  split; [split; vm_compute; reflexivity|].
  split; [vm_compute; reflexivity|]. split; [vm_compute; reflexivity|].
  split; [reflexivity|].
  eexists. split; [vm_compute; reflexivity|]. reflexivity.
Qed.
